(** * BMI Checker Bot: a shallow embedding of [bmi_bot.py]

    The program's parsers, metric functions and planning engine are
    written here as Rocq functions, one per Python function and under the
    same name.

    Numbers.  A Python [int] is a [Z].  A Python [float] is modelled twice.
    In the first reading it is the rational number typed or computed, a
    [Q], with the exact operations: this is the arithmetic the program
    approximates, and the statements made in it are those that the rounding
    of doubles does not touch: the structure of the results, inequalities
    and bounds, and values on which both arithmetics agree.  In the second
    reading, the module [B64], a float is an IEEE double, [nan] and the
    infinities included, and every operation rounds as the machine does:
    the statements that pin a rounded figure, or that turn on a threshold
    being crossed, are made on the functions of that module.

    Text.  A Python [str] is a [string] of ASCII characters; where a
    statement ranges over every line that can be typed, it says that the
    line is ASCII.

    Console.  [input] reads the next line of a list of pending lines; one
    pass through the body of a [while True] loop is a function to an
    [outcome], and the loop itself consumes lines until a pass returns. *)

From Stdlib Require Import ZArith QArith Qround Qabs Qpower Lia Lqa.
From Stdlib Require Import List String Ascii Bool.
Import ListNotations.

Local Open Scope string_scope.
Local Open Scope Z_scope.
Local Open Scope Q_scope.

(** ** Python's numeric built-ins *)

Module Py.

(** [x < y] and [x <= y] on floats, as booleans. *)
Definition leb (x y : Q) : bool := Qle_bool x y.
Definition ltb (x y : Q) : bool := negb (Qle_bool y x).

(** [int(x)]: truncation towards zero. *)
Definition int (x : Q) : Z :=
  if leb 0 x then Qfloor x else Qceiling x.

(** [round(x)]: the nearest integer, a tie going to the even neighbour. *)
Definition round (x : Q) : Z :=
  let f := Qfloor x in
  match Qcompare (x - inject_Z f) (1 # 2) with
  | Lt => f
  | Gt => (f + 1)%Z
  | Eq => if Z.even f then f else (f + 1)%Z
  end.

(** [round(x, n)] for [n >= 0]: the nearest multiple of [10^-n], ties to
    even; the result is kept in lowest terms. *)
Definition round_nd (x : Q) (n : nat) : Q :=
  let p := inject_Z (10 ^ Z.of_nat n) in
  Qred (inject_Z (round (x * p)) / p).

(** [max(a, b)] on ints. *)
Definition max (a b : Z) : Z := Z.max a b.

End Py.

(** ** Dictionaries

    A [dict] with string keys is an association list in insertion order.
    The values the program stores are ints, floats, strings, lists of
    strings and (label, factor) pairs. *)

Inductive pyval : Type :=
| VInt (z : Z)
| VFloat (q : Q)
| VStr (s : string)
| VList (l : list string).

Definition dict (V : Type) : Type := list (string * V).

Fixpoint dict_lookup {V : Type} (k : string) (d : dict V) : option V :=
  match d with
  | [] => None
  | (k', v) :: d' => if String.eqb k k' then Some v else dict_lookup k d'
  end.

(** [d.get(k, dflt)] *)
Definition dict_get {V : Type} (d : dict V) (k : string) (dflt : V) : V :=
  match dict_lookup k d with
  | Some v => v
  | None => dflt
  end.

Definition dict_keys {V : Type} (d : dict V) : list string := map fst d.

(** ** Strings: the [str] methods the program calls *)

Definition startswith (s p : string) : bool := String.prefix p s.

Definition lower_char (c : ascii) : ascii :=
  let n := nat_of_ascii c in
  if (65 <=? n)%nat && (n <=? 90)%nat then ascii_of_nat (n + 32) else c.

Fixpoint lower (s : string) : string :=
  match s with
  | EmptyString => EmptyString
  | String c s' => String (lower_char c) (lower s')
  end.

Definition isspace (c : ascii) : bool :=
  let n := nat_of_ascii c in
  ((9 <=? n)%nat && (n <=? 13)%nat) || ((28 <=? n)%nat && (n <=? 32)%nat).

Definition isdigit (c : ascii) : bool :=
  let n := nat_of_ascii c in
  (48 <=? n)%nat && (n <=? 57)%nat.

Fixpoint lstrip (s : string) : string :=
  match s with
  | EmptyString => EmptyString
  | String c s' => if isspace c then lstrip s' else s
  end.

Fixpoint rstrip (s : string) : string :=
  match s with
  | EmptyString => EmptyString
  | String c s' =>
      match rstrip s' with
      | EmptyString => if isspace c then EmptyString else String c EmptyString
      | r => String c r
      end
  end.

Definition strip (s : string) : string := rstrip (lstrip s).

(** [s.replace(old, new)] for a non-empty [old]: occurrences are found from
    the left and do not overlap.  [skip] counts the characters of a matched
    occurrence that are still to be passed over. *)
Fixpoint replace_from (skip : nat) (old new s : string) : string :=
  match s with
  | EmptyString => EmptyString
  | String c s' =>
      match skip with
      | S k => replace_from k old new s'
      | O =>
          if String.prefix old s
          then new ++ replace_from (String.length old - 1) old new s'
          else String c (replace_from 0 old new s')
      end
  end.

Definition replace (old new s : string) : string := replace_from 0 old new s.

Definition starts_blank (s : string) : bool :=
  match s with
  | EmptyString => true
  | String d _ => isspace d
  end.

(** [s.split()]: the maximal runs of non-blank characters.  A non-blank
    character opens a new word when a blank follows it and is otherwise
    put in front of the first word of the rest. *)
Fixpoint split (s : string) : list string :=
  match s with
  | EmptyString => []
  | String c s' =>
      if isspace c then split s'
      else
        match split s' with
        | w :: ws =>
            if starts_blank s' then String c EmptyString :: w :: ws
            else String c w :: ws
        | [] => [String c EmptyString]
        end
  end.

(** [p in s] *)
Fixpoint contains (p s : string) : bool :=
  String.prefix p s ||
  match s with
  | EmptyString => false
  | String _ s' => contains p s'
  end.

(** [all(c.isdigit() or c == '.' for c in p)] *)
Fixpoint all_digit_or_dot (p : string) : bool :=
  match p with
  | EmptyString => true
  | String c p' => (isdigit c || Ascii.eqb c ".") && all_digit_or_dot p'
  end.

(** ** Exceptions and [float(str)]

    [float] raises [ValueError] on text that is no number, and indexing an
    empty list raises [IndexError].  The literals [inf], [infinity] and
    [nan], which [float] accepts, denote no rational: they are reported as
    [NonFinite], and what the program does with such a value is left out of
    the model. *)

Inductive exn : Type := ValueError | IndexError | NonFinite.

Inductive result (A : Type) : Type :=
| Ok (a : A)
| Raise (e : exn).
Arguments Ok {A} a.
Arguments Raise {A} e.

Definition bind {A B : Type} (r : result A) (k : A -> result B) : result B :=
  match r with
  | Ok a => k a
  | Raise e => Raise e
  end.

Notation "x <- r ;; k" := (bind r (fun x => k))
  (at level 61, r at next level, right associativity).

Definition digit_value (c : ascii) : Z := Z.of_nat (nat_of_ascii c - 48).

(** A [digitpart] of Python's float grammar, [digit (["_"] digit)*], read
    from the front of [s]: the digits are accumulated onto [acc], [n] counts
    them, and the unread rest is returned. *)
Fixpoint digitpart (acc : Z) (n : nat) (s : string) : Z * nat * string :=
  match s with
  | EmptyString => (acc, n, s)
  | String c s' =>
      if isdigit c then digitpart (acc * 10 + digit_value c) (S n) s'
      else if Ascii.eqb c "_" && (0 <? n)%nat then
        match s' with
        | String d _ => if isdigit d then digitpart acc n s' else (acc, n, s)
        | EmptyString => (acc, n, s)
        end
      else (acc, n, s)
  end.

Definition read_sign (s : string) : bool * string :=
  match s with
  | String "-" r => (true, r)
  | String "+" r => (false, r)
  | _ => (false, s)
  end.

Definition is_nonfinite_literal (s : string) : bool :=
  let t := lower (snd (read_sign s)) in
  String.eqb t "inf" || String.eqb t "infinity" || String.eqb t "nan".

(** [float(s)]: blanks around the text are ignored, then
    [[sign] (digits ["." [digits]] | "." digits) [("e"|"E") [sign] digits]]. *)
Definition float_of_string (s : string) : result Q :=
  let s := strip s in
  if is_nonfinite_literal s then Raise NonFinite else
  let '(neg, s1) := read_sign s in
  let '(m1, n1, r1) := digitpart 0 0 s1 in
  let '(m, n2, r2) :=
    match r1 with
    | String "." r => digitpart m1 0 r
    | _ => (m1, O, r1)
    end in
  if (n1 + n2 =? 0)%nat then Raise ValueError else
  let mant := if neg then (- m)%Z else m in
  match r2 with
  | EmptyString => Ok (Qred (inject_Z mant * 10 ^ (- Z.of_nat n2)))
  | String c r3 =>
      if Ascii.eqb c "e" || Ascii.eqb c "E" then
        let '(eneg, r4) := read_sign r3 in
        let '(e, ne, r5) := digitpart 0 0 r4 in
        match ne, r5 with
        | S _, EmptyString =>
            let ex := if eneg then (- e)%Z else e in
            Ok (Qred (inject_Z mant * 10 ^ (ex - Z.of_nat n2)))
        | _, _ => Raise ValueError
        end
      else Raise ValueError
  end.

(** ** Quantity parsers

    One pass through the body of the [while True] loop of a parser either
    returns the canonical value, or prints a message and goes round again.
    A pass on which [float] met [inf] or [nan] is [Unmodelled]. *)

Inductive outcome : Type :=
| Return (v : Q)
| Continue (printed : string)
| Unmodelled.

(** [try: ... except Exception: print(msg)] *)
Definition try_except (body : result outcome) (msg : string) : outcome :=
  match body with
  | Ok o => o
  | Raise ValueError => Continue msg
  | Raise IndexError => Continue msg
  | Raise NonFinite => Unmodelled
  end.

(** The loop of [parse_weight], lines 56-60: the digits and points of the
    token go to [num], every other character to [unit], both in order. *)
Fixpoint split_num_unit (token num unit : string) : string * string :=
  match token with
  | EmptyString => (num, unit)
  | String ch token' =>
      if isdigit ch || Ascii.eqb ch "."
      then split_num_unit token' (num ++ String ch EmptyString) unit
      else split_num_unit token' num (unit ++ String ch EmptyString)
  end.

Definition weight_prompt_empty : string := "Please enter your weight.".
Definition weight_unknown_unit : string := "Unknown unit; use 'kg' or 'lb'.".
Definition weight_not_positive : string := "Weight must be positive.".
Definition weight_unparsed : string :=
  "Couldn't parse weight. Examples: '70', '70 kg', '154 lb'.".

Definition parse_weight_pass (line : string) : outcome :=
  let raw := lower (strip line) in
  if String.eqb raw "" then Continue weight_prompt_empty
  else
    try_except
      (let raw := replace "lbs" "lb" (replace "kgs" "kg" raw) in
       let parts := split (replace "," "." raw) in
       val_unit <-
         match parts with
         | [token] =>
             let '(num, unit) := split_num_unit token "" "" in
             val <- float_of_string num ;;
             Ok (val, if String.eqb unit "" then "kg" else unit)
         | p0 :: p1 :: _ =>
             val <- float_of_string p0 ;;
             Ok (val, p1)
         | [] => Raise IndexError
         end ;;
       let '(val, unit) := val_unit in
       if startswith unit "k" then
         let kg := val in
         if Py.leb kg 0 then Ok (Continue weight_not_positive)
         else Ok (Return (Py.round_nd kg 2))
       else if startswith unit "l" then
         let kg := val * (45359237 # 100000000) in
         if Py.leb kg 0 then Ok (Continue weight_not_positive)
         else Ok (Return (Py.round_nd kg 2))
       else Ok (Continue weight_unknown_unit))
      weight_unparsed.

Definition height_prompt_empty : string := "Please enter your height.".
Definition height_no_format : string :=
  "Couldn't parse height. Use '170 cm' or '5 ft 9 in' or '1.75 m'.".
Definition height_unparsed : string :=
  "Couldn't parse height. Examples: '170 cm', '5 ft 9 in', '1.75 m'.".

Definition double_quote : string := String (ascii_of_nat 34) EmptyString.

(** Lines 89-90: the synonyms of the units. *)
Definition normalize_height (raw : string) : string :=
  let raw :=
    replace "meter" "m"
      (replace "feet" "ft" (replace "'" " ft " (replace double_quote " in" raw))) in
  replace "cms" "cm" raw.

(** Lines 109-113: [prev] is [tokens[i-1]], absent at [i = 0]. *)
Fixpoint scan_units (prev : option string) (tokens : list string)
    (ft : option Q) (inch : Q) : result (option Q * Q) :=
  match tokens with
  | [] => Ok (ft, inch)
  | t :: rest =>
      ft <- match prev with
            | Some p => if String.eqb t "ft"
                        then (v <- float_of_string p ;; Ok (Some v))
                        else Ok ft
            | None => Ok ft
            end ;;
      inch <- match prev with
              | Some p => if String.eqb t "in" then float_of_string p else Ok inch
              | None => Ok inch
              end ;;
      scan_units (Some t) rest ft inch
  end.

Definition parse_height_pass (line : string) : outcome :=
  let raw := lower (strip line) in
  if String.eqb raw "" then Continue height_prompt_empty
  else
    try_except
      (let raw := normalize_height raw in
       let parts := split (replace "," "." raw) in
       let len := List.length parts in
       if (len =? 1)%nat
          || ((len =? 2)%nat && startswith (nth 1 parts "") "c") then
         num <- float_of_string (nth 0 parts "") ;;
         let cm :=
           if (len =? 1)%nat && Py.ltb num 3 then num * 100
           else if (len =? 1)%nat && Py.leb num 3 then num * 100
           else num in
         Ok (Return (Py.round_nd cm 1))
       else
         ft_inch <-
           (if contains "ft" raw || contains "foot" raw then
              let tokens := split (replace "in" " in " (replace "ft" " ft " raw)) in
              scan_units None tokens None 0
            else
              let nums := filter all_digit_or_dot parts in
              if (2 <=? List.length nums)%nat then
                ft <- float_of_string (nth 0 nums "") ;;
                inch <- float_of_string (nth 1 nums "") ;;
                Ok (Some ft, inch)
              else Ok (None, 0)) ;;
         match ft_inch with
         | (Some ft, inch) =>
             let cm := ft * (3048 # 100) + inch * (254 # 100) in
             Ok (Return (Py.round_nd cm 1))
         | (None, _) => Ok (Continue height_no_format)
         end)
      height_unparsed.

(** The [while True] loop around a pass: lines are consumed from [stdin]
    until a pass returns, and the messages printed on the way are collected
    (the prompts are not).  [input] raises [EOFError] when no line is left. *)
Inductive run : Type :=
| Returned (v : Q) (stdin : list string) (printed : list string)
| EOFError (printed : list string)
| OutsideModel.

Fixpoint input_loop (pass : string -> outcome) (stdin : list string) : run :=
  match stdin with
  | [] => EOFError []
  | line :: stdin' =>
      match pass line with
      | Return v => Returned v stdin' []
      | Continue msg =>
          match input_loop pass stdin' with
          | Returned v rest out => Returned v rest (msg :: out)
          | EOFError out => EOFError (msg :: out)
          | OutsideModel => OutsideModel
          end
      | Unmodelled => OutsideModel
      end
  end.

Definition positive_number_message : string :=
  "Please enter a positive number (e.g. 70 or 70.5).".

(** One pass of [safe_float_input], lines 27-34. *)
Definition safe_float_pass (line : string) : outcome :=
  let val := strip line in
  try_except
    (f <- float_of_string val ;;
     if Py.leb f 0 then Raise ValueError else Ok (Return f))
    positive_number_message.

Definition safe_float_input (stdin : list string) := input_loop safe_float_pass stdin.
Definition parse_weight (stdin : list string) := input_loop parse_weight_pass stdin.
Definition parse_height (stdin : list string) := input_loop parse_height_pass stdin.

(** ** Metrics *)

Definition ACTIVITY_LEVELS : dict (string * Q) :=
  [ ("1", ("sedentary (little or no exercise)", 12 # 10));
    ("2", ("lightly active (light exercise 1-3 days/week)", 1375 # 1000));
    ("3", ("moderately active (moderate exercise 3-5 days/week)", 155 # 100));
    ("4", ("very active (hard exercise 6-7 days/week)", 1725 # 1000));
    ("5", ("extra active (very hard exercise / physical job)", 19 # 10)) ].

(** [None] is the [ZeroDivisionError] of the division by a zero float. *)
Definition calculate_bmi (weight_kg height_cm : Q) : option Q :=
  let height_m := height_cm / 100 in
  if Qeq_bool (height_m * height_m) 0 then None
  else
    let bmi := weight_kg / (height_m * height_m) in
    Some (Py.round_nd bmi 1).

Definition bmi_category (bmi : Q) : string :=
  if Py.ltb bmi (185 # 10) then "Underweight"
  else if Py.leb (185 # 10) bmi && Py.ltb bmi 25 then "Normal (healthy weight)"
  else if Py.leb 25 bmi && Py.ltb bmi 30 then "Overweight"
  else "Obesity".

Definition bmr_mifflin_sex (weight height_cm : Q) (age : Z) (sex : string) : Q :=
  let s := lower sex in
  if startswith s "m" then
    10 * weight + (625 # 100) * height_cm - 5 * inject_Z age + 5
  else if startswith s "f" then
    10 * weight + (625 # 100) * height_cm - 5 * inject_Z age - 161
  else
    let bmr_m := 10 * weight + (625 # 100) * height_cm - 5 * inject_Z age + 5 in
    let bmr_f := 10 * weight + (625 # 100) * height_cm - 5 * inject_Z age - 161 in
    (bmr_m + bmr_f) / 2.

Definition estimate_tdee (weight height_cm : Q) (age : Z) (sex activity_key : string) : Z :=
  let bmr := bmr_mifflin_sex weight height_cm age sex in
  (* the default pair is [(None, 1.2)]; its label is never read *)
  let multiplier := snd (dict_get ACTIVITY_LEVELS activity_key ("", 12 # 10)) in
  let tdee := bmr * multiplier in
  Py.round tdee.

(** ** Planning engine *)

Definition activity_to_protein : dict Q :=
  [ ("1", 16 # 10); ("2", 16 # 10); ("3", 18 # 10); ("4", 2); ("5", 22 # 10) ].

Definition recommend_macros (suggested_calories : Z) (weight_kg : Q)
    (activity_key : string) : dict pyval :=
  let protein_g_per_kg := dict_get activity_to_protein activity_key (16 # 10) in
  let protein_g := Py.round (protein_g_per_kg * weight_kg) in
  let protein_kcal := (protein_g * 4)%Z in
  let fat_pct := 28 # 100 in
  let fat_kcal := inject_Z suggested_calories * fat_pct in
  let fat_g := Py.round (fat_kcal / 9) in
  let remaining_kcal := inject_Z suggested_calories - (inject_Z protein_kcal + fat_kcal) in
  let carb_g := Py.max (Py.round (remaining_kcal / 4)) 0 in
  [ ("protein_g", VInt protein_g);
    ("fat_g", VInt fat_g);
    ("carb_g", VInt carb_g);
    ("protein_kcal", VInt protein_kcal);
    ("fat_kcal", VInt (Py.int fat_kcal));
    ("carb_kcal", VInt (Py.int (if Py.ltb 0 remaining_kcal then remaining_kcal else 0))) ].

Definition no_deficit_message : string :=
  "Target weight is not less than current weight. No calorie deficit needed.".

Definition clamp_warning : string :=
  "Required deficit exceeds common safety recommendations; using max safe deficit of 1000 kcal/day. Consider a longer timeframe or consult a professional.".

Definition floor_warning : string :=
  "Calculated intake would fall below minimum recommended calories (1200 kcal/day). Use caution and consult a professional.".

(** [[w for w in ws if w]]: [None] and the empty string are dropped. *)
Fixpoint truthy (ws : list (option string)) : list string :=
  match ws with
  | [] => []
  | None :: ws' => truthy ws'
  | Some w :: ws' => if String.eqb w "" then truthy ws' else w :: truthy ws'
  end.

Definition recommend_calories_for_weight_loss (current_weight target_weight tdee : Q)
    (days : Z) (sex : string) : dict pyval :=
  let kg_to_lose := current_weight - target_weight in
  if Py.leb kg_to_lose 0 then
    [ ("message", VStr no_deficit_message) ]
  else
    let total_kcal_needed := kg_to_lose * 7700 in
    let daily_deficit := total_kcal_needed / inject_Z (Py.max days 1) in
    let max_safe_deficit := 1000 in
    let weekly_loss_kg := (daily_deficit * 7) / 7700 in
    let '(warning, daily_deficit, suggested_daily, est_weeks_needed) :=
      if Py.ltb max_safe_deficit daily_deficit then
        let daily_deficit := max_safe_deficit in
        (Some clamp_warning, daily_deficit, tdee - daily_deficit,
         (kg_to_lose * 7700) / (daily_deficit * 7))
      else
        (None, daily_deficit, tdee - daily_deficit, inject_Z days / 7) in
    let min_cal := 1200 in
    let '(suggested_daily, warning_min) :=
      if Py.ltb suggested_daily min_cal then (min_cal, Some floor_warning)
      else (suggested_daily, None) in
    [ ("kg_to_lose", VFloat (Py.round_nd kg_to_lose 2));
      ("total_kcal_needed", VInt (Py.int total_kcal_needed));
      ("daily_deficit", VInt (Py.int daily_deficit));
      ("suggested_daily_calories", VInt (Py.int suggested_daily));
      ("warnings", VList (truthy [warning; warning_min]));
      ("weekly_loss_kg", VFloat (Py.round_nd weekly_loss_kg 3));
      ("estimated_weeks_needed", VFloat (Py.round_nd est_weeks_needed 1)) ].

(** ** The interactive shell

    A function that reads and prints is a function of the lines still to be
    read: it gives its result, or the reason it stopped, the lines it left
    unread, and what it printed.  Only [print] is recorded; the prompts of
    [input] are not.  A printed f-string is kept as its pieces, the texts and
    the values between them, since the rendering of a float is not modelled.
    The texts are those of the source, byte for byte. *)

Definition nl : string := String (ascii_of_nat 10) EmptyString.

Inductive piece : Type :=
| Lit (s : string)
| Val (v : pyval).

Inductive printed : Type :=
| Line (s : string)
| Formatted (ps : list piece).

(** Why a call did not return: an exception nobody catches, a value outside
    the model, or, for the menu loop below, the end of its fuel. *)
Inductive stop : Type :=
| EndOfInput
| ZeroDivisionError
| KeyError
| NonFiniteValue
| OutOfFuel.

Definition IO (A : Type) : Type :=
  list string -> (A + stop) * list string * list printed.

Definition ret {A : Type} (a : A) : IO A := fun stdin => (inl a, stdin, []).

Definition raise {A : Type} (e : stop) : IO A := fun stdin => (inr e, stdin, []).

Definition iobind {A B : Type} (m : IO A) (k : A -> IO B) : IO B :=
  fun stdin =>
    let '(r, rest, out) := m stdin in
    match r with
    | inl a =>
        let '(r', rest', out') := k a rest in
        (r', rest', (out ++ out')%list)
    | inr e => (inr e, rest, out)
    end.

Notation "x <~ m ;; k" := (iobind m (fun x => k))
  (at level 61, m at next level, right associativity).
Notation "m ;;; k" := (iobind m (fun _ => k))
  (at level 61, right associativity).

Definition print (p : printed) : IO unit := fun stdin => (inl tt, stdin, [p]).

(** [input(...)]: the next line, or [EOFError]. *)
Definition input : IO string :=
  fun stdin =>
    match stdin with
    | [] => (inr EndOfInput, [], [])
    | line :: rest => (inl line, rest, [])
    end.

(** A parser called from the shell: its retry loop on the lines at hand. *)
Definition ask (pass : string -> outcome) : IO Q :=
  fun stdin =>
    match input_loop pass stdin with
    | Returned v rest out => (inl v, rest, map Line out)
    | EOFError out => (inr EndOfInput, [], map Line out)
    | OutsideModel => (inr NonFiniteValue, stdin, [])
    end.

Fixpoint for_each {A : Type} (l : list A) (body : A -> IO unit) : IO unit :=
  match l with
  | [] => ret tt
  | a :: l' => body a ;;; for_each l' body
  end.

(** [d[k]] *)
Definition item (d : dict pyval) (k : string) : IO pyval :=
  match dict_lookup k d with
  | Some v => ret v
  | None => raise KeyError
  end.

(** [k in d] *)
Definition has_key {V : Type} (d : dict V) (k : string) : bool :=
  match dict_lookup k d with
  | Some _ => true
  | None => false
  end.

(** [print(v)] of a value: a string is printed as it is. *)
Definition print_value (v : pyval) : IO unit :=
  match v with
  | VStr s => print (Line s)
  | _ => print (Formatted [Val v])
  end.

(** The list under the key [warnings] and the int under
    [suggested_daily_calories], which the planner always stores as such. *)
Definition as_list (v : pyval) : list string :=
  match v with
  | VList l => l
  | _ => []
  end.

Definition as_int (v : pyval) : Z :=
  match v with
  | VInt z => z
  | _ => 0%Z
  end.

Definition upper_char (c : ascii) : ascii :=
  let n := nat_of_ascii c in
  if (97 <=? n)%nat && (n <=? 122)%nat then ascii_of_nat (n - 32) else c.

Fixpoint upper (s : string) : string :=
  match s with
  | EmptyString => EmptyString
  | String c s' => String (upper_char c) (upper s')
  end.

(** [x or dflt] for a string [x] *)
Definition or_default (x dflt : string) : string :=
  if String.eqb x "" then dflt else x.

Definition tips_header : string :=
  nl ++ "General health tips:".

Definition menu_title : string :=
  nl ++ "BMI Checker Bot".

Definition menu_options : string :=
  "Options:" ++ nl ++ " 1) Check BMI" ++ nl ++ " 2) Create weight-loss calorie plan" ++ nl ++ " 3) Health tips" ++ nl ++ " 4) Exit".

Definition bmi_header : string :=
  nl ++ "-- BMI Calculator --".

Definition advice_underweight : string :=
  "Advice: If underweight, focus on nutritious calorie-dense foods and consider a medical check-up.".

Definition advice_normal : string :=
  "Advice: Maintain balanced nutrition and regular activity to keep your healthy weight.".

Definition advice_overweight : string :=
  "Advice: A modest calorie deficit and increased activity can help. Aim for 0.5–1 kg per week.".

Definition advice_obesity : string :=
  "Advice: For BMI in the obesity range, consult a healthcare professional for a personalized plan.".

Definition disclaimer_1 : string :=
  nl ++ "IMPORTANT — Read before using the calorie planner:".

Definition disclaimer_2 : string :=
  "This tool provides general educational information only. It is NOT a medical diagnosis or a replacement for professional medical, nutritional, or psychiatric advice.".

Definition disclaimer_3 : string :=
  "People who are pregnant or breastfeeding, under 18 years old, have a history of an eating disorder, or have serious medical conditions (heart disease, diabetes, etc.) should consult a healthcare professional before changing diet or exercise.".

Definition disclaimer_4 : string :=
  "If you do not wish to accept these limits, you may still use the BMI calculator and general tips, but personalized calorie plans will be disabled.".

Definition plans_disabled_1 : string :=
  nl ++ "Personalized calorie plans are disabled because you did not acknowledge the disclaimer.".

Definition plans_disabled_2 : string :=
  "You can still use BMI calculation and general health tips. To enable plans, restart the program and type 'I AGREE' when prompted.".

Definition planner_header : string :=
  nl ++ "-- Weight-loss calorie planner --".

Definition under_18_warning : string :=
  nl ++ "Warning: You are under 18. This tool is not suitable for children or adolescents. Please consult a pediatrician or registered dietitian.".

Definition older_adult_note : string :=
  nl ++ "Note: For older adults (80+), metabolic estimates may be less accurate. Consult your doctor for personalized guidance.".

Definition pregnancy_message : string :=
  nl ++ "Because you are pregnant/breastfeeding, please consult an obstetrician or registered dietitian before making changes to calories or weight goals.".

Definition medical_message : string :=
  nl ++ "Because of your medical condition, personalized guidance from a clinician or registered dietitian is recommended. This tool cannot safely provide that level of personalization.".

Definition activity_header : string :=
  "Select activity level:".

Definition warnings_header : string :=
  nl ++ "Warnings:".

Definition macros_header : string :=
  nl ++ "Suggested daily macronutrients (approx):".

Definition welcome : string :=
  "Welcome — this bot gives general guidance about BMI and calories. Not medical advice.".

Definition goodbye : string :=
  "Goodbye — consult a healthcare professional for medical advice.".

Definition invalid_choice : string :=
  "Invalid choice — try again.".

Definition health_tips : list string :=
  [ "Aim for 0.5–1 kg (1–2 lb) weight loss per week — it's safer and more sustainable.";
    "Prioritize protein and vegetables to stay full on fewer calories.";
    "Do a mix of resistance training and cardio — muscle helps raise metabolic rate.";
    "Get 7–9 hours of sleep per night; poor sleep increases hunger hormones.";
    "Stay hydrated and limit sugary drinks.";
    "Avoid extreme calorie restriction; consult a dietitian for personalized plans." ].

Definition print_health_tips : IO unit :=
  print (Line tips_header) ;;;
  for_each health_tips (fun t => print (Line ("- " ++ t))) ;;;
  print (Line "").

Definition menu : IO unit :=
  print (Line menu_title) ;;;
  print (Line menu_options).

Definition action_check_bmi : IO unit :=
  print (Line bmi_header) ;;;
  weight <~ ask parse_weight_pass ;;
  height <~ ask parse_height_pass ;;
  bmi <~ match calculate_bmi weight height with
         | Some bmi => ret bmi
         | None => raise ZeroDivisionError
         end ;;
  let category := bmi_category bmi in
  print (Formatted [Lit (nl ++ "Your BMI is "); Val (VFloat bmi); Lit " — ";
                    Val (VStr category)]) ;;;
  if String.eqb category "Underweight" then print (Line advice_underweight)
  else if String.eqb category "Normal (healthy weight)" then print (Line advice_normal)
  else if String.eqb category "Overweight" then print (Line advice_overweight)
  else print (Line advice_obesity).

Definition show_disclaimer_and_get_consent : IO bool :=
  print (Line disclaimer_1) ;;;
  print (Line disclaimer_2) ;;;
  print (Line disclaimer_3) ;;;
  print (Line disclaimer_4) ;;;
  line <~ input ;;
  let resp := strip line in
  ret (String.eqb (upper resp) "I AGREE").

(** [action_plan] from line 328 on: what follows the questions that can
    end the planner early. *)
Definition plan_dialogue (weight target : Q) (age : Z) (sex : string) : IO unit :=
  height <~ ask parse_height_pass ;;
  print (Line activity_header) ;;;
  for_each ACTIVITY_LEVELS
    (fun kv => print (Line (" " ++ fst kv ++ ") " ++ fst (snd kv)))) ;;;
  activity_line <~ input ;;
  let activity := or_default (strip activity_line) "1" in
  let tdee := estimate_tdee weight height age sex activity in
  print (Formatted
           [Lit (nl ++ "Estimated TDEE (calories/day to maintain current weight): ");
            Val (VInt tdee); Lit " kcal"]) ;;;
  weeks <~ ask safe_float_pass ;;
  let days := Py.int (inject_Z (Z.max 1 (Py.round (weeks * 7)))) in
  let plan :=
    recommend_calories_for_weight_loss weight target (inject_Z tdee) days sex in
  if has_key plan "message" then
    message <~ item plan "message" ;;
    print_value message
  else
    kg_to_lose <~ item plan "kg_to_lose" ;;
    weeks_needed <~ item plan "estimated_weeks_needed" ;;
    print (Formatted [Lit (nl ++ "To lose "); Val kg_to_lose;
                      Lit " kg (approx) in "; Val weeks_needed; Lit " weeks:"]) ;;;
    total <~ item plan "total_kcal_needed" ;;
    print (Formatted [Lit " - Total calories to lose: "; Val total; Lit " kcal"]) ;;;
    deficit <~ item plan "daily_deficit" ;;
    print (Formatted [Lit " - Daily calorie deficit needed: "; Val deficit;
                      Lit " kcal/day"]) ;;;
    suggested <~ item plan "suggested_daily_calories" ;;
    print (Formatted [Lit " - Suggested daily calorie intake: "; Val suggested;
                      Lit " kcal/day"]) ;;;
    weekly <~ item plan "weekly_loss_kg" ;;
    print (Formatted [Lit " - Estimated weekly loss (if followed): "; Val weekly;
                      Lit " kg/week"]) ;;;
    warnings <~ item plan "warnings" ;;
    (match as_list warnings with
     | [] => ret tt
     | _ :: _ =>
         print (Line warnings_header) ;;;
         warnings' <~ item plan "warnings" ;;
         for_each (as_list warnings') (fun w => print (Line ("- " ++ w)))
     end) ;;;
    suggested' <~ item plan "suggested_daily_calories" ;;
    let macros := recommend_macros (as_int suggested') weight activity in
    print (Line macros_header) ;;;
    protein_g <~ item macros "protein_g" ;;
    protein_kcal <~ item macros "protein_kcal" ;;
    print (Formatted [Lit " - Protein: "; Val protein_g; Lit " g (";
                      Val protein_kcal; Lit " kcal)"]) ;;;
    fat_g <~ item macros "fat_g" ;;
    fat_kcal <~ item macros "fat_kcal" ;;
    print (Formatted [Lit " - Fat: "; Val fat_g; Lit " g ("; Val fat_kcal;
                      Lit " kcal)"]) ;;;
    carb_g <~ item macros "carb_g" ;;
    carb_kcal <~ item macros "carb_kcal" ;;
    print (Formatted [Lit " - Carbs: "; Val carb_g; Lit " g ("; Val carb_kcal;
                      Lit " kcal)"]) ;;;
    print (Line "").

(** [action_plan], lines 295-326; an early [return] is the end of its
    branch. *)
Definition action_plan (consent : bool) : IO unit :=
  if negb consent then
    print (Line plans_disabled_1) ;;;
    print (Line plans_disabled_2)
  else
    print (Line planner_header) ;;;
    weight <~ ask parse_weight_pass ;;
    target <~ ask parse_weight_pass ;;
    age_f <~ ask safe_float_pass ;;
    let age := Py.int age_f in
    if (age <? 18)%Z then print (Line under_18_warning)
    else
      (if (80 <? age)%Z then print (Line older_adult_note) else ret tt) ;;;
      sex_line <~ input ;;
      let sex := or_default (strip sex_line) "other" in
      pregnant <~
        (if startswith (lower sex) "f" then
           preg_line <~ input ;;
           let preg := lower (strip preg_line) in
           ret (startswith preg "y")
         else ret false) ;;
      if pregnant then print (Line pregnancy_message)
      else
        med_line <~ input ;;
        let med := lower (strip med_line) in
        if startswith med "y" then print (Line medical_message)
        else plan_dialogue weight target age sex.

(** The [while True] loop of [main], lines 369-382.  Every round reads a
    line, so a round of fuel for each line to be read, and one more, is
    enough (see [main_has_fuel]). *)
Fixpoint menu_loop (fuel : nat) (consent : bool) : IO unit :=
  match fuel with
  | O => raise OutOfFuel
  | S fuel' =>
      menu ;;;
      line <~ input ;;
      let choice := strip line in
      if String.eqb choice "1" then action_check_bmi ;;; menu_loop fuel' consent
      else if String.eqb choice "2" then action_plan consent ;;; menu_loop fuel' consent
      else if String.eqb choice "3" then print_health_tips ;;; menu_loop fuel' consent
      else if String.eqb choice "4"
              || String.eqb (lower choice) "exit" || String.eqb (lower choice) "quit"
      then print (Line goodbye)
      else print (Line invalid_choice) ;;; menu_loop fuel' consent
  end.

Definition main : IO unit :=
  fun stdin =>
    (print (Line welcome) ;;;
     consent <~ show_disclaimer_and_get_consent ;;
     menu_loop (S (List.length stdin)) consent) stdin.

(** ** The same functions on IEEE doubles

    The definitions above compute with the numbers typed.  The program
    computes with binary64 floats: [float(s)] is the double nearest to the
    decimal, every operation rounds its exact result to the nearest double,
    ties to the even one, [round(x, n)] rounds the exact value of the double
    and converts the decimal found back to a double, and [inf] and [nan] are
    values like any other.  Where a statement depends on the last digit or
    on a threshold being crossed, it is made on the functions of this
    module, which follow the same source lines with that arithmetic.

    A finite double is kept as the rational it is; the sign of a zero is
    not kept, as it shows only in how a zero is printed. *)

Module B64.

Inductive float : Type :=
| Fin (q : Q)
| Inf (negative : bool)
| NaN.

Definition two_to (e : Z) : Q := Qpower 2 e.

(** The integer part of the binary logarithm of a positive rational. *)
Definition log2_floor (a : Q) : Z :=
  let e0 := (Z.log2 (Qnum a) - Z.log2 (Zpos (Qden a)))%Z in
  if Qle_bool (two_to e0) a then e0 else (e0 - 1)%Z.

(** The double nearest to [x]: 53 significant bits, no bit below 2^-1074,
    ties to the even significand, infinity from 2^1024 on. *)
Definition fl (x : Q) : float :=
  if Qeq_bool x 0 then Fin 0 else
  let a := Qabs x in
  let ex := Z.max (log2_floor a - 52) (-1074) in
  let r := inject_Z (Py.round (a / two_to ex)) * two_to ex in
  let negative := negb (Qle_bool 0 x) in
  if Qle_bool (two_to 1024) r then Inf negative
  else Fin (Qred (if negative then - r else r)).

(** An int as a float. *)
Definition of_Z (z : Z) : float := fl (inject_Z z).

Definition is_negative (q : Q) : bool := negb (Qle_bool 0 q).

Definition is_zero (x : float) : bool :=
  match x with
  | Fin q => Qeq_bool q 0
  | _ => false
  end.

Definition opp (x : float) : float :=
  match x with
  | Fin q => Fin (Qred (- q))
  | Inf s => Inf (negb s)
  | NaN => NaN
  end.

Definition add (x y : float) : float :=
  match x, y with
  | NaN, _ | _, NaN => NaN
  | Fin a, Fin b => fl (a + b)
  | Inf s, Inf t => if Bool.eqb s t then Inf s else NaN
  | Inf s, Fin _ => Inf s
  | Fin _, Inf t => Inf t
  end.

Definition sub (x y : float) : float := add x (opp y).

Definition mul (x y : float) : float :=
  match x, y with
  | NaN, _ | _, NaN => NaN
  | Fin a, Fin b => fl (a * b)
  | Inf s, Inf t => Inf (xorb s t)
  | Inf s, Fin b => if Qeq_bool b 0 then NaN else Inf (xorb s (is_negative b))
  | Fin a, Inf t => if Qeq_bool a 0 then NaN else Inf (xorb (is_negative a) t)
  end.

(** The IEEE quotient.  Python raises [ZeroDivisionError] on a zero
    divisor before it is computed: see [truediv]. *)
Definition div (x y : float) : float :=
  match x, y with
  | NaN, _ | _, NaN => NaN
  | Fin a, Fin b =>
      if Qeq_bool b 0 then (if Qeq_bool a 0 then NaN else Inf (is_negative a))
      else fl (a / b)
  | Inf _, Inf _ => NaN
  | Inf s, Fin b => Inf (xorb s (is_negative b))
  | Fin _, Inf _ => Fin 0
  end.

(** [x < y] and [x <= y]: false as soon as one side is [nan]. *)
Definition ltb (x y : float) : bool :=
  match x, y with
  | NaN, _ | _, NaN => false
  | Fin a, Fin b => Py.ltb a b
  | Inf s, Inf t => s && negb t
  | Inf s, Fin _ => s
  | Fin _, Inf t => negb t
  end.

Definition leb (x y : float) : bool :=
  match x, y with
  | NaN, _ | _, NaN => false
  | Fin a, Fin b => Py.leb a b
  | Inf s, Inf t => s || negb t
  | Inf s, Fin _ => s
  | Fin _, Inf t => negb t
  end.

(** [round(x, n)]: [inf] and [nan] are returned as they are. *)
Definition round_nd (x : float) (n : nat) : float :=
  match x with
  | Fin q => fl (Py.round_nd q n)
  | _ => x
  end.

(** [float(s)], with the grammar of [float_of_string]. *)
Definition of_string (s : string) : result float :=
  match float_of_string s with
  | Ok q => Ok (fl q)
  | Raise NonFinite =>
      let '(negative, body) := read_sign (strip s) in
      Ok (if String.eqb (lower body) "nan" then NaN else Inf negative)
  | Raise e => Raise e
  end.

(** *** Quantity parsers *)

Inductive outcome : Type :=
| Return (v : float)
| Continue (printed : string).

(** [try: ... except Exception: print(msg)] *)
Definition try_except (body : result outcome) (msg : string) : outcome :=
  match body with
  | Ok o => o
  | Raise _ => Continue msg
  end.

Definition parse_weight_pass (line : string) : outcome :=
  let raw := lower (strip line) in
  if String.eqb raw "" then Continue weight_prompt_empty
  else
    try_except
      (let raw := replace "lbs" "lb" (replace "kgs" "kg" raw) in
       let parts := split (replace "," "." raw) in
       val_unit <-
         match parts with
         | [token] =>
             let '(num, unit) := split_num_unit token "" "" in
             val <- of_string num ;;
             Ok (val, if String.eqb unit "" then "kg" else unit)
         | p0 :: p1 :: _ =>
             val <- of_string p0 ;;
             Ok (val, p1)
         | [] => Raise IndexError
         end ;;
       let '(val, unit) := val_unit in
       if startswith unit "k" then
         let kg := val in
         if leb kg (Fin 0) then Ok (Continue weight_not_positive)
         else Ok (Return (round_nd kg 2))
       else if startswith unit "l" then
         let kg := mul val (fl (45359237 # 100000000)) in
         if leb kg (Fin 0) then Ok (Continue weight_not_positive)
         else Ok (Return (round_nd kg 2))
       else Ok (Continue weight_unknown_unit))
      weight_unparsed.

Fixpoint scan_units (prev : option string) (tokens : list string)
    (ft : option float) (inch : float) : result (option float * float) :=
  match tokens with
  | [] => Ok (ft, inch)
  | t :: rest =>
      ft <- match prev with
            | Some p => if String.eqb t "ft"
                        then (v <- of_string p ;; Ok (Some v))
                        else Ok ft
            | None => Ok ft
            end ;;
      inch <- match prev with
              | Some p => if String.eqb t "in" then of_string p else Ok inch
              | None => Ok inch
              end ;;
      scan_units (Some t) rest ft inch
  end.

Definition parse_height_pass (line : string) : outcome :=
  let raw := lower (strip line) in
  if String.eqb raw "" then Continue height_prompt_empty
  else
    try_except
      (let raw := normalize_height raw in
       let parts := split (replace "," "." raw) in
       let len := List.length parts in
       if (len =? 1)%nat
          || ((len =? 2)%nat && startswith (nth 1 parts "") "c") then
         num <- of_string (nth 0 parts "") ;;
         let cm :=
           if (len =? 1)%nat && ltb num (Fin 3) then mul num (Fin 100)
           else if (len =? 1)%nat && leb num (Fin 3) then mul num (Fin 100)
           else num in
         Ok (Return (round_nd cm 1))
       else
         ft_inch <-
           (if contains "ft" raw || contains "foot" raw then
              let tokens := split (replace "in" " in " (replace "ft" " ft " raw)) in
              scan_units None tokens None (Fin 0)
            else
              let nums := filter all_digit_or_dot parts in
              if (2 <=? List.length nums)%nat then
                ft <- of_string (nth 0 nums "") ;;
                inch <- of_string (nth 1 nums "") ;;
                Ok (Some ft, inch)
              else Ok (None, Fin 0)) ;;
         match ft_inch with
         | (Some ft, inch) =>
             let cm := add (mul ft (fl (3048 # 100))) (mul inch (fl (254 # 100))) in
             Ok (Return (round_nd cm 1))
         | (None, _) => Ok (Continue height_no_format)
         end)
      height_unparsed.

Inductive run : Type :=
| Returned (v : float) (stdin : list string) (printed : list string)
| EOFError (printed : list string).

Fixpoint input_loop (pass : string -> outcome) (stdin : list string) : run :=
  match stdin with
  | [] => EOFError []
  | line :: stdin' =>
      match pass line with
      | Return v => Returned v stdin' []
      | Continue msg =>
          match input_loop pass stdin' with
          | Returned v rest out => Returned v rest (msg :: out)
          | EOFError out => EOFError (msg :: out)
          end
      end
  end.

(** One pass of [safe_float_input], lines 27-34; [float] raises nothing but
    [ValueError]. *)
Definition safe_float_pass (line : string) : outcome :=
  let val := strip line in
  try_except
    (f <- of_string val ;;
     if leb f (Fin 0) then Raise ValueError else Ok (Return f))
    positive_number_message.

Definition safe_float_input (stdin : list string) := input_loop safe_float_pass stdin.
Definition parse_weight (stdin : list string) := input_loop parse_weight_pass stdin.
Definition parse_height (stdin : list string) := input_loop parse_height_pass stdin.

(** *** Exceptions of the arithmetic

    [int] and [round] of [nan] raise [ValueError], of an infinity
    [OverflowError]; so does an int too large for a float; a zero divisor
    raises [ZeroDivisionError]. *)

Inductive error : Type := Value_error | Overflow_error | Zero_division_error.

Inductive attempt (A : Type) : Type :=
| Done (a : A)
| Throw (e : error).
Arguments Done {A} a.
Arguments Throw {A} e.

Definition and_then {A B : Type} (r : attempt A) (k : A -> attempt B) : attempt B :=
  match r with
  | Done a => k a
  | Throw e => Throw e
  end.

Notation "x <-- r ;; k" := (and_then r (fun x => k))
  (at level 61, r at next level, right associativity).

(** [int(x)] *)
Definition int (x : float) : attempt Z :=
  match x with
  | Fin q => Done (Py.int q)
  | Inf _ => Throw Overflow_error
  | NaN => Throw Value_error
  end.

(** [round(x)] *)
Definition round (x : float) : attempt Z :=
  match x with
  | Fin q => Done (Py.round q)
  | Inf _ => Throw Overflow_error
  | NaN => Throw Value_error
  end.

(** The int operand of a float operation. *)
Definition of_int (z : Z) : attempt float :=
  match of_Z z with
  | Inf _ => Throw Overflow_error
  | x => Done x
  end.

(** [x / y] on floats. *)
Definition truediv (x y : float) : attempt float :=
  if is_zero y then Throw Zero_division_error else Done (div x y).

(** [a / b] on ints: the quotient rounded once. *)
Definition int_truediv (a b : Z) : attempt float :=
  if (b =? 0)%Z then Throw Zero_division_error
  else
    match fl (inject_Z a / inject_Z b) with
    | Inf _ => Throw Overflow_error
    | x => Done x
    end.

(** *** Planning engine *)

Inductive value : Type :=
| VInt (z : Z)
| VFloat (x : float)
| VStr (s : string)
| VList (l : list string).

Definition recommend_calories_for_weight_loss (current_weight target_weight tdee : float)
    (days : Z) (sex : string) : attempt (dict value) :=
  let kg_to_lose := sub current_weight target_weight in
  if leb kg_to_lose (Fin 0) then
    Done [ ("message", VStr no_deficit_message) ]
  else
    let total_kcal_needed := mul kg_to_lose (Fin 7700) in
    divisor <-- of_int (Py.max days 1) ;;
    daily_deficit <-- truediv total_kcal_needed divisor ;;
    let max_safe_deficit := Fin 1000 in
    (* the divisor is the literal 7700 *)
    let weekly_loss_kg := div (mul daily_deficit (Fin 7)) (Fin 7700) in
    branch <--
      (if ltb max_safe_deficit daily_deficit then
         let daily_deficit := max_safe_deficit in
         (* the divisor is 1000 * 7 *)
         Done (Some clamp_warning, daily_deficit, sub tdee daily_deficit,
               div (mul kg_to_lose (Fin 7700)) (Fin 7000))
       else
         weeks <-- int_truediv days 7 ;;
         Done (None, daily_deficit, sub tdee daily_deficit, weeks)) ;;
    let '(warning, daily_deficit, suggested_daily, est_weeks_needed) := branch in
    let min_cal := Fin 1200 in
    let '(suggested_daily, warning_min) :=
      if ltb suggested_daily min_cal then (min_cal, Some floor_warning)
      else (suggested_daily, None) in
    total <-- int total_kcal_needed ;;
    deficit <-- int daily_deficit ;;
    suggested <-- int suggested_daily ;;
    Done [ ("kg_to_lose", VFloat (round_nd kg_to_lose 2));
           ("total_kcal_needed", VInt total);
           ("daily_deficit", VInt deficit);
           ("suggested_daily_calories", VInt suggested);
           ("warnings", VList (truthy [warning; warning_min]));
           ("weekly_loss_kg", VFloat (round_nd weekly_loss_kg 3));
           ("estimated_weeks_needed", VFloat (round_nd est_weeks_needed 1)) ].

(** *** Metrics *)

Definition ACTIVITY_LEVELS : dict (string * float) :=
  [ ("1", ("sedentary (little or no exercise)", fl (12 # 10)));
    ("2", ("lightly active (light exercise 1-3 days/week)", fl (1375 # 1000)));
    ("3", ("moderately active (moderate exercise 3-5 days/week)", fl (155 # 100)));
    ("4", ("very active (hard exercise 6-7 days/week)", fl (1725 # 1000)));
    ("5", ("extra active (very hard exercise / physical job)", fl (19 # 10))) ].

(** [ZeroDivisionError] when the square of the height in metres is zero. *)
Definition calculate_bmi (weight_kg height_cm : float) : attempt float :=
  let height_m := div height_cm (Fin 100) in
  bmi <-- truediv weight_kg (mul height_m height_m) ;;
  Done (round_nd bmi 1).

Definition bmi_category (bmi : float) : string :=
  if ltb bmi (fl (185 # 10)) then "Underweight"
  else if leb (fl (185 # 10)) bmi && ltb bmi (Fin 25) then "Normal (healthy weight)"
  else if leb (Fin 25) bmi && ltb bmi (Fin 30) then "Overweight"
  else "Obesity".

(** [5 * age] is an int; it is converted where it is subtracted from a
    float. *)
Definition bmr_mifflin_sex (weight height_cm : float) (age : Z) (sex : string)
    : attempt float :=
  let s := lower sex in
  if startswith s "m" then
    years <-- of_int (5 * age) ;;
    Done (add (sub (add (mul (Fin 10) weight) (mul (fl (625 # 100)) height_cm)) years)
              (Fin 5))
  else if startswith s "f" then
    years <-- of_int (5 * age) ;;
    Done (sub (sub (add (mul (Fin 10) weight) (mul (fl (625 # 100)) height_cm)) years)
              (Fin 161))
  else
    years <-- of_int (5 * age) ;;
    let bmr_m :=
      add (sub (add (mul (Fin 10) weight) (mul (fl (625 # 100)) height_cm)) years)
          (Fin 5) in
    years <-- of_int (5 * age) ;;
    let bmr_f :=
      sub (sub (add (mul (Fin 10) weight) (mul (fl (625 # 100)) height_cm)) years)
          (Fin 161) in
    Done (div (add bmr_m bmr_f) (Fin 2)).

Definition estimate_tdee (weight height_cm : float) (age : Z) (sex activity_key : string)
    : attempt Z :=
  bmr <-- bmr_mifflin_sex weight height_cm age sex ;;
  (* the default pair is [(None, 1.2)]; its label is never read *)
  let multiplier := snd (dict_get ACTIVITY_LEVELS activity_key ("", fl (12 # 10))) in
  let tdee := mul bmr multiplier in
  round tdee.

Definition activity_to_protein : dict float :=
  [ ("1", fl (16 # 10)); ("2", fl (16 # 10)); ("3", fl (18 # 10)); ("4", Fin 2);
    ("5", fl (22 # 10)) ].

Definition recommend_macros (suggested_calories : Z) (weight_kg : float)
    (activity_key : string) : attempt (dict value) :=
  let protein_g_per_kg := dict_get activity_to_protein activity_key (fl (16 # 10)) in
  protein_g <-- round (mul protein_g_per_kg weight_kg) ;;
  let protein_kcal := (protein_g * 4)%Z in
  let fat_pct := fl (28 # 100) in
  calories <-- of_int suggested_calories ;;
  let fat_kcal := mul calories fat_pct in
  fat_g <-- round (div fat_kcal (Fin 9)) ;;
  protein <-- of_int protein_kcal ;;
  calories <-- of_int suggested_calories ;;
  let remaining_kcal := sub calories (add protein fat_kcal) in
  carbs <-- round (div remaining_kcal (Fin 4)) ;;
  let carb_g := Py.max carbs 0 in
  fat_kcal_int <-- int fat_kcal ;;
  carb_kcal <-- int (if ltb (Fin 0) remaining_kcal then remaining_kcal else Fin 0) ;;
  Done [ ("protein_g", VInt protein_g);
         ("fat_g", VInt fat_g);
         ("carb_g", VInt carb_g);
         ("protein_kcal", VInt protein_kcal);
         ("fat_kcal", VInt fat_kcal_int);
         ("carb_kcal", VInt carb_kcal) ].

(** *** The interactive shell

    As in the shell above, with the exceptions of the arithmetic: none of
    them is caught, so each ends the call that met it. *)

Inductive piece : Type :=
| Lit (s : string)
| Val (v : value).

Inductive printed : Type :=
| Line (s : string)
| Formatted (ps : list piece).

Inductive stop : Type :=
| EndOfInput
| Raised (e : error)
| KeyError.

Definition IO (A : Type) : Type :=
  list string -> (A + stop) * list string * list printed.

Definition ret {A : Type} (a : A) : IO A := fun stdin => (inl a, stdin, []).

Definition raise {A : Type} (e : stop) : IO A := fun stdin => (inr e, stdin, []).

Definition iobind {A B : Type} (m : IO A) (k : A -> IO B) : IO B :=
  fun stdin =>
    let '(r, rest, out) := m stdin in
    match r with
    | inl a =>
        let '(r', rest', out') := k a rest in
        (r', rest', (out ++ out')%list)
    | inr e => (inr e, rest, out)
    end.

Notation "x <~~ m ;; k" := (iobind m (fun x => k))
  (at level 61, m at next level, right associativity).
Notation "m ;;;; k" := (iobind m (fun _ => k))
  (at level 61, right associativity).

Definition print (p : printed) : IO unit := fun stdin => (inl tt, stdin, [p]).

Definition input : IO string :=
  fun stdin =>
    match stdin with
    | [] => (inr EndOfInput, [], [])
    | line :: rest => (inl line, rest, [])
    end.

(** A parser called from the shell: its retry loop on the lines at hand. *)
Definition ask (pass : string -> outcome) : IO float :=
  fun stdin =>
    match input_loop pass stdin with
    | Returned v rest out => (inl v, rest, map Line out)
    | EOFError out => (inr EndOfInput, [], map Line out)
    end.

(** A computation that may raise, run in the shell. *)
Definition run_attempt {A : Type} (r : attempt A) : IO A :=
  match r with
  | Done a => ret a
  | Throw e => raise (Raised e)
  end.

Fixpoint for_each {A : Type} (l : list A) (body : A -> IO unit) : IO unit :=
  match l with
  | [] => ret tt
  | a :: l' => body a ;;;; for_each l' body
  end.

(** [d[k]] *)
Definition item (d : dict value) (k : string) : IO value :=
  match dict_lookup k d with
  | Some v => ret v
  | None => raise KeyError
  end.

(** [print(v)] of a value: a string is printed as it is. *)
Definition print_value (v : value) : IO unit :=
  match v with
  | VStr s => print (Line s)
  | _ => print (Formatted [Val v])
  end.

Definition as_list (v : value) : list string :=
  match v with
  | VList l => l
  | _ => []
  end.

Definition as_int (v : value) : Z :=
  match v with
  | VInt z => z
  | _ => 0%Z
  end.

Definition action_check_bmi : IO unit :=
  print (Line bmi_header) ;;;;
  weight <~~ ask parse_weight_pass ;;
  height <~~ ask parse_height_pass ;;
  bmi <~~ run_attempt (calculate_bmi weight height) ;;
  let category := bmi_category bmi in
  print (Formatted [Lit (nl ++ "Your BMI is "); Val (VFloat bmi); Lit " — ";
                    Val (VStr category)]) ;;;;
  if String.eqb category "Underweight" then print (Line advice_underweight)
  else if String.eqb category "Normal (healthy weight)" then print (Line advice_normal)
  else if String.eqb category "Overweight" then print (Line advice_overweight)
  else print (Line advice_obesity).

(** [action_plan] from line 328 on.  The planner converts the int [tdee]
    where it subtracts the deficit from it; as the [round] of a double it
    is a double itself, so that the conversion neither raises nor rounds
    (see [tdee_is_a_double]). *)
Definition plan_dialogue (weight target : float) (age : Z) (sex : string) : IO unit :=
  height <~~ ask parse_height_pass ;;
  print (Line activity_header) ;;;;
  for_each ACTIVITY_LEVELS
    (fun kv => print (Line (" " ++ fst kv ++ ") " ++ fst (snd kv)))) ;;;;
  activity_line <~~ input ;;
  let activity := or_default (strip activity_line) "1" in
  tdee <~~ run_attempt (estimate_tdee weight height age sex activity) ;;
  print (Formatted
           [Lit (nl ++ "Estimated TDEE (calories/day to maintain current weight): ");
            Val (VInt tdee); Lit " kcal"]) ;;;;
  weeks <~~ ask safe_float_pass ;;
  rounded <~~ run_attempt (round (mul weeks (Fin 7))) ;;
  let days := Py.max 1 rounded in
  plan <~~ run_attempt
            (recommend_calories_for_weight_loss weight target (of_Z tdee) days sex) ;;
  if has_key plan "message" then
    message <~~ item plan "message" ;;
    print_value message
  else
    kg_to_lose <~~ item plan "kg_to_lose" ;;
    weeks_needed <~~ item plan "estimated_weeks_needed" ;;
    print (Formatted [Lit (nl ++ "To lose "); Val kg_to_lose;
                      Lit " kg (approx) in "; Val weeks_needed; Lit " weeks:"]) ;;;;
    total <~~ item plan "total_kcal_needed" ;;
    print (Formatted [Lit " - Total calories to lose: "; Val total; Lit " kcal"]) ;;;;
    deficit <~~ item plan "daily_deficit" ;;
    print (Formatted [Lit " - Daily calorie deficit needed: "; Val deficit;
                      Lit " kcal/day"]) ;;;;
    suggested <~~ item plan "suggested_daily_calories" ;;
    print (Formatted [Lit " - Suggested daily calorie intake: "; Val suggested;
                      Lit " kcal/day"]) ;;;;
    weekly <~~ item plan "weekly_loss_kg" ;;
    print (Formatted [Lit " - Estimated weekly loss (if followed): "; Val weekly;
                      Lit " kg/week"]) ;;;;
    warnings <~~ item plan "warnings" ;;
    (match as_list warnings with
     | [] => ret tt
     | _ :: _ =>
         print (Line warnings_header) ;;;;
         warnings' <~~ item plan "warnings" ;;
         for_each (as_list warnings') (fun w => print (Line ("- " ++ w)))
     end) ;;;;
    suggested' <~~ item plan "suggested_daily_calories" ;;
    macros <~~ run_attempt (recommend_macros (as_int suggested') weight activity) ;;
    print (Line macros_header) ;;;;
    protein_g <~~ item macros "protein_g" ;;
    protein_kcal <~~ item macros "protein_kcal" ;;
    print (Formatted [Lit " - Protein: "; Val protein_g; Lit " g (";
                      Val protein_kcal; Lit " kcal)"]) ;;;;
    fat_g <~~ item macros "fat_g" ;;
    fat_kcal <~~ item macros "fat_kcal" ;;
    print (Formatted [Lit " - Fat: "; Val fat_g; Lit " g ("; Val fat_kcal;
                      Lit " kcal)"]) ;;;;
    carb_g <~~ item macros "carb_g" ;;
    carb_kcal <~~ item macros "carb_kcal" ;;
    print (Formatted [Lit " - Carbs: "; Val carb_g; Lit " g ("; Val carb_kcal;
                      Lit " kcal)"]) ;;;;
    print (Line "").

(** [action_plan], lines 295-326; an early [return] is the end of its
    branch. *)
Definition action_plan (consent : bool) : IO unit :=
  if negb consent then
    print (Line plans_disabled_1) ;;;;
    print (Line plans_disabled_2)
  else
    print (Line planner_header) ;;;;
    weight <~~ ask parse_weight_pass ;;
    target <~~ ask parse_weight_pass ;;
    age_f <~~ ask safe_float_pass ;;
    age <~~ run_attempt (int age_f) ;;
    if (age <? 18)%Z then print (Line under_18_warning)
    else
      (if (80 <? age)%Z then print (Line older_adult_note) else ret tt) ;;;;
      sex_line <~~ input ;;
      let sex := or_default (strip sex_line) "other" in
      pregnant <~~
        (if startswith (lower sex) "f" then
           preg_line <~~ input ;;
           let preg := lower (strip preg_line) in
           ret (startswith preg "y")
         else ret false) ;;
      if pregnant then print (Line pregnancy_message)
      else
        med_line <~~ input ;;
        let med := lower (strip med_line) in
        if startswith med "y" then print (Line medical_message)
        else plan_dialogue weight target age sex.

(** *** Vocabulary *)

(** [x] is a double. *)
Definition valid (x : float) : Prop :=
  match x with
  | Fin q => fl q = Fin q
  | _ => True
  end.

Definition dict_int (d : dict value) (k : string) : Z :=
  match dict_lookup k d with
  | Some (VInt z) => z
  | _ => 0%Z
  end.

Definition dict_warnings (d : dict value) : list string :=
  match dict_lookup "warnings" d with
  | Some (VList ws) => ws
  | _ => []
  end.

(** A field of the plan that a call returned. *)
Definition reported (k : string) (r : attempt (dict value)) : option value :=
  match r with
  | Done plan => dict_lookup k plan
  | Throw _ => None
  end.

(** [parse_height] from line 91 on, as a function of the normalised text. *)
Definition height_of_normalized (raw : string) : outcome :=
  try_except
    (let parts := split (replace "," "." raw) in
     let len := List.length parts in
     if (len =? 1)%nat
        || ((len =? 2)%nat && startswith (nth 1 parts "") "c") then
       num <- of_string (nth 0 parts "") ;;
       let cm :=
         if (len =? 1)%nat && ltb num (Fin 3) then mul num (Fin 100)
         else if (len =? 1)%nat && leb num (Fin 3) then mul num (Fin 100)
         else num in
       Ok (Return (round_nd cm 1))
     else
       ft_inch <-
         (if contains "ft" raw || contains "foot" raw then
            let tokens := split (replace "in" " in " (replace "ft" " ft " raw)) in
            scan_units None tokens None (Fin 0)
          else
            let nums := filter all_digit_or_dot parts in
            if (2 <=? List.length nums)%nat then
              ft <- of_string (nth 0 nums "") ;;
              inch <- of_string (nth 1 nums "") ;;
              Ok (Some ft, inch)
            else Ok (None, Fin 0)) ;;
       match ft_inch with
       | (Some ft, inch) =>
           let cm := add (mul ft (fl (3048 # 100))) (mul inch (fl (254 # 100))) in
           Ok (Return (round_nd cm 1))
       | (None, _) => Ok (Continue height_no_format)
       end)
    height_unparsed.

(** Everything a call of the shell prints passes the test [P]. *)
Definition emits {A : Type} (P : printed -> Prop) (m : IO A) : Prop :=
  forall stdin r rest out, m stdin = (r, rest, out) -> Forall P out.

(** A printed line that is plain text. *)
Definition plain_text (p : printed) : Prop :=
  match p with
  | Line _ => True
  | Formatted _ => False
  end.

(** The advice of [action_check_bmi] for a BMI, lines 273-280. *)
Definition advice_for (bmi : float) : string :=
  if ltb bmi (fl (185 # 10)) then advice_underweight
  else if ltb bmi (Fin 25) then advice_normal
  else if ltb bmi (Fin 30) then advice_overweight
  else advice_obesity.

End B64.

(** ** Vocabulary of the statements *)

(** The activity multiplier as the specification words it: the table value
    for the keys 1 to 5, the lowest tier's 1.2 for every other key. *)
Definition tier_multiplier (key : string) : Q :=
  if String.eqb key "1" then 12 # 10
  else if String.eqb key "2" then 1375 # 1000
  else if String.eqb key "3" then 155 # 100
  else if String.eqb key "4" then 1725 # 1000
  else if String.eqb key "5" then 19 # 10
  else 12 # 10.

(** The reading of an int field of a returned dict. *)
Definition dict_int (d : dict pyval) (k : string) : Z :=
  match dict_lookup k d with
  | Some (VInt z) => z
  | _ => 0%Z
  end.

Definition dict_warnings (d : dict pyval) : list string :=
  match dict_lookup "warnings" d with
  | Some (VList ws) => ws
  | _ => []
  end.

(** Every character of [s] passes the test [p]. *)
Fixpoint string_forall (p : ascii -> bool) (s : string) : bool :=
  match s with
  | EmptyString => true
  | String c s' => p c && string_forall p s'
  end.

Definition digit_or_dot (c : ascii) : bool := isdigit c || Ascii.eqb c ".".

(** The tokens of a line, as line 91 of [parse_height] computes them. *)
Definition height_parts (line : string) : list string :=
  split (replace "," "." (normalize_height (lower (strip line)))).

(** The character map behind [replace(',', '.')]. *)
Definition comma_to_dot (c : ascii) : ascii :=
  if Ascii.eqb c "," then "."%char else c.

Fixpoint map_chars (f : ascii -> ascii) (s : string) : string :=
  match s with
  | EmptyString => EmptyString
  | String c s' => String (f c) (map_chars f s')
  end.

(** A pattern without comma or point. *)
Definition no_comma_no_dot (c : ascii) : bool :=
  negb (Ascii.eqb c ",") && negb (Ascii.eqb c ".").

Definition nonblank (c : ascii) : bool := negb (isspace c).

(** The first character of [s] is not a blank. *)
Definition starts_nonblank (s : string) : bool := negb (starts_blank s).

(** The last character of [s], if it has one, is a blank. *)
Fixpoint ends_blank (s : string) : bool :=
  match s with
  | EmptyString => true
  | String c EmptyString => isspace c
  | String _ s' => ends_blank s'
  end.

(** No character of the pattern [p] is the first character of [b]. *)
Definition head_avoids (p b : string) : bool :=
  match b with
  | EmptyString => true
  | String c _ => string_forall (fun x => negb (Ascii.eqb x c)) p
  end.

Definition not_digit_or_dot (c : ascii) : bool := negb (digit_or_dot c).

(** A character of ASCII. *)
Definition ascii_char (c : ascii) : bool := (nat_of_ascii c <? 128)%nat.

(** The characters of a number that [float] accepts. *)
Definition float_char (c : ascii) : bool :=
  isdigit c || Ascii.eqb c "." || Ascii.eqb c "_" || Ascii.eqb c "e"
  || Ascii.eqb c "E" || Ascii.eqb c "+" || Ascii.eqb c "-".

(** What a call reads and what it can end with: it leaves no more lines than
    it found, and it does not end for lack of fuel. *)
Definition tame {A : Type} (m : IO A) : Prop :=
  forall stdin r rest out,
    m stdin = (r, rest, out) ->
    (List.length rest <= List.length stdin)%nat /\ r <> inr OutOfFuel.

(** Everything a call prints passes the test [P]. *)
Definition emits {A : Type} (P : printed -> Prop) (m : IO A) : Prop :=
  forall stdin r rest out, m stdin = (r, rest, out) -> Forall P out.

(** A printed line that is plain text, or the line of the BMI. *)
Definition text_or_bmi (p : printed) : Prop :=
  match p with
  | Line _ => True
  | Formatted (Lit s :: _) => s = nl ++ "Your BMI is "
  | Formatted _ => False
  end.


(** How a call can end: not for want of fuel; when it returns, the goodbye
    is the last thing printed; and no line is read that was not there. *)
Definition ends_well (stdin : list string)
    (run : (unit + stop) * list string * list printed) : Prop :=
  let '(r, rest, out) := run in
  r <> inr OutOfFuel
  /\ (r = inl tt -> exists before, out = (before ++ [Line goodbye])%list)
  /\ (List.length rest <= List.length stdin)%nat.

(** * Properties *)

(** ** Comparisons and rounding *)

Lemma leb_true (x y : Q) : Py.leb x y = true <-> x <= y.
Proof. apply Qle_bool_iff. Qed.

Lemma leb_false (x y : Q) : Py.leb x y = false <-> y < x.
Proof.
  unfold Py.leb. split; intro H.
  - apply Qnot_le_lt. intro Hle. apply Qle_bool_iff in Hle. congruence.
  - destruct (Qle_bool x y) eqn:E; [|reflexivity].
    apply Qle_bool_iff in E. lra.
Qed.

Lemma ltb_true (x y : Q) : Py.ltb x y = true <-> x < y.
Proof.
  unfold Py.ltb. rewrite negb_true_iff. apply (leb_false y x).
Qed.

Lemma ltb_false (x y : Q) : Py.ltb x y = false <-> y <= x.
Proof.
  unfold Py.ltb. rewrite negb_false_iff. apply (leb_true y x).
Qed.

(** Case analysis on a Python comparison, leaving its meaning in the
    context. *)
Ltac py_case b :=
  let E := fresh "E" in
  destruct b eqn:E;
  [ first [ apply ltb_true in E | apply leb_true in E ]
  | first [ apply ltb_false in E | apply leb_false in E ] ].

Lemma round_compat (x y : Q) : x == y -> Py.round x = Py.round y.
Proof.
  intro H. unfold Py.round. rewrite (Qfloor_comp x y H).
  assert (Hc : Qcompare (x - inject_Z (Qfloor y)) (1 # 2)
               = Qcompare (y - inject_Z (Qfloor y)) (1 # 2)).
  { apply Qcompare_comp; [rewrite H; reflexivity | reflexivity]. }
  rewrite Hc. reflexivity.
Qed.




(** ** Metrics *)

Lemma activity_levels_get (key : string) :
  snd (dict_get ACTIVITY_LEVELS key ("", 12 # 10)) = tier_multiplier key.
Proof.
  unfold dict_get, ACTIVITY_LEVELS, tier_multiplier. cbn [dict_lookup].
  destruct (String.eqb key "1"); [reflexivity|].
  destruct (String.eqb key "2"); [reflexivity|].
  destruct (String.eqb key "3"); [reflexivity|].
  destruct (String.eqb key "4"); [reflexivity|].
  destruct (String.eqb key "5"); reflexivity.
Qed.


(** ** Planning engine *)

Section Plan.

Variables (current_weight target_weight tdee : Q) (days : Z) (sex : string).

Let kg_to_lose : Q := current_weight - target_weight.
Let total_kcal_needed : Q := kg_to_lose * 7700.
(** The deficit the requested duration asks for, before any clamp. *)
Let requested_deficit : Q := total_kcal_needed / inject_Z (Z.max days 1).
Let clamped : bool := Py.ltb 1000 requested_deficit.
(** The deficit the plan uses. *)
Let deficit_used : Q := if clamped then 1000 else requested_deficit.
Let floored : bool := Py.ltb (tdee - deficit_used) 1200.
Let plan : dict pyval :=
  recommend_calories_for_weight_loss current_weight target_weight tdee days sex.

(** The plan of a real weight loss, field by field. *)
Lemma plan_fields :
  target_weight < current_weight ->
  plan =
  [ ("kg_to_lose", VFloat (Py.round_nd kg_to_lose 2));
    ("total_kcal_needed", VInt (Py.int total_kcal_needed));
    ("daily_deficit", VInt (Py.int deficit_used));
    ("suggested_daily_calories",
       VInt (Py.int (if floored then 1200 else tdee - deficit_used)));
    ("warnings",
       VList ((if clamped then [clamp_warning] else [])
              ++ (if floored then [floor_warning] else [])));
    ("weekly_loss_kg", VFloat (Py.round_nd ((requested_deficit * 7) / 7700) 3));
    ("estimated_weeks_needed",
       VFloat (Py.round_nd (if clamped then total_kcal_needed / (1000 * 7)
                            else inject_Z days / 7) 1)) ].
Proof.
  intro Hlt.
  unfold plan, recommend_calories_for_weight_loss. cbv zeta.
  assert (Hpos : Py.leb (current_weight - target_weight) 0 = false)
    by (apply leb_false; lra).
  rewrite Hpos.
  unfold floored, deficit_used, clamped, requested_deficit, total_kcal_needed,
    kg_to_lose, Py.max.
  destruct (Py.ltb 1000 _); cbv iota beta;
    destruct (Py.ltb _ 1200); reflexivity.
Qed.

(** C7.  With a target not below the current weight the function returns,
    as an ordinary result, a dict whose only key is the message: no deficit,
    intake, warning, weekly-loss or duration field is there. *)
Theorem no_loss_gives_message_only :
  current_weight <= target_weight ->
  plan = [ ("message", VStr no_deficit_message) ]
  /\ dict_keys plan = ["message"]
  /\ Forall (fun k => dict_lookup k plan = None)
       ["kg_to_lose"; "total_kcal_needed"; "daily_deficit";
        "suggested_daily_calories"; "warnings"; "weekly_loss_kg";
        "estimated_weeks_needed"].
Proof.
  intro Hle.
  assert (Hp : plan = [ ("message", VStr no_deficit_message) ]).
  { unfold plan, recommend_calories_for_weight_loss. cbv zeta.
    assert (Hz : Py.leb (current_weight - target_weight) 0 = true)
      by (apply leb_true; lra).
    rewrite Hz. reflexivity. }
  rewrite Hp. split; [reflexivity|]. split; [reflexivity|].
  repeat constructor.
Qed.

End Plan.

(** The weekly loss a plan reports is computed from the requested deficit,
    whether or not the clamp replaced it. *)
Lemma weekly_loss_reported :
  forall (current_weight target_weight tdee : Q) (days : Z) (sex : string),
    target_weight < current_weight ->
    dict_lookup "weekly_loss_kg"
      (recommend_calories_for_weight_loss current_weight target_weight tdee days sex)
    = Some (VFloat (Py.round_nd
        (((current_weight - target_weight) * 7700 / inject_Z (Z.max days 1)) * 7 / 7700) 3)).
Proof.
  intros cw tw tdee days sex Hlt.
  rewrite (plan_fields cw tw tdee days sex Hlt). reflexivity.
Qed.

(** C1.  At 90 kg, 80 kg, tdee 2500 and 70 days the clamp fires and the plan
    uses a deficit of 1000, for which the weekly loss is
    round(1000 * 7 / 7700, 3) = 0.909; the plan reports 1.0, the weekly loss
    of the requested deficit of 1100. *)
Theorem weekly_loss_of_clamped_plan :
  forall sex : string,
    let plan := recommend_calories_for_weight_loss 90 80 2500 70 sex in
    dict_warnings plan = [clamp_warning]
    /\ dict_lookup "daily_deficit" plan = Some (VInt 1000)
    /\ Py.round_nd ((1000 * 7) / 7700) 3 = 909 # 1000
    /\ dict_lookup "weekly_loss_kg" plan = Some (VFloat 1)
    /\ dict_lookup "weekly_loss_kg" plan <> Some (VFloat (909 # 1000)).
Proof.
  intro sex. cbv zeta. repeat split. discriminate.
Qed.


(** *** The planning theorems at concrete plans *)

Lemma no_loss_gives_message_only_at_70_80 :
  70 <= 80
  /\ recommend_calories_for_weight_loss 70 80 2000 30 "female"
     = [ ("message", VStr no_deficit_message) ].
Proof.
  assert (Hle : 70 <= 80) by (vm_compute; discriminate).
  split; [exact Hle|].
  exact (proj1 (no_loss_gives_message_only 70 80 2000 30%Z "female" Hle)).
Defined.


(** ** Quantity parsers *)

(** *** Text made of digits and points is left alone by the normalisation *)

Lemma all_digit_or_dot_forall (s : string) :
  all_digit_or_dot s = string_forall digit_or_dot s.
Proof. induction s as [|c s IH]; [reflexivity | cbn; rewrite IH; reflexivity]. Qed.

Lemma string_forall_impl (p q : ascii -> bool) (s : string) :
  (forall c, p c = true -> q c = true) ->
  string_forall p s = true -> string_forall q s = true.
Proof.
  intro Hpq. induction s as [|c s IH]; cbn; [reflexivity|].
  rewrite !andb_true_iff. intros [Hc Hs]. split; [apply Hpq, Hc | apply IH, Hs].
Qed.

(** A fact about every character, settled on the 256 of them. *)
Ltac by_all_chars c :=
  destruct c as [[] [] [] [] [] [] [] []]; vm_compute; try reflexivity; try discriminate.

Lemma digit_or_dot_not_space (c : ascii) : digit_or_dot c = true -> isspace c = false.
Proof. by_all_chars c. Qed.

Lemma digit_or_dot_lower (c : ascii) : digit_or_dot c = true -> lower_char c = c.
Proof. by_all_chars c. Qed.

Lemma lower_plain (s : string) : string_forall digit_or_dot s = true -> lower s = s.
Proof.
  induction s as [|c s IH]; cbn; [reflexivity|].
  rewrite andb_true_iff. intros [Hc Hs].
  rewrite (digit_or_dot_lower c Hc), (IH Hs). reflexivity.
Qed.

Lemma lstrip_plain (s : string) : string_forall digit_or_dot s = true -> lstrip s = s.
Proof.
  destruct s as [|c s]; cbn; [reflexivity|].
  rewrite andb_true_iff. intros [Hc _].
  rewrite (digit_or_dot_not_space c Hc). reflexivity.
Qed.

Lemma rstrip_plain (s : string) : string_forall digit_or_dot s = true -> rstrip s = s.
Proof.
  induction s as [|c s IH]; cbn; [reflexivity|].
  rewrite andb_true_iff. intros [Hc Hs].
  rewrite (IH Hs), (digit_or_dot_not_space c Hc). destruct s; reflexivity.
Qed.

Lemma strip_plain (s : string) : string_forall digit_or_dot s = true -> strip s = s.
Proof.
  intro H. unfold strip. rewrite (lstrip_plain s H). apply rstrip_plain, H.
Qed.

(** [replace] changes nothing in text that lacks the first character of the
    pattern. *)
Lemma replace_absent (c0 : ascii) (old' new s : string) :
  string_forall (fun c => negb (Ascii.eqb c0 c)) s = true ->
  replace (String c0 old') new s = s.
Proof.
  unfold replace. induction s as [|c s IH]; cbn; [reflexivity|].
  rewrite andb_true_iff, negb_true_iff. intros [Hc Hs].
  destruct (ascii_dec c0 c) as [->|Hne].
  - rewrite Ascii.eqb_refl in Hc. discriminate.
  - rewrite (IH Hs). reflexivity.
Qed.

Lemma split_plain (s : string) :
  string_forall digit_or_dot s = true -> s <> EmptyString -> split s = [s].
Proof.
  induction s as [|c s IH]; [congruence|].
  cbn. rewrite andb_true_iff. intros [Hc Hs] _.
  rewrite (digit_or_dot_not_space c Hc).
  destruct s as [|d s]; [reflexivity|].
  rewrite (IH Hs) by discriminate.
  cbn in Hs. apply andb_true_iff in Hs. destruct Hs as [Hd _].
  cbn. rewrite (digit_or_dot_not_space d Hd). reflexivity.
Qed.

Lemma height_parts_plain (token : string) :
  all_digit_or_dot token = true -> token <> EmptyString ->
  height_parts token = [token].
Proof.
  rewrite all_digit_or_dot_forall. intros Hp Hne.
  unfold height_parts, normalize_height, double_quote.
  rewrite (strip_plain token Hp), (lower_plain token Hp).
  repeat (rewrite (replace_absent _ _ _ token)
            by (apply (string_forall_impl digit_or_dot); [|exact Hp];
                intro c; by_all_chars c)).
  apply split_plain; assumption.
Qed.

(** *** Heights that are not positive *)

(** C3.  The line 0 is accepted and the height returned is 0.0 cm; a
    negative number is accepted as well.  [parse_weight] turns the same
    lines down. *)
Theorem parse_height_returns_zero :
  parse_height_pass "0" = Return 0
  /\ parse_height ["0"] = Returned 0 [] []
  /\ parse_height_pass "0 cm" = Return 0
  /\ parse_height_pass "-170 cm" = Return (-170 # 1)
  /\ ~ 0 < 0
  /\ parse_weight_pass "0" = Continue weight_not_positive
  /\ parse_weight_pass "-70 kg" = Continue weight_not_positive.
Proof.
  repeat split; try reflexivity. intro H; discriminate H.
Qed.

(** *** Commas *)

Lemma prefix_cons (a b : ascii) (p s : string) :
  String.prefix (String a p) (String b s)
  = if ascii_dec a b then String.prefix p s else false.
Proof. reflexivity. Qed.

(** [replace(',', '.')] acts character by character. *)
Lemma replace_comma (s : string) : replace "," "." s = map_chars comma_to_dot s.
Proof.
  unfold replace. induction s as [|c s IH]; [reflexivity|].
  cbn [replace_from map_chars]. rewrite prefix_cons.
  change (String.length "," - 1)%nat with 0%nat. rewrite IH.
  unfold comma_to_dot. destruct (ascii_dec "," c) as [<-|Hne].
  - assert (He : String.prefix "" s = true) by (destruct s; reflexivity).
    rewrite He. reflexivity.
  - destruct (Ascii.eqb_spec c ","); [congruence | reflexivity].
Qed.

Lemma comma_to_dot_twice (s : string) :
  map_chars comma_to_dot (map_chars comma_to_dot s) = map_chars comma_to_dot s.
Proof.
  induction s as [|c s IH]; cbn; [reflexivity|]. rewrite IH. f_equal.
  by_all_chars c.
Qed.

Lemma map_chars_app (f : ascii -> ascii) (s r : string) :
  map_chars f (s ++ r) = map_chars f s ++ map_chars f r.
Proof. induction s as [|c s IH]; cbn; [reflexivity | rewrite IH; reflexivity]. Qed.

Lemma lower_comma (s : string) :
  lower (map_chars comma_to_dot s) = map_chars comma_to_dot (lower s).
Proof.
  induction s as [|c s IH]; cbn; [reflexivity|]. rewrite IH. f_equal.
  by_all_chars c.
Qed.

Lemma isspace_comma (c : ascii) : isspace (comma_to_dot c) = isspace c.
Proof. by_all_chars c. Qed.

Lemma lstrip_comma (s : string) :
  lstrip (map_chars comma_to_dot s) = map_chars comma_to_dot (lstrip s).
Proof.
  induction s as [|c s IH]; cbn; [reflexivity|].
  rewrite isspace_comma. destruct (isspace c); [exact IH | reflexivity].
Qed.

Lemma rstrip_comma (s : string) :
  rstrip (map_chars comma_to_dot s) = map_chars comma_to_dot (rstrip s).
Proof.
  induction s as [|c s IH]; cbn; [reflexivity|].
  rewrite IH, isspace_comma.
  destruct (rstrip s); cbn; [destruct (isspace c); reflexivity | reflexivity].
Qed.

Lemma strip_comma (s : string) :
  strip (map_chars comma_to_dot s) = map_chars comma_to_dot (strip s).
Proof. unfold strip. rewrite lstrip_comma, rstrip_comma. reflexivity. Qed.

Lemma empty_comma (s : string) :
  String.eqb (map_chars comma_to_dot s) "" = String.eqb s "".
Proof. destruct s; reflexivity. Qed.

Lemma ascii_dec_comma (a b : ascii) (A : Type) (x y : A) :
  no_comma_no_dot a = true ->
  (if ascii_dec a (comma_to_dot b) then x else y) = (if ascii_dec a b then x else y).
Proof.
  unfold no_comma_no_dot, comma_to_dot. rewrite andb_true_iff, !negb_true_iff.
  intros [Hc Hd]. apply Ascii.eqb_neq in Hc, Hd.
  destruct (Ascii.eqb_spec b ",") as [->|Hb]; [|reflexivity].
  destruct (ascii_dec a "."), (ascii_dec a ","); congruence.
Qed.

Lemma prefix_comma (p s : string) :
  string_forall no_comma_no_dot p = true ->
  String.prefix p (map_chars comma_to_dot s) = String.prefix p s.
Proof.
  revert s. induction p as [|a p IH]; intros s Hp.
  - destruct s; reflexivity.
  - cbn in Hp. apply andb_true_iff in Hp. destruct Hp as [Ha Hp].
    destruct s as [|b s]; [reflexivity|].
    cbn. rewrite (ascii_dec_comma a b _ _ _ Ha), (IH s Hp). reflexivity.
Qed.

Lemma replace_from_comma (old new : string) :
  string_forall no_comma_no_dot old = true ->
  map_chars comma_to_dot new = new ->
  forall (s : string) (skip : nat),
    replace_from skip old new (map_chars comma_to_dot s)
    = map_chars comma_to_dot (replace_from skip old new s).
Proof.
  intros Hold Hnew. induction s as [|c s IH]; intro skip; [reflexivity|].
  destruct skip as [|k]; [|cbn; apply IH].
  change (map_chars comma_to_dot (String c s))
    with (String (comma_to_dot c) (map_chars comma_to_dot s)).
  cbn [replace_from].
  change (String (comma_to_dot c) (map_chars comma_to_dot s))
    with (map_chars comma_to_dot (String c s)).
  rewrite (prefix_comma old (String c s) Hold).
  destruct (String.prefix old (String c s)).
  - rewrite map_chars_app, Hnew, IH. reflexivity.
  - cbn [map_chars]. rewrite IH. reflexivity.
Qed.

Lemma replace_commutes_comma (old new s : string) :
  string_forall no_comma_no_dot old = true ->
  map_chars comma_to_dot new = new ->
  replace old new (map_chars comma_to_dot s)
  = map_chars comma_to_dot (replace old new s).
Proof. intros Hold Hnew. apply replace_from_comma; assumption. Qed.

Lemma contains_comma (p s : string) :
  string_forall no_comma_no_dot p = true ->
  contains p (map_chars comma_to_dot s) = contains p s.
Proof.
  intro Hp. induction s as [|c s IH].
  - reflexivity.
  - change (map_chars comma_to_dot (String c s))
      with (String (comma_to_dot c) (map_chars comma_to_dot s)).
    cbn [contains].
    change (String (comma_to_dot c) (map_chars comma_to_dot s))
      with (map_chars comma_to_dot (String c s)).
    rewrite (prefix_comma p (String c s) Hp), IH. reflexivity.
Qed.

(** In [parse_weight] a comma reads as a point, whatever the line. *)
Lemma parse_weight_comma (line : string) :
  parse_weight_pass (replace "," "." line) = parse_weight_pass line.
Proof.
  rewrite replace_comma. unfold parse_weight_pass. cbv zeta.
  rewrite strip_comma, lower_comma, empty_comma.
  destruct (String.eqb (lower (strip line)) ""); [reflexivity|].
  rewrite !replace_commutes_comma by reflexivity.
  rewrite !replace_comma, comma_to_dot_twice. reflexivity.
Qed.

Lemma normalize_height_comma (raw : string) :
  normalize_height (map_chars comma_to_dot raw)
  = map_chars comma_to_dot (normalize_height raw).
Proof.
  unfold normalize_height, double_quote.
  rewrite !replace_commutes_comma by reflexivity. reflexivity.
Qed.

(** In [parse_height] a comma reads as a point on every line that does not
    reach the feet branch: a line that is a single token or a number with
    a unit in c, and a line with neither [ft] nor [foot] in it. *)
Lemma parse_height_comma (line : string) :
  let raw := normalize_height (lower (strip line)) in
  let parts := height_parts line in
  ((List.length parts =? 1)%nat
   || ((List.length parts =? 2)%nat && startswith (nth 1 parts "") "c")) = true
  \/ contains "ft" raw || contains "foot" raw = false ->
  parse_height_pass (replace "," "." line) = parse_height_pass line.
Proof.
  cbv zeta. unfold height_parts. intro Hbranch.
  rewrite replace_comma. unfold parse_height_pass. cbv zeta.
  rewrite strip_comma, lower_comma, empty_comma.
  destruct (String.eqb (lower (strip line)) ""); [reflexivity|].
  rewrite normalize_height_comma.
  rewrite !replace_comma, comma_to_dot_twice.
  rewrite !contains_comma by reflexivity.
  rewrite <- !replace_comma.
  destruct Hbranch as [H1 | Hft].
  - rewrite H1. reflexivity.
  - rewrite Hft. reflexivity.
Qed.



(** C10.  [5,5 ft] is turned down although [5.5 ft] is 167.6 cm: the feet
    branch reads its numbers from the text in which the commas still stand.
    The comma is a decimal point in [70,5 kg] and in [1,75]. *)
Theorem comma_before_feet_is_not_a_point :
  parse_height_pass "5.5 ft" = Return (838 # 5)
  /\ parse_height_pass "5,5 ft" = Continue height_unparsed
  /\ parse_height ["5,5 ft"; "5.5 ft"] = Returned (838 # 5) [] [height_unparsed]
  /\ parse_weight_pass "70,5 kg" = Return (141 # 2)
  /\ parse_weight_pass "70.5 kg" = Return (141 # 2)
  /\ parse_height_pass "1,75" = Return 175.
Proof.
  repeat split; reflexivity.
Qed.

(** *** A number followed by the unit m *)

Lemma string_forall_app (p : ascii -> bool) (s r : string) :
  string_forall p (s ++ r) = string_forall p s && string_forall p r.
Proof.
  induction s as [|c s IH]; cbn; [reflexivity|].
  rewrite IH, andb_assoc. reflexivity.
Qed.

Lemma lower_app (s r : string) : lower (s ++ r) = lower s ++ lower r.
Proof. induction s as [|c s IH]; cbn; [reflexivity | rewrite IH; reflexivity]. Qed.

Lemma rstrip_app (s r : string) :
  rstrip r <> EmptyString -> rstrip (s ++ r) = s ++ rstrip r.
Proof.
  intro Hr. induction s as [|c s IH]; cbn; [reflexivity|].
  rewrite IH. destruct (s ++ rstrip r) eqn:E; [|reflexivity].
  destruct s; cbn in E; [contradiction | discriminate].
Qed.

Lemma replace_absent_app (c0 : ascii) (old' new s r : string) :
  string_forall (fun c => negb (Ascii.eqb c0 c)) s = true ->
  replace (String c0 old') new (s ++ r) = s ++ replace (String c0 old') new r.
Proof.
  unfold replace. induction s as [|c s IH]; [reflexivity|].
  cbn [string_forall]. rewrite andb_true_iff, negb_true_iff. intros [Hc Hs].
  cbn. destruct (ascii_dec c0 c) as [->|Hne].
  - rewrite Ascii.eqb_refl in Hc. discriminate.
  - rewrite (IH Hs). reflexivity.
Qed.

Lemma contains_absent (c0 : ascii) (p' s : string) :
  string_forall (fun c => negb (Ascii.eqb c0 c)) s = true ->
  contains (String c0 p') s = false.
Proof.
  induction s as [|c s IH]; [reflexivity|].
  cbn [string_forall]. rewrite andb_true_iff, negb_true_iff. intros [Hc Hs].
  cbn. destruct (ascii_dec c0 c) as [->|Hne].
  - rewrite Ascii.eqb_refl in Hc. discriminate.
  - exact (IH Hs).
Qed.

Lemma split_plain_app (t r : string) :
  string_forall digit_or_dot t = true -> t <> EmptyString ->
  starts_blank r = true ->
  split (t ++ r) = t :: split r.
Proof.
  intros Hp Hne Hr. induction t as [|c t IH]; [congruence|].
  cbn in Hp. apply andb_true_iff in Hp. destruct Hp as [Hc Ht].
  cbn. rewrite (digit_or_dot_not_space c Hc).
  destruct t as [|d t].
  - cbn. rewrite Hr. destruct (split r); reflexivity.
  - rewrite (IH Ht) by discriminate.
    cbn in Ht. apply andb_true_iff in Ht. destruct Ht as [Hd _].
    cbn. rewrite (digit_or_dot_not_space d Hd). reflexivity.
Qed.

(** The side condition of the lemmas above for a token of digits and
    points: it holds no character that digits and points exclude. *)
Ltac plain_lacks Hp :=
  apply (string_forall_impl digit_or_dot); [|exact Hp];
  let c := fresh "c" in intro c; by_all_chars c.

Lemma strip_lower_number_then (t r : string) :
  string_forall digit_or_dot t = true -> t <> EmptyString ->
  rstrip r <> EmptyString -> rstrip r = r -> lower r = r ->
  lower (strip (t ++ r)) = t ++ r.
Proof.
  intros Hp Hne Hr1 Hr2 Hl. unfold strip.
  assert (Hls : lstrip (t ++ r) = t ++ r).
  { destruct t as [|c t]; [congruence|].
    cbn in Hp. apply andb_true_iff in Hp. destruct Hp as [Hc _].
    cbn. rewrite (digit_or_dot_not_space c Hc). reflexivity. }
  rewrite Hls, (rstrip_app t r Hr1), Hr2, lower_app, (lower_plain t Hp), Hl.
  reflexivity.
Qed.

(** Once the synonyms are normalised, a number followed by [m] matches
    none of the formats. *)
Lemma height_number_m (line t : string) :
  string_forall digit_or_dot t = true -> t <> EmptyString ->
  lower (strip line) <> EmptyString ->
  normalize_height (lower (strip line)) = t ++ " m" ->
  parse_height_pass line = Continue height_no_format.
Proof.
  intros Hp Hne Hraw Hnorm. unfold parse_height_pass. cbv zeta.
  apply String.eqb_neq in Hraw. rewrite Hraw, Hnorm.
  rewrite (replace_absent_app _ _ _ t " m") by plain_lacks Hp.
  change (replace "," "." " m") with " m".
  rewrite (split_plain_app t " m" Hp Hne eq_refl).
  change (split " m") with ["m"].
  cbn [List.length Nat.eqb orb andb nth].
  change (startswith "m" "c") with false. cbv iota.
  assert (Hft : contains "ft" (t ++ " m") = false).
  { apply contains_absent. rewrite string_forall_app.
    apply andb_true_iff. split; [plain_lacks Hp | reflexivity]. }
  assert (Hfoot : contains "foot" (t ++ " m") = false).
  { apply contains_absent. rewrite string_forall_app.
    apply andb_true_iff. split; [plain_lacks Hp | reflexivity]. }
  rewrite Hft, Hfoot. cbn [orb filter].
  rewrite all_digit_or_dot_forall, Hp.
  change (all_digit_or_dot "m") with false. reflexivity.
Qed.

(** Carry a [replace] past the number [t] in front of the text, and work
    it out on the unit behind. *)
Ltac past_number t Hp :=
  rewrite (replace_absent_app _ _ _ t) by plain_lacks Hp;
  match goal with
  | |- context [replace ?o ?n ?r] =>
      let r' := eval vm_compute in (replace o n r) in
      change (replace o n r) with r'
  end.

(** C4.  A number of digits and points followed by [m] or by [meter] is
    not accepted: the pass prints that the height could not be parsed and
    the loop goes on to the next line.  So it is for 1.75 m. *)
Theorem number_with_m_is_turned_down :
  forall number : string,
    all_digit_or_dot number = true -> number <> EmptyString ->
    parse_height_pass (number ++ " m") = Continue height_no_format
    /\ parse_height_pass (number ++ " meter") = Continue height_no_format
    /\ (forall stdin,
          parse_height ((number ++ " m") :: stdin)
          = match parse_height stdin with
            | Returned v rest out => Returned v rest (height_no_format :: out)
            | EOFError out => EOFError (height_no_format :: out)
            | OutsideModel => OutsideModel
            end).
Proof.
  intros t Hd Hne. rewrite all_digit_or_dot_forall in Hd.
  assert (Hraw : forall r, t ++ r <> EmptyString).
  { intro r. destruct t; [congruence | discriminate]. }
  assert (Hm : parse_height_pass (t ++ " m") = Continue height_no_format).
  { assert (Hl : lower (strip (t ++ " m")) = t ++ " m").
    { apply strip_lower_number_then; try assumption; try reflexivity. discriminate. }
    apply (height_number_m _ t Hd Hne); rewrite Hl; [apply Hraw|].
    unfold normalize_height, double_quote.
    repeat past_number t Hd. reflexivity. }
  split; [exact Hm|]. split.
  - assert (Hl : lower (strip (t ++ " meter")) = t ++ " meter").
    { apply strip_lower_number_then; try assumption; try reflexivity. discriminate. }
    apply (height_number_m _ t Hd Hne); rewrite Hl; [apply Hraw|].
    unfold normalize_height, double_quote.
    repeat past_number t Hd. reflexivity.
  - intro stdin. unfold parse_height. cbn [input_loop]. rewrite Hm. reflexivity.
Qed.

Lemma number_with_m_at_1_75 :
  all_digit_or_dot "1.75" = true
  /\ "1.75" <> EmptyString
  /\ parse_height_pass "1.75 m" = Continue height_no_format
  /\ parse_height_pass "1.75 meter" = Continue height_no_format
  /\ float_of_string "1.75" = Ok (7 # 4).
Proof.
  assert (Hd : all_digit_or_dot "1.75" = true) by reflexivity.
  assert (Hne : "1.75" <> EmptyString) by discriminate.
  split; [exact Hd|]. split; [exact Hne|].
  destruct (number_with_m_is_turned_down "1.75" Hd Hne) as [Hm [Hmeter _]].
  split; [exact Hm|]. split; [exact Hmeter | reflexivity].
Defined.

(** * Further properties of the parsers *)

(** ** The retry loop *)

(** The loop returns at the first line its pass accepts: the lines before it
    were each answered by a message, the lines after it are left unread. *)
Lemma input_loop_returned (pass : string -> outcome) (stdin : list string)
    (v : Q) (rest out : list string) :
  input_loop pass stdin = Returned v rest out <->
  exists skipped line,
    stdin = (skipped ++ line :: rest)%list
    /\ Forall2 (fun l msg => pass l = Continue msg) skipped out
    /\ pass line = Return v.
Proof.
  split.
  - revert out. induction stdin as [|l stdin IH]; intros out H; [discriminate|].
    cbn in H. destruct (pass l) eqn:Hl; try discriminate.
    + injection H as <- <- <-. exists [], l. repeat split; [constructor | exact Hl].
    + destruct (input_loop pass stdin) as [v' rest' out'| |] eqn:Hrec; try discriminate.
      injection H as <- <- <-.
      destruct (IH out' eq_refl) as (skipped & line & -> & Hf & Hline).
      exists (l :: skipped), line. repeat split; [constructor; assumption | exact Hline].
  - intros (skipped & line & -> & Hf & Hline).
    induction Hf as [|l msg skipped out Hl Hf IH]; cbn.
    + rewrite Hline. reflexivity.
    + rewrite Hl, IH. reflexivity.
Qed.

(** ** Blank lines *)

Lemma lstrip_blank (s : string) : string_forall isspace s = true -> lstrip s = EmptyString.
Proof.
  induction s as [|c s IH]; cbn; [reflexivity|].
  rewrite andb_true_iff. intros [Hc Hs]. rewrite Hc. exact (IH Hs).
Qed.

Lemma strip_blank (s : string) : string_forall isspace s = true -> strip s = EmptyString.
Proof. intro H. unfold strip. rewrite (lstrip_blank s H). reflexivity. Qed.

(** X2.  A line of blanks only, the empty line among them, is answered by
    the request to enter the weight, or the height, and the loop asks
    again. *)
Theorem blank_line_is_asked_again :
  forall line : string,
    string_forall isspace line = true ->
    parse_weight_pass line = Continue weight_prompt_empty
    /\ parse_height_pass line = Continue height_prompt_empty.
Proof.
  intros line H. unfold parse_weight_pass, parse_height_pass.
  rewrite (strip_blank line H). split; reflexivity.
Qed.

Lemma blank_line_is_asked_again_at_spaces :
  string_forall isspace "   " = true
  /\ parse_weight_pass "   " = Continue weight_prompt_empty
  /\ parse_height_pass "   " = Continue height_prompt_empty.
Proof.
  assert (H : string_forall isspace "   " = true) by reflexivity.
  split; [exact H|]. exact (blank_line_is_asked_again "   " H).
Defined.

(** ** What the number parsers can return *)

Lemma round_nonneg (x : Q) : 0 <= x -> (0 <= Py.round x)%Z.
Proof.
  intro Hx. unfold Py.round.
  assert (Hf : (0 <= Qfloor x)%Z).
  { change 0%Z with (Qfloor 0). apply Qfloor_resp_le. exact Hx. }
  destruct (Qcompare _ _); [destruct (Z.even _)|..]; lia.
Qed.

Lemma pow10_pos (n : nat) : 0 < inject_Z (10 ^ Z.of_nat n).
Proof.
  change 0 with (inject_Z 0). rewrite <- Zlt_Qlt. apply Z.pow_pos_nonneg; lia.
Qed.

Lemma round_nd_value (x : Q) (n : nat) :
  Py.round_nd x n
  == inject_Z (Py.round (x * inject_Z (10 ^ Z.of_nat n))) / inject_Z (10 ^ Z.of_nat n).
Proof. unfold Py.round_nd. apply Qred_correct. Qed.

Lemma round_nd_nonneg (x : Q) (n : nat) : 0 <= x -> 0 <= Py.round_nd x n.
Proof.
  intro Hx. rewrite round_nd_value.
  pose proof (pow10_pos n) as Hp.
  apply Qle_shift_div_l; [exact Hp|]. rewrite Qmult_0_l.
  change 0 with (inject_Z 0). rewrite <- Zle_Qle. apply round_nonneg.
  apply Qmult_le_0_compat; [exact Hx | apply Qlt_le_weak, Hp].
Qed.

(** The rounding of [round] is off by half a unit at most. *)
Lemma round_close (x : Q) :
  -(1 # 2) <= inject_Z (Py.round x) - x /\ inject_Z (Py.round x) - x <= 1 # 2.
Proof.
  unfold Py.round.
  pose proof (Qfloor_le x) as Hlo. pose proof (Qlt_floor x) as Hhi.
  rewrite inject_Z_plus in Hhi. change (inject_Z 1) with 1 in Hhi.
  destruct (Qcompare_spec (x - inject_Z (Qfloor x)) (1 # 2)) as [He | Hl | Hg].
  - destruct (Z.even (Qfloor x)).
    + split; lra.
    + rewrite inject_Z_plus. change (inject_Z 1) with 1. split; lra.
  - split; lra.
  - rewrite inject_Z_plus. change (inject_Z 1) with 1. split; lra.
Qed.

Lemma round_below (y : Q) (k : Z) : y < inject_Z k - (1 # 2) -> (Py.round y < k)%Z.
Proof.
  intro H. destruct (round_close y) as [_ Hhi].
  rewrite Zlt_Qlt. lra.
Qed.

(** ** Doubles: powers of two and the binary logarithm *)

Lemma Qeq_bool_false (x y : Q) : ~ x == y <-> Qeq_bool x y = false.
Proof.
  split.
  - intro H. destruct (Qeq_bool x y) eqn:E; [|reflexivity].
    apply Qeq_bool_iff in E. contradiction.
  - apply Qeq_bool_neq.
Qed.

Lemma two_to_pos (e : Z) : 0 < B64.two_to e.
Proof. unfold B64.two_to. apply Qpower_0_lt. reflexivity. Qed.

Lemma two_to_le (n m : Z) : (n <= m)%Z -> B64.two_to n <= B64.two_to m.
Proof. intro H. unfold B64.two_to. apply Qpower_le_compat_l; [exact H | discriminate]. Qed.

Lemma two_to_lt_inv (n m : Z) : B64.two_to n < B64.two_to m -> (n < m)%Z.
Proof. intro H. apply (Qpower_lt_compat_l_inv 2); [exact H | reflexivity]. Qed.

Lemma two_to_nat (k : Z) : (0 <= k)%Z -> B64.two_to k == inject_Z (2 ^ k).
Proof. intro H. unfold B64.two_to. rewrite (Zpower_Qpower 2 k H). reflexivity. Qed.

Lemma two_to_plus (n m : Z) : B64.two_to (n + m) == B64.two_to n * B64.two_to m.
Proof. unfold B64.two_to. apply Qpower_plus. discriminate. Qed.

Lemma two_to_minus (n m : Z) : B64.two_to (n - m) == B64.two_to n / B64.two_to m.
Proof. unfold B64.two_to. apply Qpower_minus. discriminate. Qed.

(** [log2_floor a] is the exponent [e] with [2^e <= a < 2^(e+1)]. *)
Lemma log2_floor_spec (a : Q) :
  0 < a ->
  B64.two_to (B64.log2_floor a) <= a /\ a < B64.two_to (B64.log2_floor a + 1).
Proof.
  intro Ha. destruct a as [n d].
  assert (Hn : (0 < n)%Z).
  { unfold Qlt in Ha. cbn in Ha. lia. }
  unfold B64.log2_floor. cbn [Qnum Qden].
  set (ln := Z.log2 n). set (ld := Z.log2 (Z.pos d)).
  destruct (Z.log2_spec n Hn) as [Hn1 Hn2]. fold ln in Hn1, Hn2.
  destruct (Z.log2_spec (Z.pos d) eq_refl) as [Hd1 Hd2]. fold ld in Hd1, Hd2.
  assert (Hln : (0 <= ln)%Z) by apply Z.log2_nonneg.
  assert (Hld : (0 <= ld)%Z) by apply Z.log2_nonneg.
  assert (Hq : n # d == inject_Z n / inject_Z (Z.pos d)) by apply Qmake_Qdiv.
  assert (Hdpos : 0 < inject_Z (Z.pos d)) by reflexivity.
  assert (Hup : n # d < B64.two_to (ln - ld + 1)).
  { replace (ln - ld + 1)%Z with ((ln + 1) - ld)%Z by lia.
    rewrite two_to_minus, (two_to_nat (ln + 1)), (two_to_nat ld) by lia.
    rewrite Hq.
    apply Qlt_shift_div_l; [change 0 with (inject_Z 0); rewrite <- Zlt_Qlt; lia|].
    unfold Qdiv. rewrite <- Qmult_assoc, (Qmult_comm (/ _)), Qmult_assoc.
    apply Qlt_shift_div_r; [exact Hdpos|].
    rewrite <- !inject_Z_mult, <- Zlt_Qlt.
    replace (Z.succ ln) with (ln + 1)%Z in Hn2 by lia. nia. }
  assert (Hlo : B64.two_to (ln - ld - 1) < n # d).
  { replace (ln - ld - 1)%Z with (ln - (ld + 1))%Z by lia.
    rewrite two_to_minus, (two_to_nat ln), (two_to_nat (ld + 1)) by lia.
    rewrite Hq.
    apply Qlt_shift_div_r; [change 0 with (inject_Z 0); rewrite <- Zlt_Qlt; lia|].
    unfold Qdiv. rewrite <- Qmult_assoc, (Qmult_comm (/ _)), Qmult_assoc.
    apply Qlt_shift_div_l; [exact Hdpos|].
    rewrite <- !inject_Z_mult, <- Zlt_Qlt.
    replace (Z.succ ld) with (ld + 1)%Z in Hd2 by lia. nia. }
  destruct (Qle_bool (B64.two_to (ln - ld)) (n # d)) eqn:E.
  - apply Qle_bool_iff in E. split; assumption.
  - assert (Hlt : n # d < B64.two_to (ln - ld)).
    { apply Qnot_le_lt. intro H. apply Qle_bool_iff in H. congruence. }
    split.
    + apply Qlt_le_weak. exact Hlo.
    + replace (ln - ld - 1 + 1)%Z with (ln - ld)%Z by lia. exact Hlt.
Qed.

Lemma log2_floor_lt (a : Q) (k : Z) :
  0 < a -> a < B64.two_to k -> (B64.log2_floor a < k)%Z.
Proof.
  intros Ha Hk. destruct (log2_floor_spec a Ha) as [Hlo _].
  apply two_to_lt_inv. apply (Qle_lt_trans _ a); assumption.
Qed.

Lemma log2_floor_unique (a : Q) (k : Z) :
  B64.two_to k <= a -> a < B64.two_to (k + 1) -> B64.log2_floor a = k.
Proof.
  intros Hlo Hhi.
  assert (Ha : 0 < a) by (apply (Qlt_le_trans _ (B64.two_to k)); [apply two_to_pos | exact Hlo]).
  destruct (log2_floor_spec a Ha) as [Hlo' Hhi'].
  assert (H1 : (B64.log2_floor a < k + 1)%Z) by (apply log2_floor_lt; assumption).
  assert (H2 : (k < B64.log2_floor a + 1)%Z).
  { apply two_to_lt_inv. apply (Qle_lt_trans _ a); assumption. }
  lia.
Qed.

(** ** Doubles: the nearest double *)

Lemma Qabs_nonneg_eq (x : Q) : 0 <= x -> Qabs x = x.
Proof.
  destruct x as [n d]. unfold Qle. cbn. intro H. unfold Qabs.
  rewrite Z.abs_eq by lia. reflexivity.
Qed.

(** [fl] on a positive number. *)
Lemma fl_positive (x : Q) :
  0 < x ->
  let ex := Z.max (B64.log2_floor x - 52) (-1074) in
  let r := inject_Z (Py.round (x / B64.two_to ex)) * B64.two_to ex in
  B64.fl x = if Qle_bool (B64.two_to 1024) r then B64.Inf false else B64.Fin (Qred r).
Proof.
  intro Hx. cbv zeta. unfold B64.fl.
  assert (H0 : Qeq_bool x 0 = false).
  { apply Qeq_bool_false. intro H. rewrite H in Hx. discriminate Hx. }
  assert (Hle : Qle_bool 0 x = true) by (apply Qle_bool_iff, Qlt_le_weak, Hx).
  rewrite H0, Hle, (Qabs_nonneg_eq x (Qlt_le_weak _ _ Hx)). reflexivity.
Qed.

Lemma fl_mantissa_nonneg (a : Q) (ex : Z) :
  0 <= a -> 0 <= inject_Z (Py.round (a / B64.two_to ex)) * B64.two_to ex.
Proof.
  intro Ha. pose proof (two_to_pos ex) as Hp.
  apply Qmult_le_0_compat; [|apply Qlt_le_weak, Hp].
  change 0 with (inject_Z 0). rewrite <- Zle_Qle. apply round_nonneg.
  apply Qle_shift_div_l; [exact Hp|]. rewrite Qmult_0_l. exact Ha.
Qed.

(** The double nearest to a number that is not negative is not negative. *)
Lemma fl_nonneg (x : Q) : 0 <= x -> B64.ltb (B64.fl x) (B64.Fin 0) = false.
Proof.
  intro Hx. unfold B64.fl.
  destruct (Qeq_bool x 0); [reflexivity|].
  rewrite (proj2 (Qle_bool_iff 0 x) Hx). cbn [negb].
  match goal with |- context [if ?b then B64.Inf _ else _] => destruct b end;
    [reflexivity|].
  cbn [B64.ltb]. apply ltb_false. rewrite Qred_correct.
  rewrite (Qabs_nonneg_eq x Hx). apply fl_mantissa_nonneg, Hx.
Qed.

(** The double nearest to a number that is not positive is not positive. *)
Lemma fl_nonpos (x : Q) : x <= 0 -> B64.leb (B64.fl x) (B64.Fin 0) = true.
Proof.
  intro Hx. unfold B64.fl.
  destruct (Qeq_bool x 0) eqn:E0; [reflexivity|].
  assert (Hneg : Qle_bool 0 x = false).
  { destruct (Qle_bool 0 x) eqn:E; [|reflexivity].
    apply Qle_bool_iff in E. apply Qeq_bool_false in E0.
    exfalso. apply E0. apply Qle_antisym; assumption. }
  rewrite Hneg. cbn [negb]. clear Hneg.
  match goal with |- context [if ?b then B64.Inf _ else _] => destruct b end;
    [reflexivity|].
  cbn [B64.leb]. apply leb_true. rewrite Qred_correct.
  pose proof (fl_mantissa_nonneg (Qabs x) (Z.max (B64.log2_floor (Qabs x) - 52) (-1074))
                (Qabs_nonneg x)) as H.
  lra.
Qed.

(** [fl] depends on the value of the rational alone, not on the fraction
    that writes it. *)
Lemma fl_compat (x y : Q) : x == y -> B64.fl x = B64.fl y.
Proof.
  intro H. unfold B64.fl.
  assert (H0 : Qeq_bool x 0 = Qeq_bool y 0).
  { destruct (Qeq_bool y 0) eqn:E.
    - apply Qeq_bool_iff. apply Qeq_bool_iff in E. rewrite H. exact E.
    - apply Qeq_bool_false. apply Qeq_bool_false in E. rewrite H. exact E. }
  rewrite H0. destruct (Qeq_bool y 0) eqn:E0; [reflexivity|].
  apply Qeq_bool_false in E0.
  assert (Hs : Qle_bool 0 x = Qle_bool 0 y).
  { destruct (Qle_bool 0 y) eqn:E.
    - apply Qle_bool_iff. apply Qle_bool_iff in E. rewrite H. exact E.
    - destruct (Qle_bool 0 x) eqn:E'; [|reflexivity].
      apply Qle_bool_iff in E'. rewrite H in E'. apply Qle_bool_iff in E'. congruence. }
  assert (Ha : Qabs x == Qabs y) by (rewrite H; reflexivity).
  assert (Hpos : 0 < Qabs y).
  { destruct (Qle_lt_or_eq _ _ (Qabs_nonneg y)) as [Hl | He]; [exact Hl|].
    exfalso. apply E0. symmetry in He.
    destruct (Qabs_Qle_condition y 0) as [Hc _].
    assert (Hle : Qabs y <= 0) by (rewrite He; apply Qle_refl).
    destruct (Hc Hle) as [H1 H2]. apply Qle_antisym; [exact H2 | exact H1]. }
  assert (He : B64.log2_floor (Qabs x) = B64.log2_floor (Qabs y)).
  { destruct (log2_floor_spec (Qabs y) Hpos) as [Hlo Hhi].
    apply log2_floor_unique; rewrite Ha; assumption. }
  rewrite He, Hs.
  rewrite (round_compat (Qabs x / _)
             (Qabs y / B64.two_to (Z.max (B64.log2_floor (Qabs y) - 52) (-1074))))
    by (rewrite Ha; reflexivity).
  reflexivity.
Qed.

Lemma b64_ltb_leb (x y : B64.float) : B64.ltb x y = true -> B64.leb x y = true.
Proof.
  destruct x as [a|s|], y as [b|t|]; cbn; try discriminate; try (intro H; exact H).
  - intro H. apply ltb_true in H. apply leb_true. apply Qlt_le_weak, H.
  - destruct s, t; cbn; congruence.
Qed.

(** A double below 2200, less 1000, is still below 1200 once the difference
    is rounded: no double lies within 2^-43 of 2200. *)
Lemma below_2200_less_1000 (tdee : B64.float) :
  B64.valid tdee -> B64.ltb tdee (B64.Fin 2200) = true ->
  B64.ltb (B64.sub tdee (B64.Fin 1000)) (B64.Fin 1200) = true.
Proof.
  destruct tdee as [t|s|]; cbn [B64.valid B64.ltb];
    [|intros _ H; rewrite H; reflexivity | discriminate].
  intros Hv Ht. apply ltb_true in Ht.
  change (B64.sub (B64.Fin t) (B64.Fin 1000)) with (B64.fl (t + - (1000))).
  set (x := t + - (1000)).
  assert (Hx : x < 1200) by (unfold x; lra).
  destruct (Qlt_le_dec 0 x) as [Hpos | Hnp].
  2:{ pose proof (fl_nonpos x Hnp) as H.
      destruct (B64.fl x) as [q|s|]; cbn [B64.leb B64.ltb] in H |- *;
        [|exact H | discriminate].
      apply ltb_true. apply leb_true in H. lra. }
  rewrite (fl_positive x Hpos). cbv zeta.
  set (ex := Z.max (B64.log2_floor x - 52) (-1074)).
  assert (Hex : (ex <= -42)%Z).
  { assert (He : (B64.log2_floor x < 11)%Z).
    { apply log2_floor_lt; [exact Hpos|].
      apply (Qlt_trans _ 1200); [exact Hx | reflexivity]. }
    unfold ex. lia. }
  pose proof (two_to_pos ex) as Hpex.
  set (N := (1200 * 2 ^ (- ex))%Z).
  assert (HN : inject_Z N * B64.two_to ex == 1200).
  { unfold N. rewrite inject_Z_mult, <- (two_to_nat (- ex)) by lia.
    rewrite <- Qmult_assoc, <- two_to_plus.
    replace (- ex + ex)%Z with 0%Z by lia. reflexivity. }
  assert (Hm : (Py.round (x / B64.two_to ex) < N)%Z).
  { apply round_below.
    apply Qnot_le_lt. intro Hge.
    (* then tdee is within 2^-43 of 2200, where no double is *)
    assert (Hx2 : 1200 - (1 # 2) * B64.two_to ex <= x).
    { apply (Qmult_le_r _ _ (B64.two_to ex) Hpex) in Hge.
      assert (E : x / B64.two_to ex * B64.two_to ex == x).
      { field. intro H. rewrite H in Hpex. discriminate Hpex. }
      rewrite E in Hge. rewrite <- HN. lra. }
    assert (Hsmall : B64.two_to ex <= B64.two_to (-42)) by (apply two_to_le; exact Hex).
    assert (Ht1 : 2200 - (1 # 2) * B64.two_to (-42) <= t) by (unfold x in Hx2; lra).
    assert (Htpos : 0 < t).
    { apply (Qlt_le_trans _ (2200 - (1 # 2) * B64.two_to (-42))); [reflexivity | exact Ht1]. }
    assert (Hlog : B64.log2_floor t = 11%Z).
    { apply log2_floor_unique.
      - apply (Qle_trans _ (2200 - (1 # 2) * B64.two_to (-42))); [discriminate | exact Ht1].
      - apply (Qlt_trans _ 2200); [exact Ht | reflexivity]. }
    rewrite (fl_positive t Htpos) in Hv. cbv zeta in Hv. rewrite Hlog in Hv.
    change (Z.max (11 - 52) (-1074)) with (-41)%Z in Hv.
    set (m := Py.round (t / B64.two_to (-41))) in Hv.
    set (rt := inject_Z m * B64.two_to (-41)) in Hv.
    assert (Hrt : rt == inject_Z m * B64.two_to (-41)) by reflexivity.
    clearbody rt m.
    destruct (Qle_bool _ rt); [discriminate Hv|].
    assert (Ht2 : t == inject_Z m * B64.two_to (-41)).
    { rewrite <- Hrt. injection Hv as <-. apply Qred_correct. }
    assert (E41 : B64.two_to (-41) == 1 # (2 ^ 41)) by reflexivity.
    assert (E42 : B64.two_to (-42) == 1 # (2 ^ 42)) by reflexivity.
    rewrite E42 in Ht1. rewrite Ht2, E41 in Ht1, Ht.
    assert (H1 : inject_Z (2200 * 2 ^ 41 - 1) < inject_Z m).
    { apply (Qmult_lt_r _ _ (1 # 2 ^ 41)); [reflexivity|].
      apply (Qlt_le_trans _ (2200 - (1 # 2) * (1 # 2 ^ 42))); [reflexivity | exact Ht1]. }
    assert (H2 : inject_Z m < inject_Z (2200 * 2 ^ 41)).
    { apply (Qmult_lt_r _ _ (1 # 2 ^ 41)); [reflexivity|].
      apply (Qlt_le_trans _ 2200); [exact Ht | discriminate]. }
    rewrite <- Zlt_Qlt in H1, H2. lia. }
  assert (Hr : inject_Z (Py.round (x / B64.two_to ex)) * B64.two_to ex < 1200).
  { rewrite <- HN. apply Qmult_lt_r; [exact Hpex|]. rewrite <- Zlt_Qlt. exact Hm. }
  destruct (Qle_bool (B64.two_to 1024) _) eqn:Eo.
  - exfalso. apply Qle_bool_iff in Eo.
    assert (Hbig : 1200 < B64.two_to 1024) by reflexivity. lra.
  - cbn [B64.ltb]. apply ltb_true. rewrite Qred_correct. exact Hr.
Qed.

(** ** Doubles: [float] of a text *)

Lemma of_string_ok (s : string) (q : Q) :
  float_of_string s = Ok q -> B64.of_string s = Ok (B64.fl q).
Proof. intro H. unfold B64.of_string. rewrite H. reflexivity. Qed.

Lemma of_string_value_error (s : string) :
  float_of_string s = Raise ValueError -> B64.of_string s = Raise ValueError.
Proof. intro H. unfold B64.of_string. rewrite H. reflexivity. Qed.

(** ** Doubles: what the number parsers can return *)

(** The loop returns at the first line its pass accepts: the lines before it
    were each answered by a message, the lines after it are left unread. *)
Lemma b64_input_loop_returned (pass : string -> B64.outcome) (stdin : list string)
    (v : B64.float) (rest out : list string) :
  B64.input_loop pass stdin = B64.Returned v rest out ->
  exists skipped line,
    stdin = (skipped ++ line :: rest)%list
    /\ Forall2 (fun l msg => pass l = B64.Continue msg) skipped out
    /\ pass line = B64.Return v.
Proof.
  revert out. induction stdin as [|l stdin IH]; intros out H; [discriminate|].
  cbn in H. destruct (pass l) eqn:Hl.
  - injection H as <- <- <-. exists [], l. repeat split; [constructor | exact Hl].
  - destruct (B64.input_loop pass stdin) as [v' rest' out'|] eqn:Hrec; try discriminate.
    injection H as <- <- <-.
    destruct (IH out' eq_refl) as (skipped & line & -> & Hf & Hline).
    exists (l :: skipped), line. repeat split; [constructor; assumption | exact Hline].
Qed.

(** What a pass of [parse_weight] returns is the rounding of a number of
    kilograms that the test [kg <= 0] let through. *)
Lemma b64_parse_weight_pass_returns (line : string) (v : B64.float) :
  B64.parse_weight_pass line = B64.Return v ->
  exists kg, B64.leb kg (B64.Fin 0) = false /\ v = B64.round_nd kg 2.
Proof.
  unfold B64.parse_weight_pass. cbv zeta.
  destruct (String.eqb _ ""); [discriminate|].
  set (parts := split _). clearbody parts. unfold B64.try_except, bind.
  set (pounds := B64.fl (45359237 # 100000000)). clearbody pounds.
  assert (Hend : forall (val : B64.float) (unit : string) (o : B64.outcome),
    (if startswith unit "k"
     then if B64.leb val (B64.Fin 0) then Ok (B64.Continue weight_not_positive)
          else Ok (B64.Return (B64.round_nd val 2))
     else if startswith unit "l"
          then if B64.leb (B64.mul val pounds) (B64.Fin 0)
               then Ok (B64.Continue weight_not_positive)
               else Ok (B64.Return (B64.round_nd (B64.mul val pounds) 2))
          else Ok (B64.Continue weight_unknown_unit)) = Ok o ->
    o = B64.Return v ->
    exists kg, B64.leb kg (B64.Fin 0) = false /\ v = B64.round_nd kg 2).
  { intros val unit o Ho Hv. subst o.
    destruct (startswith unit "k").
    - destruct (B64.leb val (B64.Fin 0)) eqn:E; [discriminate|].
      injection Ho as <-. exists val. split; [exact E | reflexivity].
    - destruct (startswith unit "l"); [|discriminate].
      destruct (B64.leb (B64.mul val pounds) (B64.Fin 0)) eqn:E; [discriminate|].
      injection Ho as <-. eexists. split; [exact E | reflexivity]. }
  destruct parts as [|p0 [|p1 ps]].
  - discriminate.
  - destruct (split_num_unit p0 "" "") as [num unit].
    destruct (B64.of_string num) as [val|e]; [|discriminate].
    cbv iota beta.
    match goal with |- match ?b with _ => _ end = _ -> _ =>
      destruct b as [o|e] eqn:Hb; [|discriminate] end.
    intro Hv. exact (Hend _ _ _ Hb Hv).
  - destruct (B64.of_string p0) as [val|e]; [|discriminate].
    cbv iota beta.
    match goal with |- match ?b with _ => _ end = _ -> _ =>
      destruct b as [o|e] eqn:Hb; [|discriminate] end.
    intro Hv. exact (Hend _ _ _ Hb Hv).
Qed.

(** X3.  On lines of ASCII text, a weight that [parse_weight] returns is
    never negative: it is [nan], or plus infinity, or the double nearest to
    a whole number of hundredths of a kilogram, zero or more.  It can be
    zero, as the positivity test is made before the rounding and 0.004 kg
    passes it; and it is [nan] or infinite for the lines [nan kg] and
    [inf kg], which the test [kg <= 0] lets through. *)
Theorem parse_weight_is_never_negative :
  (forall (stdin : list string) (v : B64.float) (rest out : list string),
     Forall (fun line => string_forall ascii_char line = true) stdin ->
     B64.parse_weight stdin = B64.Returned v rest out ->
     B64.ltb v (B64.Fin 0) = false
     /\ (v = B64.NaN \/ v = B64.Inf false
         \/ exists hundredths : Z,
              (0 <= hundredths)%Z /\ v = B64.fl (inject_Z hundredths / 100)))
  /\ B64.parse_weight_pass "0.004 kg" = B64.Return (B64.Fin 0)
  /\ B64.parse_weight_pass "nan kg" = B64.Return B64.NaN
  /\ B64.parse_weight_pass "inf kg" = B64.Return (B64.Inf false).
Proof.
  split; [|repeat split; vm_compute; reflexivity].
  intros stdin v rest out _ H.
  apply b64_input_loop_returned in H. destruct H as (skipped & line & _ & _ & Hline).
  apply b64_parse_weight_pass_returns in Hline. destruct Hline as (kg & Hkg & ->).
  destruct kg as [q|s|]; cbn [B64.round_nd B64.leb] in *.
  - apply leb_false in Hkg.
    assert (Hz : (0 <= Py.round (q * inject_Z (10 ^ Z.of_nat 2)))%Z).
    { apply round_nonneg. apply Qmult_le_0_compat; [lra | discriminate]. }
    split.
    + apply fl_nonneg. apply round_nd_nonneg. lra.
    + right. right. exists (Py.round (q * inject_Z (10 ^ Z.of_nat 2))).
      split; [exact Hz|]. apply fl_compat. apply round_nd_value.
  - subst s. split; [reflexivity | right; left; reflexivity].
  - split; [reflexivity | left; reflexivity].
Qed.

Lemma parse_weight_is_never_negative_at_154_lb :
  Forall (fun line => string_forall ascii_char line = true) ["abc"; "154 lb"; "x"]
  /\ B64.parse_weight ["abc"; "154 lb"; "x"]
     = B64.Returned (B64.fl (6985 # 100)) ["x"] [weight_unparsed]
  /\ B64.ltb (B64.fl (6985 # 100)) (B64.Fin 0) = false.
Proof.
  assert (Ha : Forall (fun line => string_forall ascii_char line = true)
                 ["abc"; "154 lb"; "x"]) by (repeat constructor).
  assert (H : B64.parse_weight ["abc"; "154 lb"; "x"]
              = B64.Returned (B64.fl (6985 # 100)) ["x"] [weight_unparsed])
    by (vm_compute; reflexivity).
  split; [exact Ha|]. split; [exact H|].
  exact (proj1 (proj1 parse_weight_is_never_negative _ _ _ _ Ha H)).
Defined.

(** X4.  On lines of ASCII text, what [safe_float_input] returns is a
    number above zero or [nan]: the line [nan] passes the test [f <= 0].
    Every line turned down before, no number or a number that is zero or
    negative, a positive decimal too small for a double among them, was
    answered by the request for a positive number. *)
Theorem safe_float_input_is_positive_or_nan :
  (forall (stdin : list string) (v : B64.float) (rest out : list string),
     Forall (fun line => string_forall ascii_char line = true) stdin ->
     B64.safe_float_input stdin = B64.Returned v rest out ->
     (v = B64.NaN \/ B64.ltb (B64.Fin 0) v = true)
     /\ Forall (fun msg => msg = positive_number_message) out)
  /\ B64.safe_float_pass "nan" = B64.Return B64.NaN
  /\ B64.safe_float_pass "1e-400" = B64.Continue positive_number_message.
Proof.
  split; [|split; vm_compute; reflexivity].
  intros stdin v rest out _ H.
  apply b64_input_loop_returned in H. destruct H as (skipped & line & _ & Hf & Hline).
  split.
  - unfold B64.safe_float_pass, B64.try_except, bind in Hline. cbv zeta in Hline.
    destruct (B64.of_string (strip line)) as [f|e]; [|discriminate].
    destruct (B64.leb f (B64.Fin 0)) eqn:E; [discriminate|]. injection Hline as <-.
    destruct f as [q|s|]; cbn [B64.leb B64.ltb] in *.
    + right. unfold Py.ltb. unfold Py.leb in E. rewrite E. reflexivity.
    + right. rewrite E. reflexivity.
    + left. reflexivity.
  - clear Hline. induction Hf as [|l msg skipped out Hl Hf IH]; constructor; [|exact IH].
    unfold B64.safe_float_pass, B64.try_except, bind in Hl. cbv zeta in Hl.
    destruct (B64.of_string (strip l)) as [f|e].
    + destruct (B64.leb f (B64.Fin 0)); [|discriminate]. injection Hl as <-. reflexivity.
    + injection Hl as <-. reflexivity.
Qed.

Lemma safe_float_input_at_30 :
  Forall (fun line => string_forall ascii_char line = true) ["-3"; "zero"; " 30 "; "y"]
  /\ B64.safe_float_input ["-3"; "zero"; " 30 "; "y"]
     = B64.Returned (B64.Fin 30) ["y"] [positive_number_message; positive_number_message]
  /\ (B64.Fin 30 = B64.NaN \/ B64.ltb (B64.Fin 0) (B64.Fin 30) = true).
Proof.
  assert (Ha : Forall (fun line => string_forall ascii_char line = true)
                 ["-3"; "zero"; " 30 "; "y"]) by (repeat constructor).
  assert (H : B64.safe_float_input ["-3"; "zero"; " 30 "; "y"]
              = B64.Returned (B64.Fin 30) ["y"]
                  [positive_number_message; positive_number_message])
    by (vm_compute; reflexivity).
  split; [exact Ha|]. split; [exact H|].
  exact (proj1 (proj1 safe_float_input_is_positive_or_nan _ _ _ _ Ha H)).
Defined.

(** ** Computing the string operations on a number followed by text *)

Lemma plain_nonblank (s : string) :
  string_forall digit_or_dot s = true -> string_forall nonblank s = true.
Proof.
  apply string_forall_impl. intros c Hc. unfold nonblank.
  rewrite (digit_or_dot_not_space c Hc). reflexivity.
Qed.

Lemma app_nonempty_l (s r : string) : s <> EmptyString -> s ++ r <> EmptyString.
Proof. destruct s; [congruence | discriminate]. Qed.

Lemma app_assoc (s r t : string) : (s ++ r) ++ t = s ++ (r ++ t).
Proof. induction s as [|c s IH]; cbn; [reflexivity | rewrite IH; reflexivity]. Qed.

Lemma app_empty_r (s : string) : s ++ "" = s.
Proof. induction s as [|c s IH]; cbn; [reflexivity | rewrite IH; reflexivity]. Qed.

Lemma lstrip_word_app (w r : string) :
  string_forall nonblank w = true -> w <> EmptyString -> lstrip (w ++ r) = w ++ r.
Proof.
  intros Hw Hne. destruct w as [|c w]; [congruence|].
  cbn in Hw. apply andb_true_iff in Hw. destruct Hw as [Hc _].
  unfold nonblank in Hc. apply negb_true_iff in Hc. cbn. rewrite Hc. reflexivity.
Qed.

Lemma rstrip_word (w : string) : string_forall nonblank w = true -> rstrip w = w.
Proof.
  induction w as [|c w IH]; cbn; [reflexivity|].
  rewrite andb_true_iff. intros [Hc Hw]. unfold nonblank in Hc.
  apply negb_true_iff in Hc. rewrite (IH Hw), Hc. destruct w; reflexivity.
Qed.

(** A line that begins with the number [t] and ends with the word [w] is
    its own [strip]. *)
Lemma strip_number_to_word (t mid w : string) :
  string_forall digit_or_dot t = true -> t <> EmptyString ->
  string_forall nonblank w = true -> w <> EmptyString ->
  strip (t ++ mid ++ w) = t ++ mid ++ w.
Proof.
  intros Ht Hne Hw Hwne. unfold strip.
  rewrite (lstrip_word_app t _ (plain_nonblank t Ht) Hne).
  rewrite <- !app_assoc. rewrite rstrip_app; rewrite (rstrip_word w Hw); [reflexivity|exact Hwne].
Qed.

Lemma prefix_forall (q : ascii -> bool) (p s : string) :
  String.prefix p s = true -> string_forall q s = true -> string_forall q p = true.
Proof.
  revert s. induction p as [|a p IH]; intros s Hp Hs; [reflexivity|].
  destruct s as [|b s]; [discriminate|].
  rewrite prefix_cons in Hp. destruct (ascii_dec a b) as [->|]; [|discriminate].
  cbn in Hs |- *. apply andb_true_iff in Hs. destruct Hs as [Hb Hs].
  rewrite Hb. exact (IH s Hp Hs).
Qed.

(** Text all of whose characters pass [q] does not contain a pattern one of
    whose characters fails it. *)
Lemma contains_forall (q : ascii -> bool) (p s : string) :
  string_forall q s = true -> string_forall q p = false -> contains p s = false.
Proof.
  intros Hs Hp. induction s as [|c s IH].
  - cbn. destruct p; [discriminate Hp | reflexivity].
  - cbn [contains].
    destruct (String.prefix p (String c s)) eqn:E.
    + rewrite (prefix_forall q p _ E Hs) in Hp. discriminate.
    + cbn in Hs. apply andb_true_iff in Hs. exact (IH (proj2 Hs)).
Qed.

Lemma replace_no_occurrence (old new s : string) :
  contains old s = false -> replace old new s = s.
Proof.
  unfold replace. induction s as [|c s IH]; [reflexivity|].
  cbn [contains replace_from]. intro H. apply orb_false_iff in H.
  destruct H as [Hp Hc]. rewrite Hp, (IH Hc). reflexivity.
Qed.

Lemma replace_forall (q : ascii -> bool) (old new s : string) :
  string_forall q s = true -> string_forall q old = false -> replace old new s = s.
Proof.
  intros Hs Ho. apply replace_no_occurrence. exact (contains_forall q old s Hs Ho).
Qed.

Lemma replace_cons_miss (old new : string) (c : ascii) (r : string) :
  String.prefix old (String c r) = false ->
  replace old new (String c r) = String c (replace old new r).
Proof. unfold replace. cbn [replace_from]. intros ->. reflexivity. Qed.

Lemma replace_from_skip (old new : string) (k : nat) (c : ascii) (r : string) :
  replace_from (S k) old new (String c r) = replace_from k old new r.
Proof. reflexivity. Qed.

Lemma replace_cons_hit (old new : string) (c : ascii) (r : string) :
  String.prefix old (String c r) = true ->
  replace old new (String c r) = new ++ replace_from (String.length old - 1) old new r.
Proof. unfold replace. cbn [replace_from]. intros ->. reflexivity. Qed.

Lemma split_blank_cons (c : ascii) (r : string) :
  isspace c = true -> split (String c r) = split r.
Proof. intro H. cbn. rewrite H. reflexivity. Qed.

Lemma split_word_app (w r : string) :
  string_forall nonblank w = true -> w <> EmptyString ->
  starts_blank r = true ->
  split (w ++ r) = w :: split r.
Proof.
  intros Hw Hne Hr. induction w as [|c w IH]; [congruence|].
  cbn in Hw. apply andb_true_iff in Hw. destruct Hw as [Hc Hw].
  unfold nonblank in Hc. apply negb_true_iff in Hc.
  cbn. rewrite Hc.
  destruct w as [|d w].
  - cbn. rewrite Hr. destruct (split r); reflexivity.
  - rewrite (IH Hw) by discriminate.
    cbn in Hw. apply andb_true_iff in Hw. destruct Hw as [Hd _].
    unfold nonblank in Hd. apply negb_true_iff in Hd.
    cbn. rewrite Hd. reflexivity.
Qed.

Lemma split_word (w : string) :
  string_forall nonblank w = true -> w <> EmptyString -> split w = [w].
Proof.
  intros Hw Hne. rewrite <- (app_empty_r w) at 1.
  rewrite (split_word_app w "" Hw Hne eq_refl). reflexivity.
Qed.

Lemma split_num_unit_app (t r num unit : string) :
  string_forall digit_or_dot t = true ->
  split_num_unit (t ++ r) num unit = split_num_unit r (num ++ t) unit.
Proof.
  revert num. induction t as [|c t IH]; intros num Ht.
  - cbn. rewrite app_empty_r. reflexivity.
  - cbn in Ht. apply andb_true_iff in Ht. destruct Ht as [Hc Ht].
    cbn [append split_num_unit]. fold (digit_or_dot c). rewrite Hc.
    rewrite (IH _ Ht), app_assoc. reflexivity.
Qed.

Lemma startswith_plain (t p' : string) (c0 : ascii) :
  string_forall digit_or_dot t = true -> digit_or_dot c0 = false ->
  startswith t (String c0 p') = false.
Proof.
  intros Ht Hc. unfold startswith. destruct t as [|c t]; [reflexivity|].
  rewrite prefix_cons. destruct (ascii_dec c0 c) as [->|]; [|reflexivity].
  cbn in Ht. apply andb_true_iff in Ht. destruct Ht as [Hc' _]. congruence.
Qed.

Lemma eqb_app_nonempty (t r : string) :
  t <> EmptyString -> String.eqb (t ++ r) "" = false.
Proof. destruct t; [congruence | reflexivity]. Qed.

Lemma lower_strip_number_to_word (t mid w : string) :
  string_forall digit_or_dot t = true -> t <> EmptyString ->
  string_forall nonblank w = true -> w <> EmptyString ->
  lower (mid ++ w) = mid ++ w ->
  lower (strip (t ++ mid ++ w)) = t ++ mid ++ w.
Proof.
  intros Ht Hne Hw Hwne Hl.
  rewrite (strip_number_to_word t mid w Ht Hne Hw Hwne).
  rewrite lower_app, (lower_plain t Ht), Hl. reflexivity.
Qed.

(** Carry the innermost [replace] past the number [t] and work it out on
    the text behind it. *)
Ltac past t Ht :=
  rewrite (replace_absent_app _ _ _ t) by plain_lacks Ht;
  match goal with
  | |- context [t ++ replace ?o ?n ?r] =>
      let r' := eval vm_compute in (replace o n r) in
      change (replace o n r) with r'
  end.

(** ** Weights: the accepted forms *)

Section WeightForms.

Variables (t : string) (v : B64.float).
Hypothesis Ht : all_digit_or_dot t = true.
Hypothesis Hv : B64.of_string t = Ok v.

Let Hplain : string_forall digit_or_dot t = true.
Proof. rewrite <- all_digit_or_dot_forall. exact Ht. Qed.

Let Hne : t <> EmptyString.
Proof. intros ->. discriminate Hv. Qed.

(** The outcome for a number of kilograms [kg]. *)
Let answer (kg : B64.float) : B64.outcome :=
  if B64.leb kg (B64.Fin 0) then B64.Continue weight_not_positive
  else B64.Return (B64.round_nd kg 2).

(** The number of pounds [v], in kilograms: line 69. *)
Let pounds : B64.float := B64.mul v (B64.fl (45359237 # 100000000)).

Lemma weight_bare : B64.parse_weight_pass t = answer v.
Proof.
  unfold B64.parse_weight_pass. cbv zeta.
  rewrite (strip_plain t Hplain), (lower_plain t Hplain).
  rewrite <- (app_empty_r t) at 1. rewrite (eqb_app_nonempty t "" Hne).
  rewrite !(replace_absent _ _ _ t) by plain_lacks Hplain.
  rewrite (split_plain t Hplain Hne).
  rewrite <- (app_empty_r t) at 1. rewrite (split_num_unit_app t "" "" "" Hplain).
  cbn [split_num_unit append]. rewrite Hv. cbn [bind String.eqb B64.try_except].
  change (startswith "kg" "k") with true. cbv iota.
  unfold answer. destruct (B64.leb v (B64.Fin 0)); reflexivity.
Qed.

(** The line [t ++ u] for a literal [u] that ends in a letter: its [strip]
    and [lower], and the three [replace] of lines 48-49, worked out. *)
Ltac weight_line u :=
  unfold B64.parse_weight_pass; cbv zeta;
  let Hl := fresh "Hl" in
  assert (Hl : lower (strip (t ++ u)) = t ++ u);
  [ first
      [ apply (lower_strip_number_to_word t "" u Hplain Hne); [reflexivity | discriminate | reflexivity]
      | match u with
        | String ?c ?w =>
            apply (lower_strip_number_to_word t (String c "") w Hplain Hne);
            [reflexivity | discriminate | reflexivity]
        end ]
  | rewrite Hl, (eqb_app_nonempty t u Hne); clear Hl;
    repeat past t Hplain ].

Ltac weight_fused_tokens u :=
  rewrite (split_word (t ++ u))
    by (first [ apply app_nonempty_l; exact Hne
              | rewrite string_forall_app, (plain_nonblank t Hplain); reflexivity ]);
  rewrite (split_num_unit_app t u "" "" Hplain);
  match goal with
  | |- context [split_num_unit u ?n ?x] =>
      let r := eval vm_compute in (snd (split_num_unit u "" "")) in
      change (split_num_unit u n x) with (t, r)
  end;
  cbv beta iota; rewrite Hv; cbn [bind String.eqb Ascii.eqb Bool.eqb B64.try_except].

Ltac weight_spaced_tokens u :=
  rewrite (split_word_app t u (plain_nonblank t Hplain) Hne eq_refl);
  match goal with
  | |- context [split u] =>
      let r := eval vm_compute in (split u) in change (split u) with r
  end;
  cbv beta iota; rewrite Hv; cbn [bind B64.try_except].

Ltac weight_answer :=
  match goal with
  | |- context [startswith ?a ?b] =>
      let r := eval vm_compute in (startswith a b) in change (startswith a b) with r
  end;
  cbv iota;
  try match goal with
  | |- context [startswith ?a ?b] =>
      let r := eval vm_compute in (startswith a b) in change (startswith a b) with r
  end;
  cbv iota; unfold answer, pounds;
  match goal with
  | |- context [B64.leb ?k (B64.Fin 0)] => destruct (B64.leb k (B64.Fin 0)); reflexivity
  end.

Lemma weight_kg_fused : B64.parse_weight_pass (t ++ "kg") = answer v.
Proof. weight_line "kg". weight_fused_tokens "kg". weight_answer. Qed.

Lemma weight_kgs_fused : B64.parse_weight_pass (t ++ "kgs") = answer v.
Proof. weight_line "kgs". weight_fused_tokens "kg". weight_answer. Qed.

Lemma weight_kg_spaced : B64.parse_weight_pass (t ++ " kg") = answer v.
Proof. weight_line " kg". weight_spaced_tokens " kg". weight_answer. Qed.

Lemma weight_kgs_spaced : B64.parse_weight_pass (t ++ " kgs") = answer v.
Proof. weight_line " kgs". weight_spaced_tokens " kg". weight_answer. Qed.

Lemma weight_lb_fused : B64.parse_weight_pass (t ++ "lb") = answer pounds.
Proof. weight_line "lb". weight_fused_tokens "lb". weight_answer. Qed.

Lemma weight_lbs_fused : B64.parse_weight_pass (t ++ "lbs") = answer pounds.
Proof. weight_line "lbs". weight_fused_tokens "lb". weight_answer. Qed.

Lemma weight_lb_spaced : B64.parse_weight_pass (t ++ " lb") = answer pounds.
Proof. weight_line " lb". weight_spaced_tokens " lb". weight_answer. Qed.

Lemma weight_lbs_spaced : B64.parse_weight_pass (t ++ " lbs") = answer pounds.
Proof. weight_line " lbs". weight_spaced_tokens " lb". weight_answer. Qed.

End WeightForms.

(** A weight that is not above zero is not above zero in pounds either. *)
Lemma pounds_not_positive (v : B64.float) :
  B64.leb v (B64.Fin 0) = true ->
  B64.leb (B64.mul v (B64.fl (45359237 # 100000000))) (B64.Fin 0) = true.
Proof.
  intro H.
  assert (Hc : exists c, B64.fl (45359237 # 100000000) = B64.Fin c /\ 0 < c)
    by (eexists; split; [vm_compute; reflexivity | reflexivity]).
  destruct Hc as (c & -> & Hc).
  destruct v as [q|s|]; cbn [B64.leb B64.mul] in *.
  - apply leb_true in H. apply fl_nonpos. nra.
  - subst s.
    assert (Hz : Qeq_bool c 0 = false).
    { apply Qeq_bool_false. intro E. rewrite E in Hc. discriminate Hc. }
    rewrite Hz. unfold B64.is_negative.
    rewrite (proj2 (Qle_bool_iff 0 c) (Qlt_le_weak _ _ Hc)). reflexivity.
  - discriminate H.
Qed.

(** X5.  A weight written as a number of digits and points, bare or
    followed by kg or kgs, with or without a space, is the double of that
    number, rounded to two decimal places as [round] rounds a double;
    followed by lb or lbs it is that double times 0.45359237, rounded
    alike.  A number that is zero, or too small for a double, is answered
    in all these forms by the message that the weight must be positive. *)
Theorem weight_forms_of_a_number :
  forall (number : string) (v : B64.float),
    all_digit_or_dot number = true -> B64.of_string number = Ok v ->
    let pounds := B64.mul v (B64.fl (45359237 # 100000000)) in
    (B64.leb v (B64.Fin 0) = false ->
       Forall (fun unit => B64.parse_weight_pass (number ++ unit)
                           = B64.Return (B64.round_nd v 2))
         [""; "kg"; " kg"; "kgs"; " kgs"])
    /\ (B64.leb pounds (B64.Fin 0) = false ->
       Forall (fun unit => B64.parse_weight_pass (number ++ unit)
                           = B64.Return (B64.round_nd pounds 2))
         ["lb"; " lb"; "lbs"; " lbs"])
    /\ (B64.leb v (B64.Fin 0) = true ->
       Forall (fun unit => B64.parse_weight_pass (number ++ unit)
                           = B64.Continue weight_not_positive)
         [""; "kg"; " kg"; "kgs"; " kgs"; "lb"; " lb"; "lbs"; " lbs"]).
Proof.
  intros t v Ht Hv. cbv zeta.
  pose proof (weight_bare t v Ht Hv) as H0.
  pose proof (weight_kg_fused t v Ht Hv) as H1.
  pose proof (weight_kg_spaced t v Ht Hv) as H2.
  pose proof (weight_kgs_fused t v Ht Hv) as H3.
  pose proof (weight_kgs_spaced t v Ht Hv) as H4.
  pose proof (weight_lb_fused t v Ht Hv) as H5.
  pose proof (weight_lb_spaced t v Ht Hv) as H6.
  pose proof (weight_lbs_fused t v Ht Hv) as H7.
  pose proof (weight_lbs_spaced t v Ht Hv) as H8.
  cbv zeta beta in H0, H1, H2, H3, H4, H5, H6, H7, H8.
  repeat split.
  - intro Hk. rewrite Hk in H0, H1, H2, H3, H4.
    repeat constructor; try assumption.
    rewrite app_empty_r. exact H0.
  - intro Hl. rewrite Hl in H5, H6, H7, H8.
    repeat constructor; assumption.
  - intro Hk. pose proof (pounds_not_positive v Hk) as Hl.
    rewrite Hk in H0, H1, H2, H3, H4. rewrite Hl in H5, H6, H7, H8.
    repeat constructor; try assumption.
    rewrite app_empty_r. exact H0.
Qed.

Lemma weight_forms_of_a_number_at_2_675 :
  all_digit_or_dot "2.675" = true
  /\ B64.of_string "2.675" = Ok (B64.fl (2675 # 1000))
  /\ B64.leb (B64.fl (2675 # 1000)) (B64.Fin 0) = false
  /\ B64.parse_weight_pass "2.675 kg" = B64.Return (B64.round_nd (B64.fl (2675 # 1000)) 2)
  /\ B64.round_nd (B64.fl (2675 # 1000)) 2 = B64.fl (267 # 100).
Proof.
  assert (Ht : all_digit_or_dot "2.675" = true) by reflexivity.
  assert (Hv : B64.of_string "2.675" = Ok (B64.fl (2675 # 1000))) by (vm_compute; reflexivity).
  assert (Hp : B64.leb (B64.fl (2675 # 1000)) (B64.Fin 0) = false) by (vm_compute; reflexivity).
  repeat (split; [assumption|]).
  split; [|vm_compute; reflexivity].
  pose proof (proj1 (weight_forms_of_a_number "2.675" _ Ht Hv) Hp) as Hkg.
  apply Forall_cons_iff in Hkg. destruct Hkg as [_ Hkg].
  apply Forall_cons_iff in Hkg. destruct Hkg as [_ Hkg].
  apply Forall_cons_iff in Hkg. exact (proj1 Hkg).
Defined.

(** ** Text built from numbers and fixed pieces

    A line such as [5 ft 9 in] is [f ++ l1 ++ i ++ l2] for two numbers [f]
    and [i] of digits and points.  [replace], [split], [lower] and [strip]
    work on its four pieces one by one. *)

Lemma parse_height_pass_normalized (line : string) :
  B64.parse_height_pass line
  = if String.eqb (lower (strip line)) "" then B64.Continue height_prompt_empty
    else B64.height_of_normalized (normalize_height (lower (strip line))).
Proof. reflexivity. Qed.

Lemma prefix_empty (s : string) : String.prefix "" s = true.
Proof. destruct s; reflexivity. Qed.

Lemma prefix_app_head (p s b : string) :
  head_avoids p b = true -> String.prefix p (s ++ b) = String.prefix p s.
Proof.
  revert p. induction s as [|d s IH]; intros p Hb.
  - cbn [append]. destruct p as [|a p]; [rewrite !prefix_empty; reflexivity|].
    destruct b as [|c b]; [reflexivity|].
    rewrite prefix_cons. destruct (ascii_dec a c) as [->|]; [|reflexivity].
    cbn in Hb. rewrite Ascii.eqb_refl in Hb. discriminate.
  - destruct p as [|a p]; [reflexivity|].
    cbn [append]. rewrite !prefix_cons. destruct (ascii_dec a d); [|reflexivity].
    apply IH. destruct b as [|c b]; [reflexivity|].
    cbn in Hb |- *. apply andb_true_iff in Hb. exact (proj2 Hb).
Qed.

Lemma prefix_length (p s : string) :
  String.prefix p s = true -> (String.length p <= String.length s)%nat.
Proof.
  revert s. induction p as [|a p IH]; intros s H; [cbn; lia|].
  destruct s as [|b s]; [discriminate|].
  rewrite prefix_cons in H. destruct (ascii_dec a b); [|discriminate].
  cbn. apply IH in H. lia.
Qed.

Lemma replace_from_empty (k : nat) (p n : string) : replace_from k p n "" = "".
Proof. destruct k; reflexivity. Qed.

Lemma replace_from_app (p n s b : string) (k : nat) :
  head_avoids p b = true -> (k <= String.length s)%nat ->
  replace_from k p n (s ++ b) = replace_from k p n s ++ replace_from 0 p n b.
Proof.
  intro Hb. revert k. induction s as [|c s IH]; intros k Hk.
  - cbn in Hk. assert (k = 0)%nat as -> by lia. reflexivity.
  - destruct k as [|k].
    + cbn [append replace_from].
      change (String c (s ++ b)) with (String c s ++ b).
      rewrite (prefix_app_head p (String c s) b Hb).
      destruct (String.prefix p (String c s)) eqn:Hp.
      * apply prefix_length in Hp. cbn in Hp.
        rewrite IH by lia. rewrite app_assoc. reflexivity.
      * rewrite IH by lia. reflexivity.
    + cbn [append replace_from]. apply IH. cbn in Hk. lia.
Qed.

(** [replace] works on [a] and on [b] apart when no match can reach across
    the joint: the first character of [b] is none of the pattern. *)
Lemma replace_app (p n a b : string) :
  head_avoids p b = true ->
  replace p n (a ++ b) = replace p n a ++ replace p n b.
Proof. intro Hb. apply replace_from_app; [exact Hb | lia]. Qed.

Lemma plain_lacks_char (c0 : ascii) (t : string) :
  digit_or_dot c0 = false -> string_forall digit_or_dot t = true ->
  string_forall (fun c => negb (Ascii.eqb c0 c)) t = true.
Proof.
  intro Hc. apply string_forall_impl. intros c Hd.
  destruct (Ascii.eqb_spec c0 c) as [->|]; [congruence | reflexivity].
Qed.

Lemma head_avoids_plain (p i r : string) :
  string_forall not_digit_or_dot p = true ->
  string_forall digit_or_dot i = true -> i <> EmptyString ->
  head_avoids p (i ++ r) = true.
Proof.
  intros Hp Hi Hne. destruct i as [|c i]; [congruence|].
  cbn in Hi |- *. apply andb_true_iff in Hi. destruct Hi as [Hc _].
  revert Hp. apply string_forall_impl. intros x Hx. unfold not_digit_or_dot in Hx.
  destruct (Ascii.eqb_spec x c) as [->|]; [|reflexivity].
  rewrite Hc in Hx. discriminate.
Qed.

Lemma replace_one_number (c0 : ascii) (p' n t l : string) :
  digit_or_dot c0 = false -> string_forall digit_or_dot t = true ->
  replace (String c0 p') n (t ++ l) = t ++ replace (String c0 p') n l.
Proof.
  intros Hc Ht. apply replace_absent_app. exact (plain_lacks_char c0 t Hc Ht).
Qed.

Lemma replace_two_numbers (c0 : ascii) (p' n f l1 i l2 : string) :
  string_forall not_digit_or_dot (String c0 p') = true ->
  string_forall digit_or_dot f = true ->
  string_forall digit_or_dot i = true -> i <> EmptyString ->
  replace (String c0 p') n (f ++ l1 ++ i ++ l2)
  = f ++ replace (String c0 p') n l1 ++ i ++ replace (String c0 p') n l2.
Proof.
  intros Hp Hf Hi Hne.
  assert (Hc : digit_or_dot c0 = false).
  { cbn in Hp. apply andb_true_iff in Hp. destruct Hp as [Hc _].
    unfold not_digit_or_dot in Hc. apply negb_true_iff in Hc. exact Hc. }
  rewrite (replace_one_number c0 p' n f _ Hc Hf).
  rewrite (replace_app _ n l1 (i ++ l2) (head_avoids_plain _ i l2 Hp Hi Hne)).
  rewrite (replace_one_number c0 p' n i _ Hc Hi). reflexivity.
Qed.

Lemma split_nil_starts_blank (s : string) : split s = [] -> starts_blank s = true.
Proof.
  destruct s as [|c s]; [reflexivity|]. cbn.
  destruct (isspace c); [reflexivity|].
  destruct (split s); [discriminate|]. destruct (starts_blank s); discriminate.
Qed.

Lemma split_cons (c : ascii) (s : string) :
  split (String c s)
  = if isspace c then split s
    else match split s with
         | w :: ws =>
             if starts_blank s then String c EmptyString :: w :: ws
             else String c w :: ws
         | [] => [String c EmptyString]
         end.
Proof. reflexivity. Qed.

(** [split] works on [a] and on [b] apart when a blank stands at the
    joint. *)
Lemma split_app (a b : string) :
  ends_blank a || starts_blank b = true ->
  split (a ++ b) = (split a ++ split b)%list.
Proof.
  induction a as [|c a IH]; intro H; [reflexivity|].
  change (String c a ++ b) with (String c (a ++ b)).
  rewrite (split_cons c (a ++ b)), (split_cons c a).
  destruct a as [|d a].
  - cbn [append]. change (split "") with (@nil string).
    destruct (isspace c) eqn:Hc; [reflexivity|].
    cbn in H. rewrite Hc in H. cbn in H. rewrite H.
    destruct (split b); reflexivity.
  - assert (IH' : split (String d a ++ b) = (split (String d a) ++ split b)%list)
      by (apply IH; exact H).
    destruct (isspace c); [exact IH'|].
    rewrite IH'.
    change (starts_blank (String d a ++ b)) with (starts_blank (String d a)).
    remember (split (String d a)) as sa eqn:Hs. destruct sa as [|w ws].
    + symmetry in Hs. apply split_nil_starts_blank in Hs. rewrite Hs. cbn [List.app].
      destruct (split b); reflexivity.
    + cbn [List.app]. destruct (starts_blank (String d a)); reflexivity.
Qed.

Lemma split_two_numbers (f l1 i l2 : string) :
  string_forall digit_or_dot f = true -> f <> EmptyString ->
  string_forall digit_or_dot i = true -> i <> EmptyString ->
  starts_nonblank l1 = false -> l1 <> EmptyString -> ends_blank l1 = true ->
  starts_blank l2 = true ->
  split (f ++ l1 ++ i ++ l2) = (f :: split l1 ++ i :: split l2)%list.
Proof.
  intros Hf Hfne Hi Hine Hl1 Hl1ne He1 Hl2.
  assert (Hs1 : starts_blank (l1 ++ i ++ l2) = true).
  { destruct l1 as [|c l1]; [congruence|]. unfold starts_nonblank in Hl1.
    apply negb_false_iff in Hl1. exact Hl1. }
  rewrite (split_app f (l1 ++ i ++ l2)) by (rewrite Hs1; apply orb_true_r).
  rewrite (split_plain f Hf Hfne).
  rewrite (split_app l1 (i ++ l2)) by (rewrite He1; reflexivity).
  rewrite (split_app i l2) by (rewrite Hl2; apply orb_true_r).
  rewrite (split_plain i Hi Hine). reflexivity.
Qed.

Lemma rstrip_fixed_app (a b : string) :
  rstrip a = a -> rstrip b = b -> rstrip (a ++ b) = a ++ b.
Proof.
  intros Ha Hb. destruct b as [|c b].
  - rewrite app_empty_r. exact Ha.
  - rewrite rstrip_app; rewrite Hb; [reflexivity | discriminate].
Qed.

Lemma lower_strip_two_numbers (f l1 i l2 : string) :
  string_forall digit_or_dot f = true -> f <> EmptyString ->
  string_forall digit_or_dot i = true -> i <> EmptyString ->
  rstrip l2 = l2 -> lower l1 = l1 -> lower l2 = l2 ->
  lower (strip (f ++ l1 ++ i ++ l2)) = f ++ l1 ++ i ++ l2.
Proof.
  intros Hf Hfne Hi Hine Hr Hl1 Hl2. unfold strip.
  rewrite (lstrip_word_app f _ (plain_nonblank f Hf) Hfne).
  assert (Hri : rstrip (i ++ l2) = i ++ l2)
    by (apply rstrip_fixed_app; [apply rstrip_plain, Hi | exact Hr]).
  rewrite <- !app_assoc. rewrite (app_assoc (f ++ l1) i l2).
  rewrite rstrip_app; rewrite Hri; [|apply app_nonempty_l, Hine].
  rewrite !lower_app, (lower_plain f Hf), (lower_plain i Hi), Hl1, Hl2.
  rewrite !app_assoc. reflexivity.
Qed.

Lemma normalize_two_numbers (f l1 i l2 : string) :
  string_forall digit_or_dot f = true ->
  string_forall digit_or_dot i = true -> i <> EmptyString ->
  normalize_height (f ++ l1 ++ i ++ l2)
  = f ++ normalize_height l1 ++ i ++ normalize_height l2.
Proof.
  intros Hf Hi Hine. unfold normalize_height, double_quote.
  rewrite !replace_two_numbers by (reflexivity || assumption). reflexivity.
Qed.

Lemma normalize_one_number (t l : string) :
  string_forall digit_or_dot t = true ->
  normalize_height (t ++ l) = t ++ normalize_height l.
Proof.
  intro Ht. unfold normalize_height, double_quote.
  rewrite !replace_one_number by (reflexivity || assumption). reflexivity.
Qed.

Lemma contains_app_r (p a b : string) :
  contains p b = true -> contains p (a ++ b) = true.
Proof.
  intro H. induction a as [|c a IH]; [exact H|].
  cbn [append contains]. rewrite IH. apply orb_true_r.
Qed.

Lemma eqb_plain_word (t w' : string) (c0 : ascii) :
  string_forall digit_or_dot t = true -> digit_or_dot c0 = false ->
  String.eqb t (String c0 w') = false.
Proof.
  intros Ht Hc. destruct t as [|c t]; [reflexivity|].
  cbn in Ht. apply andb_true_iff in Ht. destruct Ht as [Hd _].
  cbn. destruct (Ascii.eqb_spec c c0) as [->|]; [congruence | reflexivity].
Qed.

Lemma contains_two_numbers_absent (p f l1 i l2 : string) (x : ascii) :
  digit_or_dot x = false ->
  string_forall (fun c => negb (Ascii.eqb x c)) p = false ->
  string_forall digit_or_dot f = true -> string_forall digit_or_dot i = true ->
  string_forall (fun c => negb (Ascii.eqb x c)) l1 = true ->
  string_forall (fun c => negb (Ascii.eqb x c)) l2 = true ->
  contains p (f ++ l1 ++ i ++ l2) = false.
Proof.
  intros Hx Hp Hf Hi Hl1 Hl2.
  apply (contains_forall (fun c => negb (Ascii.eqb x c))); [|exact Hp].
  rewrite !string_forall_app, Hl1, Hl2.
  rewrite (plain_lacks_char x f Hx Hf), (plain_lacks_char x i Hx Hi). reflexivity.
Qed.

Ltac is_literal l :=
  lazymatch l with
  | EmptyString => idtac
  | String _ ?r => is_literal r
  end.

(** Work out the string operations on the fixed pieces of the goal. *)
Ltac on_pieces :=
  repeat match goal with
  | |- context [replace ?o ?n ?l] =>
      is_literal l;
      let r := eval vm_compute in (replace o n l) in change (replace o n l) with r
  | |- context [split ?l] =>
      is_literal l;
      let r := eval vm_compute in (split l) in change (split l) with r
  | |- context [normalize_height ?l] =>
      is_literal l;
      let r := eval vm_compute in (normalize_height l) in
      change (normalize_height l) with r
  end.

(** ** Heights: feet and inches *)

Section HeightForms.

Variables (f i : string) (vf vi : B64.float).
Hypothesis Hf : all_digit_or_dot f = true.
Hypothesis Hi : all_digit_or_dot i = true.
Hypothesis Hvf : B64.of_string f = Ok vf.
Hypothesis Hvi : B64.of_string i = Ok vi.

Let Pf : string_forall digit_or_dot f = true.
Proof. rewrite <- all_digit_or_dot_forall. exact Hf. Qed.

Let Pi : string_forall digit_or_dot i = true.
Proof. rewrite <- all_digit_or_dot_forall. exact Hi. Qed.

Let Nf : f <> EmptyString.
Proof. intros ->. discriminate Hvf. Qed.

Let Ni : i <> EmptyString.
Proof. intros ->. discriminate Hvi. Qed.

Let feet_and_inches : B64.outcome :=
  B64.Return (B64.round_nd (B64.add (B64.mul vf (B64.fl (3048 # 100)))
                                    (B64.mul vi (B64.fl (254 # 100)))) 1).

Let feet_alone : B64.outcome :=
  B64.Return (B64.round_nd (B64.add (B64.mul vf (B64.fl (3048 # 100)))
                                    (B64.mul (B64.Fin 0) (B64.fl (254 # 100)))) 1).

(** The tokens of the feet branch, line 108, for numbers between fixed
    pieces. *)
Ltac feet_tokens :=
  rewrite !(replace_two_numbers _ _ _ f _ i _) by (reflexivity || assumption);
  on_pieces;
  rewrite !(split_two_numbers f _ i _ Pf Nf Pi Ni) by (reflexivity || discriminate);
  on_pieces; cbn [List.app].

Lemma normalized_two_numbers :
  B64.height_of_normalized (f ++ " " ++ i ++ "") = feet_and_inches.
Proof.
  unfold B64.height_of_normalized. cbv zeta.
  feet_tokens.
  cbn [List.length Nat.eqb orb andb nth].
  rewrite (startswith_plain i "" "c" Pi eq_refl). cbv iota.
  rewrite (contains_two_numbers_absent "ft" f " " i "" "f") by (reflexivity || assumption).
  rewrite (contains_two_numbers_absent "foot" f " " i "" "f") by (reflexivity || assumption).
  cbn [orb filter]. rewrite Hf, Hi. cbn [List.length Nat.leb nth].
  rewrite Hvf, Hvi. reflexivity.
Qed.

Lemma normalized_ft_in :
  B64.height_of_normalized (f ++ " ft " ++ i ++ " in") = feet_and_inches.
Proof.
  unfold B64.height_of_normalized. cbv zeta.
  rewrite (contains_app_r "ft" f (" ft " ++ i ++ " in")) by reflexivity.
  feet_tokens.
  cbn [List.length Nat.eqb orb andb nth B64.scan_units bind].
  change (String.eqb "ft" "ft") with true. change (String.eqb "ft" "in") with false.
  change (String.eqb "in" "ft") with false. change (String.eqb "in" "in") with true.
  rewrite (eqb_plain_word i "t" "f" Pi eq_refl), (eqb_plain_word i "n" "i" Pi eq_refl).
  rewrite Hvf, Hvi. reflexivity.
Qed.

Lemma normalized_ft :
  B64.height_of_normalized (f ++ " ft " ++ i ++ "") = feet_alone.
Proof.
  unfold B64.height_of_normalized. cbv zeta.
  rewrite (contains_app_r "ft" f (" ft " ++ i ++ "")) by reflexivity.
  feet_tokens.
  cbn [List.length Nat.eqb orb andb nth B64.scan_units bind].
  change (String.eqb "ft" "ft") with true. change (String.eqb "ft" "in") with false.
  rewrite (eqb_plain_word i "t" "f" Pi eq_refl), (eqb_plain_word i "n" "i" Pi eq_refl).
  rewrite Hvf. reflexivity.
Qed.

(** A line of two numbers between the fixed pieces [l1] and [l2], once
    stripped, lowered and normalised. *)
Lemma height_line_two_numbers (l1 l2 : string) :
  rstrip l2 = l2 -> lower l1 = l1 -> lower l2 = l2 ->
  B64.parse_height_pass (f ++ l1 ++ i ++ l2)
  = B64.height_of_normalized (f ++ normalize_height l1 ++ i ++ normalize_height l2).
Proof.
  intros Hr Hl1 Hl2. rewrite parse_height_pass_normalized.
  rewrite (lower_strip_two_numbers f l1 i l2 Pf Nf Pi Ni Hr Hl1 Hl2).
  rewrite (eqb_app_nonempty f _ Nf).
  rewrite (normalize_two_numbers f l1 i l2 Pf Pi Ni). reflexivity.
Qed.

Lemma feet_and_inches_forms :
  B64.parse_height_pass (f ++ " ft " ++ i ++ " in") = feet_and_inches
  /\ B64.parse_height_pass (f ++ " feet " ++ i ++ " in") = feet_and_inches
  /\ B64.parse_height_pass (f ++ "'" ++ i ++ double_quote) = feet_and_inches
  /\ B64.parse_height_pass (f ++ " " ++ i) = feet_and_inches.
Proof.
  repeat split.
  - rewrite height_line_two_numbers by reflexivity. exact normalized_ft_in.
  - rewrite height_line_two_numbers by reflexivity. exact normalized_ft_in.
  - rewrite height_line_two_numbers by reflexivity. exact normalized_ft_in.
  - rewrite <- (app_empty_r i) at 1.
    rewrite height_line_two_numbers by reflexivity. exact normalized_two_numbers.
Qed.

Lemma feet_without_inch_mark :
  B64.parse_height_pass (f ++ "'" ++ i) = feet_alone
  /\ B64.parse_height_pass (f ++ " ft " ++ i) = feet_alone.
Proof.
  split.
  - rewrite <- (app_empty_r i) at 1.
    rewrite height_line_two_numbers by reflexivity. exact normalized_ft.
  - rewrite <- (app_empty_r i) at 1.
    rewrite height_line_two_numbers by reflexivity. exact normalized_ft.
Qed.

End HeightForms.

(** ** What [float] turns down *)

Lemma digitpart_consumes (s : string) :
  forall (acc : Z) (n : nat) (m : Z) (k : nat) (r : string),
    digitpart acc n s = (m, k, r) ->
    exists p, s = p ++ r /\ string_forall float_char p = true.
Proof.
  induction s as [|c s IH]; intros acc n m k r H.
  - injection H as <- <- <-. exists "". split; reflexivity.
  - cbn [digitpart] in H.
    assert (Hstop : (acc, n, String c s) = (m, k, r) ->
                    exists p, String c s = p ++ r /\ string_forall float_char p = true).
    { intro E. injection E as <- <- <-. exists "". split; reflexivity. }
    destruct (isdigit c) eqn:Hd.
    + apply IH in H. destruct H as (p & -> & Hp).
      exists (String c p). split; [reflexivity|].
      cbn. unfold float_char at 1. rewrite Hd, Hp. reflexivity.
    + destruct (Ascii.eqb c "_" && (0 <? n)%nat) eqn:Hu; [|exact (Hstop H)].
      destruct s as [|d s']; [exact (Hstop H)|].
      destruct (isdigit d); [|exact (Hstop H)].
      apply IH in H. destruct H as (p & Hs & Hp).
      exists (String c p). split; [cbn; rewrite Hs; reflexivity|].
      apply andb_true_iff in Hu. destruct Hu as [Hu _].
      cbn. unfold float_char at 1. rewrite Hu, Hp.
      rewrite !orb_true_r. reflexivity.
Qed.

Lemma read_sign_chars (s : string) :
  exists p, s = p ++ snd (read_sign s) /\ string_forall float_char p = true.
Proof.
  destruct s as [|c s]; [exists ""; split; reflexivity|].
  destruct (Ascii.eqb_spec c "-") as [->|Hm]; [exists "-"; split; reflexivity|].
  destruct (Ascii.eqb_spec c "+") as [->|Hp]; [exists "+"; split; reflexivity|].
  exists "". split; [|reflexivity].
  destruct c as [[] [] [] [] [] [] [] []]; try reflexivity; congruence.
Qed.

(** [float] gives a number only for text made of digits, points,
    underscores, signs and the letter e; the only other outcome apart from
    [ValueError] is that of a non-finite literal. *)
Lemma float_of_string_cases (s : string) :
  (is_nonfinite_literal (strip s) = true /\ float_of_string s = Raise NonFinite)
  \/ (is_nonfinite_literal (strip s) = false
      /\ (float_of_string s = Raise ValueError
          \/ exists v, float_of_string s = Ok v
                       /\ string_forall float_char (strip s) = true)).
Proof.
  unfold float_of_string. cbv zeta.
  destruct (is_nonfinite_literal (strip s)); [left; split; reflexivity|].
  right. split; [reflexivity|].
  destruct (read_sign_chars (strip s)) as (p0 & Hs & Hp0).
  destruct (read_sign (strip s)) as [neg s1]. cbn [snd] in Hs.
  destruct (digitpart 0 0 s1) as [[m1 n1] r1] eqn:D1.
  destruct (digitpart_consumes _ _ _ _ _ _ D1) as (p1 & Hs1 & Hp1).
  assert (Hmid : exists m n2 r2 p2,
    match r1 with
    | String "." r => digitpart m1 0 r
    | _ => (m1, 0%nat, r1)
    end = (m, n2, r2) /\ r1 = p2 ++ r2 /\ string_forall float_char p2 = true).
  { destruct r1 as [|c r].
    - exists m1, 0%nat, "", "". repeat split.
    - destruct (Ascii.eqb_spec c ".") as [->|Hc].
      + destruct (digitpart m1 0 r) as [[m n2] r2] eqn:D2.
        destruct (digitpart_consumes _ _ _ _ _ _ D2) as (p2 & Hr & Hp2).
        exists m, n2, r2, (String "." p2). repeat split.
        * cbn. rewrite Hr. reflexivity.
        * cbn. exact Hp2.
      + exists m1, 0%nat, (String c r), "". repeat split.
        destruct c as [[] [] [] [] [] [] [] []]; try reflexivity; congruence. }
  destruct Hmid as (m & n2 & r2 & p2 & -> & Hr1 & Hp2).
  destruct (n1 + n2 =? 0)%nat; [left; reflexivity|].
  assert (Hall : forall tail, r2 = tail -> string_forall float_char tail = true ->
                 string_forall float_char (strip s) = true).
  { intros tail -> Ht. rewrite Hs, Hs1, Hr1, !string_forall_app.
    rewrite Hp0, Hp1, Hp2, Ht. reflexivity. }
  destruct r2 as [|c r3].
  - right. eexists. split; [reflexivity|]. apply (Hall "" eq_refl eq_refl).
  - destruct (Ascii.eqb c "e" || Ascii.eqb c "E") eqn:He; [|left; reflexivity].
    destruct (read_sign_chars r3) as (p3 & Hr3 & Hp3).
    destruct (read_sign r3) as [eneg r4]. cbn [snd] in Hr3.
    destruct (digitpart 0 0 r4) as [[e ne] r5] eqn:D3.
    destruct (digitpart_consumes _ _ _ _ _ _ D3) as (p4 & Hr4 & Hp4).
    destruct ne as [|ne]; [left; reflexivity|].
    destruct r5 as [|c5 r5]; [|left; reflexivity].
    right. eexists. split; [reflexivity|].
    apply (Hall _ eq_refl). cbn [string_forall].
    rewrite Hr3, Hr4, !string_forall_app, Hp3, Hp4.
    apply orb_true_iff in He. unfold float_char.
    destruct He as [-> | ->]; rewrite ?orb_true_r; reflexivity.
Qed.

Lemma not_nonfinite_after_digit (c : ascii) (x : string) :
  digit_or_dot c = true -> is_nonfinite_literal (String c x) = false.
Proof. by_all_chars c. Qed.

(** A token that begins with a digit or a point and holds a character that
    no number has makes [float] raise [ValueError]. *)
Lemma float_rejects_token (x : string) :
  starts_nonblank x = true -> rstrip x = x ->
  (exists c x', x = String c x' /\ digit_or_dot c = true) ->
  string_forall float_char x = false ->
  float_of_string x = Raise ValueError.
Proof.
  intros Hn Hr (c & x' & -> & Hc) Hbad.
  assert (Hs : strip (String c x') = String c x').
  { unfold strip. unfold starts_nonblank in Hn. cbn in Hn |- *.
    apply negb_true_iff in Hn. rewrite Hn. exact Hr. }
  destruct (float_of_string_cases (String c x')) as [[Hnf _] | [_ [H | (v & _ & Hall)]]].
  - rewrite Hs, (not_nonfinite_after_digit c x' Hc) in Hnf. discriminate.
  - exact H.
  - rewrite Hs, Hbad in Hall. discriminate.
Qed.

(** ** Heights: one number and a unit *)

Section HeightOneNumber.

Variables (t : string) (v : B64.float).
Hypothesis Ht : all_digit_or_dot t = true.
Hypothesis Hv : B64.of_string t = Ok v.

Let Pt : string_forall digit_or_dot t = true.
Proof. rewrite <- all_digit_or_dot_forall. exact Ht. Qed.

Let Nt : t <> EmptyString.
Proof. intros ->. discriminate Hv. Qed.

Lemma height_line_one_number (mid w : string) :
  string_forall nonblank w = true -> w <> EmptyString ->
  lower (mid ++ w) = mid ++ w ->
  B64.parse_height_pass (t ++ mid ++ w)
  = B64.height_of_normalized (t ++ normalize_height (mid ++ w)).
Proof.
  intros Hw Hwne Hl. rewrite parse_height_pass_normalized.
  rewrite (lower_strip_number_to_word t mid w Pt Nt Hw Hwne Hl).
  rewrite (eqb_app_nonempty t _ Nt).
  rewrite (normalize_one_number t _ Pt). reflexivity.
Qed.

Lemma normalized_cm :
  B64.height_of_normalized (t ++ " cm") = B64.Return (B64.round_nd v 1).
Proof.
  unfold B64.height_of_normalized. cbv zeta.
  rewrite !(replace_one_number _ _ _ t) by (reflexivity || assumption).
  on_pieces.
  rewrite (split_word_app t " cm" (plain_nonblank t Pt) Nt eq_refl).
  on_pieces. cbn [List.length Nat.eqb orb andb nth].
  change (startswith "cm" "c") with true. cbv iota.
  rewrite Hv. reflexivity.
Qed.

Lemma normalized_feet (blanks : string) :
  blanks = "" \/ blanks = " " ->
  B64.height_of_normalized (t ++ " ft" ++ blanks)
  = B64.Return (B64.round_nd (B64.add (B64.mul v (B64.fl (3048 # 100)))
                                      (B64.mul (B64.Fin 0) (B64.fl (254 # 100)))) 1).
Proof.
  intros [-> | ->]; unfold B64.height_of_normalized; cbv zeta;
    cbn [append];
    rewrite (contains_app_r "ft" t _) by reflexivity;
    rewrite !(replace_one_number _ _ _ t) by (reflexivity || assumption);
    on_pieces;
    rewrite !(split_word_app t _ (plain_nonblank t Pt) Nt) by reflexivity;
    on_pieces; cbn [List.length Nat.eqb orb andb nth B64.scan_units bind];
    change (startswith "ft" "c") with false; cbv iota;
    cbn [B64.scan_units bind];
    change (String.eqb "ft" "ft") with true; change (String.eqb "ft" "in") with false;
    cbv iota; rewrite Hv; reflexivity.
Qed.

(** A token that is the number with letters written against it is no
    number. *)
Lemma normalized_fused (u : string) :
  string_forall nonblank u = true -> rstrip u = u ->
  string_forall float_char u = false ->
  replace "," "." u = u ->
  B64.height_of_normalized (t ++ u) = B64.Continue height_unparsed.
Proof.
  intros Hu Hr Hbad Hcomma. unfold B64.height_of_normalized. cbv zeta.
  rewrite (replace_one_number _ _ _ t) by (reflexivity || assumption).
  rewrite Hcomma.
  assert (Hw : string_forall nonblank (t ++ u) = true)
    by (rewrite string_forall_app, (plain_nonblank t Pt), Hu; reflexivity).
  rewrite (split_word (t ++ u) Hw (app_nonempty_l t u Nt)).
  cbn [List.length Nat.eqb orb andb nth].
  assert (Hf : B64.of_string (t ++ u) = Raise ValueError).
  { apply of_string_value_error, float_rejects_token.
    - destruct t as [|c t']; [congruence|]. unfold starts_nonblank.
      cbn in Pt. apply andb_true_iff in Pt. destruct Pt as [Hc _]. cbn.
      rewrite (digit_or_dot_not_space c Hc). reflexivity.
    - apply rstrip_fixed_app; [apply rstrip_plain, Pt | exact Hr].
    - destruct t as [|c t']; [congruence|]. exists c, (t' ++ u).
      cbn in Pt. apply andb_true_iff in Pt. split; [reflexivity | exact (proj1 Pt)].
    - rewrite string_forall_app, Hbad. apply andb_false_r. }
  rewrite Hf. reflexivity.
Qed.

Lemma height_line_fused (u : string) :
  string_forall nonblank u = true -> u <> EmptyString -> lower u = u ->
  B64.parse_height_pass (t ++ u) = B64.height_of_normalized (t ++ normalize_height u).
Proof.
  intros Hu Hune Hl.
  exact (height_line_one_number "" u Hu Hune Hl).
Qed.

End HeightOneNumber.

(** Pass from a line to its normalised text by the equation [E]. *)
Ltac rewrite_line E := refine (eq_trans E _); cbn [normalize_height].

(** X6.  A height of two numbers of digits and points, written
    [f ft i in], [f feet i in], [f'i] followed by a double quote, or just
    [f i], is f feet and i inches: with the doubles of f and i, of 30.48
    and of 2.54, the product f * 30.48 plus the product i * 2.54, each
    operation rounded to a double, and the sum rounded to one decimal
    place as [round] rounds a double. *)
Theorem feet_and_inches_are_added :
  forall (feet inches : string) (vf vi : B64.float),
    all_digit_or_dot feet = true -> all_digit_or_dot inches = true ->
    B64.of_string feet = Ok vf -> B64.of_string inches = Ok vi ->
    Forall (fun line =>
              B64.parse_height_pass line
              = B64.Return (B64.round_nd (B64.add (B64.mul vf (B64.fl (3048 # 100)))
                                                  (B64.mul vi (B64.fl (254 # 100)))) 1))
      [ feet ++ " ft " ++ inches ++ " in";
        feet ++ " feet " ++ inches ++ " in";
        feet ++ "'" ++ inches ++ double_quote;
        feet ++ " " ++ inches ].
Proof.
  intros f i vf vi Hf Hi Hvf Hvi.
  destruct (feet_and_inches_forms f i vf vi Hf Hi Hvf Hvi) as (H1 & H2 & H3 & H4).
  repeat constructor; assumption.
Qed.

Lemma feet_and_inches_at_5_7_5 :
  all_digit_or_dot "5" = true /\ all_digit_or_dot "7.5" = true
  /\ B64.of_string "5" = Ok (B64.Fin 5) /\ B64.of_string "7.5" = Ok (B64.Fin (15 # 2))
  /\ B64.parse_height_pass "5 ft 7.5 in"
     = B64.Return (B64.round_nd (B64.add (B64.mul (B64.Fin 5) (B64.fl (3048 # 100)))
                                         (B64.mul (B64.Fin (15 # 2)) (B64.fl (254 # 100)))) 1)
  /\ B64.round_nd (B64.add (B64.mul (B64.Fin 5) (B64.fl (3048 # 100)))
                           (B64.mul (B64.Fin (15 # 2)) (B64.fl (254 # 100)))) 1
     = B64.fl (1715 # 10).
Proof.
  assert (Hf : all_digit_or_dot "5" = true) by reflexivity.
  assert (Hi : all_digit_or_dot "7.5" = true) by reflexivity.
  assert (Hvf : B64.of_string "5" = Ok (B64.Fin 5)) by (vm_compute; reflexivity).
  assert (Hvi : B64.of_string "7.5" = Ok (B64.Fin (15 # 2))) by (vm_compute; reflexivity).
  repeat (split; [assumption|]).
  split; [|vm_compute; reflexivity].
  pose proof (feet_and_inches_are_added "5" "7.5" _ _ Hf Hi Hvf Hvi) as H.
  apply Forall_cons_iff in H. exact (proj1 H).
Defined.

(** X7.  Without the mark of the inches the second number is not read:
    [f'i] and [f ft i] are f feet whatever i is, the inches staying at the
    0.0 they start from; so are [f ft], [f feet] and [f'] . *)
Theorem inches_without_mark_are_dropped :
  forall (feet inches : string) (vf vi : B64.float),
    all_digit_or_dot feet = true -> all_digit_or_dot inches = true ->
    B64.of_string feet = Ok vf -> B64.of_string inches = Ok vi ->
    Forall (fun line =>
              B64.parse_height_pass line
              = B64.Return (B64.round_nd (B64.add (B64.mul vf (B64.fl (3048 # 100)))
                                                  (B64.mul (B64.Fin 0) (B64.fl (254 # 100)))) 1))
      [ feet ++ "'" ++ inches;
        feet ++ " ft " ++ inches;
        feet ++ " ft";
        feet ++ " feet";
        feet ++ "'" ].
Proof.
  intros f i vf vi Hf Hi Hvf Hvi.
  destruct (feet_without_inch_mark f i vf vi Hf Hi Hvf Hvi) as (H1 & H2).
  repeat constructor; try assumption.
  - rewrite_line (height_line_one_number f vf Hf Hvf " " "ft" eq_refl ltac:(discriminate) eq_refl).
    exact (normalized_feet f vf Hf Hvf "" (or_introl eq_refl)).
  - rewrite_line (height_line_one_number f vf Hf Hvf " " "feet" eq_refl ltac:(discriminate) eq_refl).
    exact (normalized_feet f vf Hf Hvf "" (or_introl eq_refl)).
  - rewrite_line (height_line_one_number f vf Hf Hvf "" "'" eq_refl ltac:(discriminate) eq_refl).
    exact (normalized_feet f vf Hf Hvf " " (or_intror eq_refl)).
Qed.

Lemma inches_without_mark_at_4_375 :
  all_digit_or_dot "4.375" = true /\ all_digit_or_dot "9" = true
  /\ B64.of_string "4.375" = Ok (B64.Fin (35 # 8)) /\ B64.of_string "9" = Ok (B64.Fin 9)
  /\ B64.parse_height_pass "4.375'9"
     = B64.Return (B64.round_nd (B64.add (B64.mul (B64.Fin (35 # 8)) (B64.fl (3048 # 100)))
                                         (B64.mul (B64.Fin 0) (B64.fl (254 # 100)))) 1)
  /\ B64.round_nd (B64.add (B64.mul (B64.Fin (35 # 8)) (B64.fl (3048 # 100)))
                           (B64.mul (B64.Fin 0) (B64.fl (254 # 100)))) 1
     = B64.fl (1333 # 10).
Proof.
  assert (Hf : all_digit_or_dot "4.375" = true) by reflexivity.
  assert (Hi : all_digit_or_dot "9" = true) by reflexivity.
  assert (Hvf : B64.of_string "4.375" = Ok (B64.Fin (35 # 8))) by (vm_compute; reflexivity).
  assert (Hvi : B64.of_string "9" = Ok (B64.Fin 9)) by (vm_compute; reflexivity).
  repeat (split; [assumption|]).
  split; [|vm_compute; reflexivity].
  pose proof (inches_without_mark_are_dropped "4.375" "9" _ _ Hf Hi Hvf Hvi) as H.
  apply Forall_cons_iff in H. exact (proj1 H).
Defined.

(** X8.  With the unit cm or cms after a space the number is the height in
    centimetres as it stands, also when it is 3 or less: the metres rule of
    a bare number does not apply.  What is returned is the double of the
    number, rounded to one decimal place as [round] rounds a double. *)
Theorem centimetres_are_taken_as_written :
  forall (number : string) (v : B64.float),
    all_digit_or_dot number = true -> B64.of_string number = Ok v ->
    B64.parse_height_pass (number ++ " cm") = B64.Return (B64.round_nd v 1)
    /\ B64.parse_height_pass (number ++ " cms") = B64.Return (B64.round_nd v 1).
Proof.
  intros t v Ht Hv. split.
  - rewrite_line (height_line_one_number t v Ht Hv " " "cm" eq_refl ltac:(discriminate) eq_refl).
    exact (normalized_cm t v Ht Hv).
  - rewrite_line (height_line_one_number t v Ht Hv " " "cms" eq_refl ltac:(discriminate) eq_refl).
    exact (normalized_cm t v Ht Hv).
Qed.

Lemma centimetres_at_170_05 :
  all_digit_or_dot "170.05" = true
  /\ B64.of_string "170.05" = Ok (B64.fl (17005 # 100))
  /\ B64.parse_height_pass "170.05 cm" = B64.Return (B64.round_nd (B64.fl (17005 # 100)) 1)
  /\ B64.round_nd (B64.fl (17005 # 100)) 1 = B64.fl (1701 # 10)
  /\ B64.parse_height_pass "2 cm" = B64.Return (B64.Fin 2)
  /\ B64.parse_height_pass "2" = B64.Return (B64.Fin 200).
Proof.
  assert (Ht : all_digit_or_dot "170.05" = true) by reflexivity.
  assert (Hv : B64.of_string "170.05" = Ok (B64.fl (17005 # 100))) by (vm_compute; reflexivity).
  repeat (split; [assumption|]).
  split; [|repeat split; vm_compute; reflexivity].
  exact (proj1 (centimetres_are_taken_as_written "170.05" _ Ht Hv)).
Defined.

(** X9.  A unit written against the number makes one token that is no
    number, and the line is turned down: so for [170cm], [1.75m] and
    [5ft9], where [parse_weight] does take [70kg]. *)
Theorem fused_height_unit_is_turned_down :
  forall (number more : string) (v w : B64.float),
    all_digit_or_dot number = true -> all_digit_or_dot more = true ->
    B64.of_string number = Ok v -> B64.of_string more = Ok w ->
    Forall (fun line => B64.parse_height_pass line = B64.Continue height_unparsed)
      [ number ++ "cm"; number ++ "m"; number ++ "ft"; number ++ "ft" ++ more ]
    /\ (B64.leb v (B64.Fin 0) = false ->
        B64.parse_weight_pass (number ++ "kg") = B64.Return (B64.round_nd v 2)).
Proof.
  intros t i v w Ht Hi Hv Hw.
  assert (Pi : string_forall digit_or_dot i = true)
    by (rewrite <- all_digit_or_dot_forall; exact Hi).
  split.
  - repeat constructor.
    + rewrite_line (height_line_fused t v Ht Hv "cm" eq_refl ltac:(discriminate) eq_refl).
      apply (normalized_fused t v Ht Hv); reflexivity.
    + rewrite_line (height_line_fused t v Ht Hv "m" eq_refl ltac:(discriminate) eq_refl).
      apply (normalized_fused t v Ht Hv); reflexivity.
    + rewrite_line (height_line_fused t v Ht Hv "ft" eq_refl ltac:(discriminate) eq_refl).
      apply (normalized_fused t v Ht Hv); reflexivity.
    + assert (Ni : i <> EmptyString) by (intros ->; discriminate Hw).
      assert (Hli : lower ("ft" ++ i) = "ft" ++ i)
        by (rewrite lower_app, (lower_plain i Pi); reflexivity).
      assert (Hni : string_forall nonblank ("ft" ++ i) = true)
        by (rewrite string_forall_app, (plain_nonblank i Pi); reflexivity).
      rewrite (height_line_fused t v Ht Hv ("ft" ++ i) Hni) by (discriminate || exact Hli).
      assert (Hn : normalize_height ("ft" ++ i) = "ft" ++ i).
      { unfold normalize_height, double_quote.
        repeat (rewrite (replace_app _ _ "ft" i)
                  by (rewrite <- (app_empty_r i); apply head_avoids_plain;
                      [reflexivity | exact Pi | exact Ni]);
                rewrite (replace_absent _ _ _ i) by plain_lacks Pi;
                on_pieces).
        reflexivity. }
      rewrite Hn. apply (normalized_fused t v Ht Hv).
      * exact Hni.
      * apply rstrip_word. exact Hni.
      * reflexivity.
      * rewrite (replace_app _ _ "ft" i)
          by (rewrite <- (app_empty_r i); apply head_avoids_plain;
              [reflexivity | exact Pi | exact Ni]).
        rewrite (replace_absent _ _ _ i) by plain_lacks Pi. reflexivity.
  - intro Hpos.
    pose proof (weight_kg_fused t v Ht Hv) as H. cbv zeta beta in H.
    rewrite Hpos in H. exact H.
Qed.

Lemma fused_height_unit_at_170 :
  all_digit_or_dot "170" = true /\ all_digit_or_dot "9" = true
  /\ B64.of_string "170" = Ok (B64.Fin 170) /\ B64.of_string "9" = Ok (B64.Fin 9)
  /\ B64.parse_height_pass "170cm" = B64.Continue height_unparsed.
Proof.
  assert (Ht : all_digit_or_dot "170" = true) by reflexivity.
  assert (Hi : all_digit_or_dot "9" = true) by reflexivity.
  assert (Hv : B64.of_string "170" = Ok (B64.Fin 170)) by (vm_compute; reflexivity).
  assert (Hw : B64.of_string "9" = Ok (B64.Fin 9)) by (vm_compute; reflexivity).
  repeat (split; [assumption|]).
  pose proof (proj1 (fused_height_unit_is_turned_down "170" "9" _ _ Ht Hi Hv Hw)) as H.
  apply Forall_cons_iff in H. exact (proj1 H).
Defined.

(** * Further properties of the planning engine and the metrics *)

Lemma int_nonneg (x : Q) : 0 <= x -> Py.int x = Qfloor x.
Proof. intro H. unfold Py.int. rewrite (proj2 (leb_true 0 x) H). reflexivity. Qed.

Lemma floor_between (x : Q) (a b : Z) :
  inject_Z a <= x -> x <= inject_Z b -> (a <= Qfloor x <= b)%Z.
Proof.
  intros Ha Hb. split.
  - rewrite <- (Qfloor_Z a). apply Qfloor_resp_le. exact Ha.
  - rewrite <- (Qfloor_Z b). apply Qfloor_resp_le. exact Hb.
Qed.

Lemma requested_deficit_pos (kg : Q) (days : Z) :
  0 < kg -> 0 < kg * 7700 / inject_Z (Z.max days 1).
Proof.
  intro Hkg.
  assert (Hd : 0 < inject_Z (Z.max days 1)).
  { change 0 with (inject_Z 0). rewrite <- Zlt_Qlt. lia. }
  apply Qlt_shift_div_l; [exact Hd|]. lra.
Qed.

(** X10.  A plan for a weight loss never suggests less than 1200 kcal a
    day, never more than the tdee when that is 1200 or above, and its daily
    deficit lies between 0 and 1000. *)
Theorem plan_stays_within_the_safety_bounds :
  forall (current_weight target_weight tdee : Q) (days : Z) (sex : string),
    target_weight < current_weight ->
    let plan :=
      recommend_calories_for_weight_loss current_weight target_weight tdee days sex in
    (1200 <= dict_int plan "suggested_daily_calories")%Z
    /\ (1200 <= tdee -> inject_Z (dict_int plan "suggested_daily_calories") <= tdee)
    /\ (0 <= dict_int plan "daily_deficit" <= 1000)%Z.
Proof.
  intros cw tw tdee days sex Hlt. cbv zeta.
  pose proof (plan_fields cw tw tdee days sex Hlt) as Hp. cbv zeta in Hp.
  rewrite Hp. clear Hp. unfold dict_int. cbn [dict_lookup String.eqb Ascii.eqb Bool.eqb].
  pose proof (requested_deficit_pos (cw - tw) days ltac:(lra)) as Hreq.
  set (req := (cw - tw) * 7700 / inject_Z (Z.max days 1)) in *.
  assert (Hused : 0 < (if Py.ltb 1000 req then 1000 else req)
                  /\ (if Py.ltb 1000 req then 1000 else req) <= 1000).
  { py_case (Py.ltb 1000 req); split; lra. }
  set (used := if Py.ltb 1000 req then 1000 else req) in *. clearbody used req.
  destruct Hused as [Hu0 Hu1].
  assert (Hfl : forall x, 1200 <= x -> (1200 <= Py.int x)%Z).
  { intros x Hx. rewrite int_nonneg by lra.
    apply (floor_between x 1200 (Qceiling x)); [exact Hx | apply Qle_ceiling]. }
  split; [|split].
  - py_case (Py.ltb (tdee - used) 1200); [apply Hfl; apply Qle_refl | apply Hfl; exact E].
  - intro Ht. py_case (Py.ltb (tdee - used) 1200).
    + change (Py.int 1200) with 1200%Z. exact Ht.
    + rewrite int_nonneg by lra. pose proof (Qfloor_le (tdee - used)). lra.
  - rewrite int_nonneg by lra.
    apply (floor_between used 0 1000); [apply Qlt_le_weak; exact Hu0 | exact Hu1].
Qed.

Lemma plan_stays_within_bounds_at_90_80 :
  80 < 90
  /\ (1200 <= dict_int (recommend_calories_for_weight_loss 90 80 1500 70 "male")
                "suggested_daily_calories")%Z
  /\ (dict_int (recommend_calories_for_weight_loss 90 80 1500 70 "male") "daily_deficit"
      <= 1000)%Z.
Proof.
  assert (Hlt : 80 < 90) by reflexivity.
  split; [exact Hlt|].
  destruct (plan_stays_within_the_safety_bounds 90 80 1500 70%Z "male" Hlt)
    as (H1 & _ & _ & H3).
  split; [exact H1 | exact H3].
Defined.

(** X11.  [recommend_macros] falls back to 1.6 g of protein per kilogram
    for an activity key that is not one of 1 to 5, as for key 1; and it never
    reports a negative amount of carbohydrate, in grams or in kcal. *)
Theorem macros_default_and_carbohydrate_floor :
  forall (suggested_calories : Z) (weight_kg : Q) (activity_key : string),
    (~ In activity_key ["1"; "2"; "3"; "4"; "5"] ->
     recommend_macros suggested_calories weight_kg activity_key
     = recommend_macros suggested_calories weight_kg "1")
    /\ (0 <= dict_int (recommend_macros suggested_calories weight_kg activity_key) "carb_g")%Z
    /\ (0 <= dict_int (recommend_macros suggested_calories weight_kg activity_key)
               "carb_kcal")%Z.
Proof.
  intros S w key. split; [|split].
  - intro Hin. unfold recommend_macros.
    assert (Hk : dict_get activity_to_protein key (16 # 10) = 16 # 10).
    { unfold dict_get, activity_to_protein. cbn [dict_lookup].
      repeat match goal with
      | |- context [String.eqb key ?k] =>
          destruct (String.eqb_spec key k) as [->|_];
          [exfalso; apply Hin; cbn; tauto|]
      end. reflexivity. }
    rewrite Hk. reflexivity.
  - unfold recommend_macros, dict_int. cbv zeta.
    cbn [dict_lookup String.eqb Ascii.eqb Bool.eqb]. unfold Py.max. lia.
  - unfold recommend_macros, dict_int. cbv zeta.
    cbn [dict_lookup String.eqb Ascii.eqb Bool.eqb].
    match goal with |- context [Py.ltb 0 ?r] => py_case (Py.ltb 0 r) end.
    + rewrite int_nonneg by lra.
      match goal with |- (0 <= Qfloor ?r)%Z =>
        apply (floor_between r 0 (Qceiling r));
        [apply Qlt_le_weak; exact E | apply Qle_ceiling] end.
    + reflexivity.
Qed.

Lemma macros_default_at_unknown_key :
  ~ In "7" ["1"; "2"; "3"; "4"; "5"]
  /\ recommend_macros 1500 80 "7" = recommend_macros 1500 80 "1".
Proof.
  assert (H : ~ In "7" ["1"; "2"; "3"; "4"; "5"]).
  { cbn. intros [H | [H | [H | [H | [H | []]]]]]; discriminate H. }
  split; [exact H|].
  exact (proj1 (macros_default_and_carbohydrate_floor 1500 80 "7") H).
Defined.


Lemma round_le (x y : Q) : x <= y -> (Py.round x <= Py.round y)%Z.
Proof.
  intro Hxy. unfold Py.round.
  pose proof (Qfloor_resp_le x y Hxy) as Hf.
  pose proof (Qfloor_le x) as Hx1. pose proof (Qlt_floor x) as Hx2.
  pose proof (Qfloor_le y) as Hy1. pose proof (Qlt_floor y) as Hy2.
  rewrite inject_Z_plus in Hx2, Hy2. change (inject_Z 1) with 1 in Hx2, Hy2.
  destruct (Z.eq_dec (Qfloor x) (Qfloor y)) as [E|N].
  - rewrite <- E in *.
    destruct (Qcompare_spec (x - inject_Z (Qfloor x)) (1 # 2)) as [Cx|Cx|Cx];
      destruct (Qcompare_spec (y - inject_Z (Qfloor x)) (1 # 2)) as [Cy|Cy|Cy];
      try (exfalso; lra); destruct (Z.even (Qfloor x)); lia.
  - destruct (Qcompare (x - inject_Z (Qfloor x)) (1 # 2));
      destruct (Qcompare (y - inject_Z (Qfloor y)) (1 # 2));
      destruct (Z.even (Qfloor x)); destruct (Z.even (Qfloor y)); lia.
Qed.

(** X13.  For a basal metabolic rate that is not negative, a higher
    activity tier never gives a lower [estimate_tdee], and a key outside 1
    to 5 gives what key 1 gives. *)
Theorem tdee_grows_with_the_activity_tier :
  forall (weight height_cm : Q) (age : Z) (sex : string),
    0 <= bmr_mifflin_sex weight height_cm age sex ->
    let tdee := estimate_tdee weight height_cm age sex in
    (tdee "1" <= tdee "2" <= tdee "3")%Z
    /\ (tdee "3" <= tdee "4" <= tdee "5")%Z
    /\ forall key, ~ In key ["1"; "2"; "3"; "4"; "5"] -> tdee key = tdee "1".
Proof.
  intros w h a sex Hb. cbv zeta. unfold estimate_tdee. cbv zeta.
  rewrite !activity_levels_get.
  set (bmr := bmr_mifflin_sex w h a sex) in *. clearbody bmr.
  change (tier_multiplier "1") with (12 # 10).
  change (tier_multiplier "2") with (1375 # 1000).
  change (tier_multiplier "3") with (155 # 100).
  change (tier_multiplier "4") with (1725 # 1000).
  change (tier_multiplier "5") with (19 # 10).
  repeat split; try (apply round_le; lra).
  intros key Hin. rewrite activity_levels_get.
  assert (Hk : tier_multiplier key = 12 # 10).
  { unfold tier_multiplier.
    repeat match goal with
    | |- context [String.eqb key ?k] =>
        destruct (String.eqb_spec key k) as [->|_];
        [exfalso; apply Hin; cbn; tauto|]
    end. reflexivity. }
  rewrite Hk. reflexivity.
Qed.

Lemma tdee_grows_at_70_175 :
  0 <= bmr_mifflin_sex 70 175 30 "male"
  /\ (estimate_tdee 70 175 30 "male" "1" <= estimate_tdee 70 175 30 "male" "2")%Z.
Proof.
  assert (H : 0 <= bmr_mifflin_sex 70 175 30 "male") by (vm_compute; discriminate).
  split; [exact H|].
  exact (proj1 (proj1 (tdee_grows_with_the_activity_tier 70 175 30%Z "male" H))).
Defined.

(** * Properties of the interactive shell *)

(** ** Running a sequence *)

Lemma iobind_run {A B : Type} (m : IO A) (k : A -> IO B) (stdin : list string) :
  iobind m k stdin
  = match m stdin with
    | (inl a, rest, out) =>
        let '(r', rest', out') := k a rest in (r', rest', (out ++ out')%list)
    | (inr e, rest, out) => (inr e, rest, out)
    end.
Proof. unfold iobind. destruct (m stdin) as [[[a|e] rest] out]; reflexivity. Qed.

(** What a sequence gave is either what its first part gave, when that
    stopped, or what the second part gave after it. *)
Lemma iobind_inv {A B : Type} (m : IO A) (k : A -> IO B) (stdin : list string)
    (r : B + stop) (rest : list string) (out : list printed) :
  iobind m k stdin = (r, rest, out) ->
  (exists e, m stdin = (inr e, rest, out) /\ r = inr e)
  \/ (exists a rest1 out1 out2,
        m stdin = (inl a, rest1, out1)
        /\ k a rest1 = (r, rest, out2)
        /\ out = (out1 ++ out2)%list).
Proof.
  rewrite iobind_run. destruct (m stdin) as [[[a|e] rest1] out1].
  - destruct (k a rest1) as [[r2 rest2] out2] eqn:Hk.
    intro H. injection H as <- <- <-. right. exists a, rest1, out1, out2. auto.
  - intro H. injection H as <- <- <-. left. exists e. auto.
Qed.

Lemma ask_inv (pass : string -> outcome) (stdin : list string)
    (r : Q + stop) (rest : list string) (out : list printed) :
  ask pass stdin = (r, rest, out) ->
  (exists v msgs, input_loop pass stdin = Returned v rest msgs
                  /\ r = inl v /\ out = map Line msgs)
  \/ (exists e msgs, r = inr e /\ e <> OutOfFuel /\ out = map Line msgs
                     /\ (List.length rest <= List.length stdin)%nat).
Proof.
  unfold ask. destruct (input_loop pass stdin) as [v rest' msgs|msgs|] eqn:E;
    intro H; injection H as <- <- <-.
  - left. exists v, msgs. auto.
  - right. exists EndOfInput, msgs. repeat split; [discriminate | cbn; lia].
  - right. exists NonFiniteValue, []. repeat split; [discriminate | lia].
Qed.

Lemma input_loop_rest (pass : string -> outcome) (stdin : list string)
    (v : Q) (rest msgs : list string) :
  input_loop pass stdin = Returned v rest msgs ->
  (List.length rest < List.length stdin)%nat.
Proof.
  intro H. apply input_loop_returned in H.
  destruct H as (skipped & line & -> & _ & _).
  rewrite List.length_app. cbn. lia.
Qed.

(** ** Reading and fuel *)

Lemma tame_ret {A : Type} (a : A) : tame (ret a).
Proof. intros s r rest out H. injection H as <- <- <-. split; [lia | discriminate]. Qed.

Lemma tame_raise {A : Type} (e : stop) : e <> OutOfFuel -> tame (@raise A e).
Proof.
  intros He s r rest out H. injection H as <- <- <-. split; [lia | congruence].
Qed.

Lemma tame_print (p : printed) : tame (print p).
Proof. intros s r rest out H. injection H as <- <- <-. split; [lia | discriminate]. Qed.

Lemma tame_input : tame input.
Proof.
  intros [|l s] r rest out H; injection H as <- <- <-;
    (split; [cbn; lia | discriminate]).
Qed.

Lemma tame_ask (pass : string -> outcome) : tame (ask pass).
Proof.
  intros s r rest out H. apply ask_inv in H.
  destruct H as [(v & msgs & Hl & -> & _) | (e & msgs & -> & He & _ & Hlen)].
  - apply input_loop_rest in Hl. split; [lia | discriminate].
  - split; [exact Hlen | congruence].
Qed.

Lemma tame_bind {A B : Type} (m : IO A) (k : A -> IO B) :
  tame m -> (forall a, tame (k a)) -> tame (iobind m k).
Proof.
  intros Hm Hk s r rest out H. apply iobind_inv in H.
  destruct H as [(e & H & ->) | (a & rest1 & out1 & out2 & H1 & H2 & _)].
  - apply Hm in H. destruct H as [Hlen Hne]. split; [exact Hlen|].
    intro E. apply Hne. injection E as ->. reflexivity.
  - apply Hm in H1. apply Hk in H2. split; [lia | tauto].
Qed.

Lemma tame_for_each {A : Type} (l : list A) (body : A -> IO unit) :
  (forall a, tame (body a)) -> tame (for_each l body).
Proof.
  intro Hb. induction l as [|a l IH]; cbn [for_each].
  - apply tame_ret.
  - apply tame_bind; [apply Hb | intros _; exact IH].
Qed.

Lemma tame_item (d : dict pyval) (k : string) : tame (item d k).
Proof.
  unfold item. destruct (dict_lookup k d); [apply tame_ret | apply tame_raise; discriminate].
Qed.

Lemma tame_print_value (v : pyval) : tame (print_value v).
Proof. destruct v; apply tame_print. Qed.

(** Take a function of the shell apart into its reads and prints. *)
Ltac tame_steps :=
  repeat first
    [ apply tame_bind; [|intro]
    | apply tame_print | apply tame_ret | apply tame_input | apply tame_ask
    | apply tame_item | apply tame_print_value
    | apply tame_for_each; intro
    | apply tame_raise; discriminate
    | progress cbv zeta
    | match goal with
      | |- tame (if ?b then _ else _) => destruct b
      | |- tame (match ?x with _ => _ end) => destruct x
      end ].

Lemma tame_print_health_tips : tame print_health_tips.
Proof. unfold print_health_tips. tame_steps. Qed.

Lemma tame_menu : tame menu.
Proof. unfold menu. tame_steps. Qed.

Lemma tame_action_check_bmi : tame action_check_bmi.
Proof. unfold action_check_bmi. cbv zeta. tame_steps. Qed.

Lemma tame_plan_dialogue (weight target : Q) (age : Z) (sex : string) :
  tame (plan_dialogue weight target age sex).
Proof. unfold plan_dialogue. cbv zeta. tame_steps. Qed.

Lemma tame_action_plan (consent : bool) : tame (action_plan consent).
Proof.
  unfold action_plan. cbv zeta. tame_steps.
Qed.

Lemma tame_show_disclaimer : tame show_disclaimer_and_get_consent.
Proof. unfold show_disclaimer_and_get_consent. cbv zeta. tame_steps. Qed.

(** One round of the menu loop, written out. *)
Lemma menu_loop_round (fuel : nat) (consent : bool) :
  menu_loop (S fuel) consent
  = (menu ;;;
     line <~ input ;;
     let choice := strip line in
     if String.eqb choice "1" then action_check_bmi ;;; menu_loop fuel consent
     else if String.eqb choice "2" then action_plan consent ;;; menu_loop fuel consent
     else if String.eqb choice "3" then print_health_tips ;;; menu_loop fuel consent
     else if String.eqb choice "4"
             || String.eqb (lower choice) "exit" || String.eqb (lower choice) "quit"
     then print (Line goodbye)
     else print (Line invalid_choice) ;;; menu_loop fuel consent).
Proof. reflexivity. Qed.

Lemma ends_well_after (stdin rest1 : list string) (out1 : list printed)
    (r : unit + stop) (rest : list string) (out : list printed) :
  (List.length rest1 <= List.length stdin)%nat ->
  ends_well rest1 (r, rest, out) ->
  ends_well stdin (r, rest, (out1 ++ out)%list).
Proof.
  intros Hl (Hne & Hbye & Hlen). split; [exact Hne|]. split; [|lia].
  intro E. destruct (Hbye E) as (before & ->).
  exists (out1 ++ before)%list. rewrite List.app_assoc. reflexivity.
Qed.

(** The menu loop with more rounds of fuel than lines to read. *)
Lemma menu_loop_ends (fuel : nat) (consent : bool) :
  forall stdin : list string,
    (List.length stdin < fuel)%nat ->
    ends_well stdin (menu_loop fuel consent stdin).
Proof.
  induction fuel as [|fuel IH]; intros stdin Hlen; [lia|].
  destruct (menu_loop (S fuel) consent stdin) as [[r rest] out] eqn:H.
  rewrite menu_loop_round in H.
  apply iobind_inv in H.
  destruct H as [(e & H & _) | (u & rest0 & out0 & out1 & Hmenu & H & ->)];
    [discriminate H|].
  injection Hmenu as <- <- <-.
  apply (ends_well_after stdin stdin); [lia|].
  apply iobind_inv in H.
  destruct H as [(e & H & ->) | (line & rest1 & out2 & out3 & Hin & H & ->)].
  - destruct stdin; [|discriminate H]. injection H as <- <-.
    split; [discriminate|]. split; [intro E; discriminate E | lia].
  - destruct stdin as [|l stdin]; [discriminate Hin|]. injection Hin as <- <- <-.
    cbn in Hlen. cbv zeta in H.
    apply (ends_well_after (l :: stdin) stdin); [cbn; lia|].
    assert (Hnext : forall act : IO unit,
      tame act ->
      (act ;;; menu_loop fuel consent) stdin = (r, rest, out3) ->
      ends_well stdin (r, rest, out3)).
    { intros act Hact Hrun. apply iobind_inv in Hrun.
      destruct Hrun as [(e & Ha & ->) | (u' & rest2 & o2 & o3 & Ha & Hloop & ->)].
      - apply Hact in Ha. destruct Ha as [Hl Hne]. split; [|split].
        + intro E. apply Hne. injection E as ->. reflexivity.
        + intro E. discriminate E.
        + exact Hl.
      - apply Hact in Ha. destruct Ha as [Hl _].
        apply (ends_well_after stdin rest2); [exact Hl|].
        rewrite <- Hloop. apply IH. lia. }
    destruct (String.eqb (strip l) "1");
      [exact (Hnext _ tame_action_check_bmi H)|].
    destruct (String.eqb (strip l) "2");
      [exact (Hnext _ (tame_action_plan consent) H)|].
    destruct (String.eqb (strip l) "3");
      [exact (Hnext _ tame_print_health_tips H)|].
    destruct (String.eqb (strip l) "4" || String.eqb (lower (strip l)) "exit"
              || String.eqb (lower (strip l)) "quit").
    + injection H as <- <- <-. split; [discriminate|]. split; [|lia].
      intros _. exists []. reflexivity.
    + exact (Hnext _ (tame_print _) H).
Qed.

(** X14.  [main] has fuel enough for every input: it ends by a choice of
    4, exit or quit, and then the last thing it prints is the goodbye, or by
    an exception such as the end of the input; and it never reads more than
    it is given. *)
Theorem main_ends_with_goodbye_or_exception :
  forall (stdin : list string) (r : unit + stop) (rest : list string) (out : list printed),
    main stdin = (r, rest, out) ->
    r <> inr OutOfFuel
    /\ (r = inl tt -> exists before, out = (before ++ [Line goodbye])%list)
    /\ (List.length rest <= List.length stdin)%nat.
Proof.
  intros stdin r rest out H. change (ends_well stdin (r, rest, out)).
  unfold main in H.
  apply iobind_inv in H.
  destruct H as [(e & H & _) | (u & rest0 & out0 & out1 & Hw & H & ->)];
    [discriminate H|].
  injection Hw as <- <- <-.
  apply (ends_well_after stdin stdin); [lia|].
  apply iobind_inv in H.
  destruct H as [(e & H & ->) | (consent & rest1 & out2 & out3 & Hc & H & ->)].
  - pose proof (tame_show_disclaimer _ _ _ _ H) as [Hl Hne].
    split; [|split]; [|discriminate|exact Hl].
    intro E. apply Hne. injection E as ->. reflexivity.
  - pose proof (tame_show_disclaimer _ _ _ _ Hc) as [Hl _].
    apply (ends_well_after stdin rest1); [exact Hl|].
    rewrite <- H. apply menu_loop_ends. lia.
Qed.

Lemma main_ends_at_quit :
  let run := main ["no"; "3"; " QUIT "; "1"] in
  fst (fst run) = inl tt
  /\ snd (fst run) = ["1"]
  /\ exists before, snd run = (before ++ [Line goodbye])%list.
Proof.
  cbv zeta.
  assert (H : main ["no"; "3"; " QUIT "; "1"]
              = (fst (fst (main ["no"; "3"; " QUIT "; "1"])),
                 snd (fst (main ["no"; "3"; " QUIT "; "1"])),
                 snd (main ["no"; "3"; " QUIT "; "1"])))
    by (vm_compute; reflexivity).
  pose proof (main_ends_with_goodbye_or_exception _ _ _ _ H) as (_ & Hbye & _).
  assert (Hr : fst (fst (main ["no"; "3"; " QUIT "; "1"])) = inl tt)
    by (vm_compute; reflexivity).
  split; [exact Hr|]. split; [vm_compute; reflexivity|]. exact (Hbye Hr).
Defined.

(** ** What is printed *)

Section Emits.

Variable P : printed -> Prop.
Hypothesis P_line : forall s, P (Line s).

Lemma emits_ret {A : Type} (a : A) : emits P (ret a).
Proof. intros s r rest out H. injection H as <- <- <-. constructor. Qed.

Lemma emits_raise {A : Type} (e : stop) : emits P (@raise A e).
Proof. intros s r rest out H. injection H as <- <- <-. constructor. Qed.

Lemma emits_print (p : printed) : P p -> emits P (print p).
Proof.
  intros Hp s r rest out H. injection H as <- <- <-. constructor; [exact Hp | constructor].
Qed.

Lemma emits_input : emits P input.
Proof. intros [|l s] r rest out H; injection H as <- <- <-; constructor. Qed.

Lemma emits_ask (pass : string -> outcome) : emits P (ask pass).
Proof.
  intros s r rest out H. apply ask_inv in H.
  assert (Hm : forall msgs, Forall P (map Line msgs)).
  { intro msgs. induction msgs; constructor; [apply P_line | assumption]. }
  destruct H as [(v & msgs & _ & _ & ->) | (e & msgs & _ & _ & -> & _)]; apply Hm.
Qed.

Lemma emits_bind {A B : Type} (m : IO A) (k : A -> IO B) :
  emits P m -> (forall a, emits P (k a)) -> emits P (iobind m k).
Proof.
  intros Hm Hk s r rest out H. apply iobind_inv in H.
  destruct H as [(e & H & ->) | (a & rest1 & out1 & out2 & H1 & H2 & ->)].
  - exact (Hm _ _ _ _ H).
  - apply Forall_app. split; [exact (Hm _ _ _ _ H1) | exact (Hk _ _ _ _ _ H2)].
Qed.

Lemma emits_for_each {A : Type} (l : list A) (body : A -> IO unit) :
  (forall a, emits P (body a)) -> emits P (for_each l body).
Proof.
  intro Hb. induction l as [|a l IH]; cbn [for_each].
  - apply emits_ret.
  - apply emits_bind; [apply Hb | intros _; exact IH].
Qed.

End Emits.

Ltac emits_steps Hline :=
  repeat first
    [ apply emits_bind; [|intro]
    | apply emits_print; first [apply Hline | reflexivity]
    | apply emits_ret | apply emits_input | apply (emits_ask _ Hline)
    | apply emits_for_each; intro
    | apply emits_raise
    | progress cbv zeta
    | match goal with
      | |- emits _ (if ?b then _ else _) => destruct b
      | |- emits _ (match ?x with _ => _ end) => destruct x
      end ].

Lemma text_or_bmi_line (s : string) : text_or_bmi (Line s).
Proof. exact I. Qed.

Lemma menu_loop_without_consent (fuel : nat) : emits text_or_bmi (menu_loop fuel false).
Proof.
  induction fuel as [|fuel IH]; [apply emits_raise|].
  rewrite menu_loop_round. unfold menu, action_check_bmi, print_health_tips, action_plan.
  cbn [negb]. emits_steps text_or_bmi_line; exact IH.
Qed.

(** X15.  On lines of ASCII text, when the answer to the disclaimer,
    without the blanks around it and in capitals, is not I AGREE, the
    session prints no plan whatever is typed afterwards: nothing but plain
    text and the line of a BMI.  With the answer given, in any case of
    letters, a choice of 2 leads to the estimate of the tdee. *)
Theorem without_consent_no_plan_is_printed :
  (forall (answer : string) (others : list string),
     Forall (fun line => string_forall ascii_char line = true) (answer :: others) ->
     upper (strip answer) <> "I AGREE" ->
     Forall text_or_bmi (snd (main (answer :: others))))
  /\ In (Formatted
           [Lit (nl ++ "Estimated TDEE (calories/day to maintain current weight): ");
            Val (VInt 2866); Lit " kcal"])
        (snd (main [" i agree"; "2"; "90"; "80"; "30"; "male"; "n"; "175"; "3"; "10"])).
Proof.
  split.
  - intros answer others _ Hno.
    destruct (main (answer :: others)) as [[r rest] out] eqn:H. cbn [snd].
    unfold main in H.
    apply iobind_inv in H.
    destruct H as [(e & H & _) | (u & rest0 & out0 & out1 & Hw & H & ->)];
      [discriminate H|].
    injection Hw as <- <- <-.
    apply Forall_app. split; [repeat constructor|].
    apply iobind_inv in H.
    assert (Hc : show_disclaimer_and_get_consent (answer :: others)
                 = (inl false, others,
                    [Line disclaimer_1; Line disclaimer_2; Line disclaimer_3;
                     Line disclaimer_4])).
    { unfold show_disclaimer_and_get_consent, iobind, print, input, ret. cbn.
      destruct (String.eqb_spec (upper (strip answer)) "I AGREE"); [contradiction|].
      reflexivity. }
    destruct H as [(e & H & _) | (consent & rest1 & out2 & out3 & Hc' & H & ->)].
    + rewrite Hc in H. discriminate H.
    + rewrite Hc in Hc'. injection Hc' as <- <- <-.
      apply Forall_app. split; [repeat constructor|].
      exact (menu_loop_without_consent _ _ _ _ _ H).
  - vm_compute. do 14 right. left. reflexivity.
Qed.

Lemma without_consent_at_no :
  Forall (fun line => string_forall ascii_char line = true)
    ["no"; "2"; "1"; "70"; "175"; "4"]
  /\ upper (strip "no") <> "I AGREE"
  /\ Forall text_or_bmi (snd (main ["no"; "2"; "1"; "70"; "175"; "4"])).
Proof.
  assert (Ha : Forall (fun line => string_forall ascii_char line = true)
                 ["no"; "2"; "1"; "70"; "175"; "4"]) by (repeat constructor).
  assert (H : upper (strip "no") <> "I AGREE") by discriminate.
  split; [exact Ha|]. split; [exact H|].
  exact (proj1 without_consent_no_plan_is_printed "no" ["2"; "1"; "70"; "175"; "4"] Ha H).
Defined.

(** ** The BMI value *)






(** ** The decimal comma *)

(** X19.  [parse_weight] reads a comma as a decimal point wherever it
    stands: a line gives the same outcome as the line with every comma
    written as a point. *)
Theorem weight_comma_is_a_decimal_point :
  forall line : string,
    parse_weight_pass line = parse_weight_pass (replace "," "." line).
Proof.
  intro line. symmetry. apply parse_weight_comma.
Qed.

(** X20.  On a line of ASCII text, [parse_height] reads a comma as a
    decimal point whenever the line does not reach its feet branch: a line
    of one token, a line of a number and a unit beginning with c, and any
    line in which neither [ft] nor [foot] appears once the quote marks are
    rewritten. *)
Theorem height_comma_is_a_decimal_point :
  forall line : string,
    string_forall ascii_char line = true ->
    (let parts := height_parts line in
     (List.length parts =? 1)%nat
     || ((List.length parts =? 2)%nat && startswith (nth 1 parts "") "c")) = true
    \/ (let raw := normalize_height (lower (strip line)) in
        contains "ft" raw || contains "foot" raw) = false ->
    parse_height_pass line = parse_height_pass (replace "," "." line).
Proof.
  intros line _ H. symmetry. apply parse_height_comma. exact H.
Qed.

Lemma height_comma_at_170_5_cm :
  string_forall ascii_char "170,5 cm" = true
  /\ ((let parts := height_parts "170,5 cm" in
       (List.length parts =? 1)%nat
       || ((List.length parts =? 2)%nat && startswith (nth 1 parts "") "c")) = true
      \/ (let raw := normalize_height (lower (strip "170,5 cm")) in
          contains "ft" raw || contains "foot" raw) = false)
  /\ parse_height_pass "170,5 cm" = parse_height_pass (replace "," "." "170,5 cm")
  /\ parse_height_pass "170,5 cm" = Return (341 # 2).
Proof.
  assert (Ha : string_forall ascii_char "170,5 cm" = true) by reflexivity.
  assert (H : (let parts := height_parts "170,5 cm" in
               (List.length parts =? 1)%nat
               || ((List.length parts =? 2)%nat && startswith (nth 1 parts "") "c")) = true
              \/ (let raw := normalize_height (lower (strip "170,5 cm")) in
                  contains "ft" raw || contains "foot" raw) = false)
    by (left; reflexivity).
  split; [exact Ha|]. split; [exact H|].
  split; [exact (height_comma_is_a_decimal_point "170,5 cm" Ha H) | reflexivity].
Defined.

(** * The claims that turn on the arithmetic of doubles *)

(** ** A bare number as a height *)

(** A line whose tokens are a single number is metres when the number is
    at most 3 and centimetres otherwise. *)
Lemma height_single_token (line token : string) (num : B64.float) :
  height_parts line = [token] ->
  B64.of_string token = Ok num ->
  B64.parse_height_pass line
  = B64.Return (B64.round_nd (if B64.leb num (B64.Fin 3)
                              then B64.mul num (B64.Fin 100) else num) 1).
Proof.
  intros Hparts Hnum. unfold B64.parse_height_pass. cbv zeta.
  destruct (String.eqb (lower (strip line)) "") eqn:Hraw.
  - apply String.eqb_eq in Hraw. unfold height_parts in Hparts.
    rewrite Hraw in Hparts. discriminate Hparts.
  - fold (height_parts line). rewrite Hparts.
    cbn [List.length Nat.eqb orb andb nth]. rewrite Hnum. cbn [bind B64.try_except].
    destruct (B64.ltb num (B64.Fin 3)) eqn:E.
    + rewrite (b64_ltb_leb _ _ E). reflexivity.
    + destruct (B64.leb num (B64.Fin 3)); reflexivity.
Qed.

(** C2, as the code has it.  A height line that is a single bare number is
    read as metres, and multiplied by 100, when the double of the number is
    at most 3.0, and as centimetres in every other case; the result is
    rounded to one decimal place.  A token of digits and points is such a
    line.  So 3 gives 300.0 cm and 1.75 gives 175.0 cm; a decimal that is
    above 3 but whose double is 3.0 gives 300.0 cm as well, and 170.05,
    whose double lies above the tie, gives 170.1 cm. *)
Theorem bare_number_is_metres_up_to_three :
  (forall (line token : string) (num : B64.float),
     height_parts line = [token] ->
     B64.of_string token = Ok num ->
     (B64.leb num (B64.Fin 3) = true ->
        B64.parse_height_pass line
        = B64.Return (B64.round_nd (B64.mul num (B64.Fin 100)) 1))
     /\ (B64.leb num (B64.Fin 3) = false ->
        B64.parse_height_pass line = B64.Return (B64.round_nd num 1)))
  /\ (forall token : string,
        all_digit_or_dot token = true -> token <> EmptyString ->
        height_parts token = [token])
  /\ (forall stdin, B64.parse_height ("3" :: stdin) = B64.Returned (B64.Fin 300) stdin [])
  /\ (forall stdin, B64.parse_height ("1.75" :: stdin) = B64.Returned (B64.Fin 175) stdin [])
  /\ B64.parse_height_pass "3.0000000000000000001" = B64.Return (B64.Fin 300)
  /\ B64.parse_height_pass "170.05" = B64.Return (B64.fl (1701 # 10)).
Proof.
  split; [|split; [exact height_parts_plain | repeat split; vm_compute; reflexivity]].
  intros line token num Hparts Hnum.
  rewrite (height_single_token line token num Hparts Hnum).
  split; intro H; rewrite H; reflexivity.
Qed.

Lemma bare_number_is_metres_at_1_75 :
  height_parts "1.75" = ["1.75"]
  /\ B64.of_string "1.75" = Ok (B64.Fin (7 # 4))
  /\ B64.leb (B64.Fin (7 # 4)) (B64.Fin 3) = true
  /\ B64.parse_height_pass "1.75"
     = B64.Return (B64.round_nd (B64.mul (B64.Fin (7 # 4)) (B64.Fin 100)) 1)
  /\ B64.round_nd (B64.mul (B64.Fin (7 # 4)) (B64.Fin 100)) 1 = B64.Fin 175.
Proof.
  assert (Hp : height_parts "1.75" = ["1.75"]) by reflexivity.
  assert (Hf : B64.of_string "1.75" = Ok (B64.Fin (7 # 4))) by (vm_compute; reflexivity).
  assert (Hle : B64.leb (B64.Fin (7 # 4)) (B64.Fin 3) = true) by reflexivity.
  repeat (split; [assumption|]).
  split; [|vm_compute; reflexivity].
  exact (proj1 (proj1 bare_number_is_metres_up_to_three "1.75" "1.75" _ Hp Hf) Hle).
Defined.

(** The line 3 against C2 as stated: the number is not below 3.0, yet it
    is read as metres and comes out as 300.0 cm, not as 3.0 cm. *)
Lemma bare_three_is_read_as_metres :
  height_parts "3" = ["3"]
  /\ B64.of_string "3" = Ok (B64.Fin 3)
  /\ B64.ltb (B64.Fin 3) (B64.Fin 3) = false
  /\ B64.round_nd (B64.Fin 3) 1 = B64.Fin 3
  /\ B64.parse_height_pass "3" = B64.Return (B64.Fin 300)
  /\ B64.parse_height_pass "3" <> B64.Return (B64.round_nd (B64.Fin 3) 1).
Proof.
  repeat split; try (vm_compute; reflexivity).
  intro H. vm_compute in H. discriminate H.
Qed.

(** ** The safety clamp and the floor of the intake *)

(** *** The plan is returned *)

(** [round] of an int is that int. *)
Lemma round_of_int (z : Z) : Py.round (inject_Z z) = z.
Proof.
  unfold Py.round. rewrite Qfloor_Z.
  assert (E : inject_Z z - inject_Z z == 0) by ring.
  rewrite (Qcompare_comp _ _ E (1 # 2) (1 # 2) (Qeq_refl _)). reflexivity.
Qed.

(** Rounding to a double moves a number by less than its own size plus
    one, and numbers up to 2^1000 in size stay finite. *)
Lemma fl_bounded (x B : Q) :
  Qabs x <= B -> B <= B64.two_to 1000 ->
  exists q, B64.fl x = B64.Fin q /\ Qabs q <= 2 * B + 1.
Proof.
  intros HB Hbig. pose proof (Qabs_nonneg x) as Ha0.
  unfold B64.fl. destruct (Qeq_bool x 0) eqn:E0.
  - exists 0. split; [reflexivity|]. change (Qabs 0) with 0. lra.
  - apply Qeq_bool_false in E0.
    assert (Hpos : 0 < Qabs x).
    { destruct (Qle_lt_or_eq _ _ Ha0) as [Hl | He]; [exact Hl|].
      exfalso. apply E0.
      destruct (Qabs_Qle_condition x 0) as [Hc _].
      assert (Hle : Qabs x <= 0) by (rewrite <- He; apply Qle_refl).
      destruct (Hc Hle) as [H1 H2]. apply Qle_antisym; [exact H2 | exact H1]. }
    set (a := Qabs x) in *.
    set (ex := Z.max (B64.log2_floor a - 52) (-1074)).
    pose proof (two_to_pos ex) as HP.
    assert (HPa : B64.two_to ex <= a + 1).
    { destruct (log2_floor_spec a Hpos) as [Hlo _].
      destruct (Z.max_spec (B64.log2_floor a - 52) (-1074)) as [[_ E] | [_ E]];
        fold ex in E; rewrite E.
      - assert (H : B64.two_to (-1074) <= 1) by (vm_compute; discriminate). lra.
      - assert (H : B64.two_to (B64.log2_floor a - 52) <= B64.two_to (B64.log2_floor a))
          by (apply two_to_le; lia).
        lra. }
    set (m := Py.round (a / B64.two_to ex)).
    assert (Hm : inject_Z m * B64.two_to ex <= a + (1 # 2) * B64.two_to ex).
    { destruct (round_close (a / B64.two_to ex)) as [_ Hhi]. fold m in Hhi.
      assert (E : a / B64.two_to ex * B64.two_to ex == a).
      { field. intro H. rewrite H in HP. discriminate HP. }
      assert (H1 : inject_Z m <= a / B64.two_to ex + (1 # 2)) by lra.
      apply (Qmult_le_r _ _ (B64.two_to ex) HP) in H1.
      rewrite Qmult_plus_distr_l, E in H1. exact H1. }
    assert (Hr0 : 0 <= inject_Z m * B64.two_to ex)
      by (apply fl_mantissa_nonneg; exact Ha0).
    set (r := inject_Z m * B64.two_to ex) in *.
    assert (Hr : r <= 2 * B + 1) by lra.
    assert (Hno : Qle_bool (B64.two_to 1024) r = false).
    { destruct (Qle_bool (B64.two_to 1024) r) eqn:E; [|reflexivity].
      apply Qle_bool_iff in E.
      assert (H : 2 * B64.two_to 1000 + 1 < B64.two_to 1024) by (vm_compute; reflexivity).
      lra. }
    rewrite Hno. eexists. split; [reflexivity|].
    rewrite Qred_correct.
    destruct (negb (Qle_bool 0 x)).
    + rewrite Qabs_opp, (Qabs_pos r Hr0). exact Hr.
    + rewrite (Qabs_pos r Hr0). exact Hr.
Qed.

(** An int is its own reduced fraction. *)
Lemma Qred_of_int (w : Z) : Qred (inject_Z w) = inject_Z w.
Proof.
  unfold Qred, inject_Z.
  pose proof (Z.ggcd_correct_divisors w 1) as H.
  pose proof (Z.ggcd_gcd w 1) as Hg. rewrite Z.gcd_1_r in Hg.
  change (Z.pos 1) with 1%Z.
  destruct (Z.ggcd w 1) as [g [aa bb]]. cbn in Hg |- *. subst g.
  destruct H as [-> H1]. rewrite !Z.mul_1_l in *. subst bb. reflexivity.
Qed.

(** An int up to 2^53 in size is a double. *)
Lemma of_Z_exact (z : Z) :
  (Z.abs z <= 2 ^ 53)%Z -> B64.of_Z z = B64.Fin (inject_Z z).
Proof.
  intro Hz. unfold B64.of_Z, B64.fl.
  destruct (Z.eq_dec z 0) as [-> | Hnz]; [reflexivity|].
  assert (E0 : Qeq_bool (inject_Z z) 0 = false).
  { apply Qeq_bool_false. intro H. apply Hnz.
    unfold Qeq in H. cbn in H. lia. }
  rewrite E0.
  assert (Ha : Qabs (inject_Z z) = inject_Z (Z.abs z)) by reflexivity.
  rewrite Ha.
  set (n := Z.abs z) in *.
  assert (Hn : (0 < n)%Z) by (unfold n; lia).
  assert (Hnq : 0 < inject_Z n) by (change 0 with (inject_Z 0); rewrite <- Zlt_Qlt; exact Hn).
  destruct (log2_floor_spec (inject_Z n) Hnq) as [Hlo Hhi].
  set (e := B64.log2_floor (inject_Z n)) in *.
  assert (He0 : (0 <= e)%Z).
  { assert (H : (0 < e + 1)%Z); [|lia].
    apply two_to_lt_inv. apply (Qle_lt_trans _ (inject_Z n)); [|exact Hhi].
    change (B64.two_to 0) with (inject_Z 1). rewrite <- Zle_Qle. lia. }
  assert (He : (e <= 53)%Z).
  { assert (H : (e < 54)%Z); [|lia].
    apply two_to_lt_inv. apply (Qle_lt_trans _ (inject_Z n)); [exact Hlo|].
    apply (Qle_lt_trans _ (inject_Z (2 ^ 53))); [rewrite <- Zle_Qle; exact Hz|].
    vm_compute. reflexivity. }
  assert (Hex : Z.max (e - 52) (-1074) = (e - 52)%Z) by lia.
  rewrite Hex.
  (* the exponent 53 is reached by 2^53 alone *)
  assert (Hint : exists k : Z, inject_Z n / B64.two_to (e - 52) == inject_Z k
                               /\ inject_Z k * B64.two_to (e - 52) == inject_Z n).
  { destruct (Z.eq_dec e 53) as [E53 | Hne].
    - assert (Hn53 : n = (2 ^ 53)%Z).
      { rewrite E53 in Hlo. rewrite (two_to_nat 53) in Hlo by lia.
        rewrite <- Zle_Qle in Hlo. lia. }
      exists (2 ^ 52)%Z. rewrite E53, Hn53. split; vm_compute; reflexivity.
    - exists (n * 2 ^ (52 - e))%Z.
      assert (Hp : B64.two_to (52 - e) == inject_Z (2 ^ (52 - e))) by (apply two_to_nat; lia).
      assert (Hinv : B64.two_to (e - 52) * B64.two_to (52 - e) == 1).
      { rewrite <- two_to_plus. replace (e - 52 + (52 - e))%Z with 0%Z by lia. reflexivity. }
      pose proof (two_to_pos (e - 52)) as HP.
      rewrite inject_Z_mult, <- Hp. split.
      + apply (Qmult_inj_r _ _ (B64.two_to (e - 52)));
          [intro H; rewrite H in HP; discriminate HP|].
        rewrite <- Qmult_assoc, (Qmult_comm (B64.two_to (52 - e))), Hinv.
        field. intro H. rewrite H in HP. discriminate HP.
      + rewrite <- Qmult_assoc, (Qmult_comm (B64.two_to (52 - e))), Hinv. ring. }
  destruct Hint as (k & Hk1 & Hk2).
  rewrite (round_compat _ _ Hk1), round_of_int.
  assert (Hno : Qle_bool (B64.two_to 1024) (inject_Z k * B64.two_to (e - 52)) = false).
  { destruct (Qle_bool _ _) eqn:E; [|reflexivity].
    apply Qle_bool_iff in E. rewrite Hk2 in E.
    assert (H : inject_Z n <= inject_Z (2 ^ 53)) by (rewrite <- Zle_Qle; exact Hz).
    assert (H2 : inject_Z (2 ^ 53) < B64.two_to 1024) by (vm_compute; reflexivity).
    lra. }
  rewrite Hno. f_equal.
  pose proof Qred_of_int as Hid.
  destruct (Qle_bool 0 (inject_Z z)) eqn:Es; cbn [negb].
  - apply Qle_bool_iff in Es. unfold Qle in Es. cbn in Es.
    assert (n = z) as Enz by (unfold n; lia).
    rewrite <- (Hid z). apply Qred_complete. rewrite Hk2, Enz. reflexivity.
  - assert (Hzneg : (z < 0)%Z).
    { destruct (Z_lt_le_dec z 0) as [H | H]; [exact H|].
      assert (Hq : Qle_bool 0 (inject_Z z) = true)
        by (apply Qle_bool_iff; unfold Qle; cbn; lia).
      congruence. }
    assert (n = (- z)%Z) as Enz by (unfold n; lia).
    rewrite <- (Hid z). apply Qred_complete. rewrite Hk2, Enz, inject_Z_opp. ring.
Qed.

(** Differences, products by a constant and quotients by a number from 1
    on stay finite on numbers up to 2^1000 in size. *)
Lemma sub_bounded (x y Bx By : Q) :
  Qabs x <= Bx -> Qabs y <= By -> Bx + By <= B64.two_to 1000 ->
  exists q, B64.sub (B64.Fin x) (B64.Fin y) = B64.Fin q /\ Qabs q <= 2 * (Bx + By) + 1.
Proof.
  intros Hx Hy Hbig.
  change (B64.sub (B64.Fin x) (B64.Fin y)) with (B64.fl (x + Qred (- y))).
  apply fl_bounded; [|exact Hbig].
  apply (Qle_trans _ _ _ (Qabs_triangle _ _)).
  rewrite Qred_correct, Qabs_opp. lra.
Qed.

Lemma mul_bounded (x c Bx : Q) :
  Qabs x <= Bx -> 0 <= c -> Bx * c <= B64.two_to 1000 ->
  exists q, B64.mul (B64.Fin x) (B64.Fin c) = B64.Fin q /\ Qabs q <= 2 * (Bx * c) + 1.
Proof.
  intros Hx Hc Hbig.
  change (B64.mul (B64.Fin x) (B64.Fin c)) with (B64.fl (x * c)).
  apply fl_bounded; [|exact Hbig].
  rewrite Qabs_Qmult, (Qabs_pos c Hc).
  apply Qmult_le_compat_r; assumption.
Qed.

Lemma div_bounded (x d Bx : Q) :
  Qabs x <= Bx -> 1 <= d -> Bx <= B64.two_to 1000 ->
  exists q, B64.div (B64.Fin x) (B64.Fin d) = B64.Fin q /\ Qabs q <= 2 * Bx + 1.
Proof.
  intros Hx Hd Hbig. cbn [B64.div].
  assert (Hz : Qeq_bool d 0 = false).
  { apply Qeq_bool_false. intro E. lra. }
  rewrite Hz. apply fl_bounded; [|exact Hbig].
  unfold Qdiv. rewrite Qabs_Qmult.
  assert (Hinv : Qabs (/ d) <= 1).
  { assert (Hdpos : 0 < d) by lra.
    rewrite Qabs_pos by (apply Qlt_le_weak, Qinv_lt_0_compat, Hdpos).
    apply Qle_shift_inv_r; [exact Hdpos | lra]. }
  pose proof (Qabs_nonneg x) as H0. pose proof (Qabs_nonneg (/ d)) as H1.
  set (u := Qabs x) in *. set (w := Qabs (/ d)) in *. clearbody u w. nra.
Qed.

(** For weights and a tdee up to 10^9 in size and a duration up to 2^53
    days the planning engine returns: no operation overflows or divides by
    zero. *)
Lemma plan_is_returned (a b t : Q) (days : Z) (sex : string) :
  Qabs a <= 1000000000 -> Qabs b <= 1000000000 -> Qabs t <= 1000000000 ->
  (Z.abs days <= 2 ^ 53)%Z ->
  exists plan : dict B64.value,
    B64.recommend_calories_for_weight_loss (B64.Fin a) (B64.Fin b) (B64.Fin t) days sex
    = B64.Done plan.
Proof.
  intros Ha Hb Ht Hd.
  unfold B64.recommend_calories_for_weight_loss. cbv zeta.
  destruct (sub_bounded a b _ _ Ha Hb) as (k & Ek & Hk); [vm_compute; discriminate|].
  rewrite Ek.
  destruct (B64.leb (B64.Fin k) (B64.Fin 0)); [eexists; reflexivity|].
  destruct (mul_bounded k 7700 _ Hk) as (tot & Etot & Htot);
    [discriminate | vm_compute; discriminate |].
  rewrite Etot.
  unfold B64.of_int, Py.max. rewrite (of_Z_exact (Z.max days 1)) by lia.
  cbn [B64.and_then]. unfold B64.truediv.
  assert (Hone : 1 <= inject_Z (Z.max days 1)).
  { change 1 with (inject_Z 1). rewrite <- Zle_Qle. lia. }
  assert (Hnz : B64.is_zero (B64.Fin (inject_Z (Z.max days 1))) = false).
  { cbn [B64.is_zero]. apply Qeq_bool_false. intro E. lra. }
  rewrite Hnz. cbn [B64.and_then].
  destruct (div_bounded tot _ _ Htot Hone) as (dd & Edd & Hdd); [vm_compute; discriminate|].
  rewrite Edd.
  assert (Hint : forall (q : Q) (A : Type) (f : Z -> B64.attempt A),
            B64.and_then (B64.int (B64.Fin q)) f = f (Py.int q)) by reflexivity.
  destruct (B64.ltb (B64.Fin 1000) (B64.Fin dd)); cbn [B64.and_then].
  - destruct (sub_bounded t 1000 _ 1000 Ht) as (s & Es & _);
      [discriminate | vm_compute; discriminate |].
    rewrite Es.
    destruct (B64.ltb (B64.Fin s) (B64.Fin 1200)); cbv iota beta;
      rewrite !Hint; eexists; reflexivity.
  - unfold B64.int_truediv. change (7 =? 0)%Z with false. cbv iota.
    change (inject_Z 7) with (7 : Q).
    assert (Hw : Qabs (inject_Z days / 7) <= inject_Z (2 ^ 53)).
    { assert (H1 : inject_Z (- 2 ^ 53) <= inject_Z days) by (rewrite <- Zle_Qle; lia).
      assert (H2 : inject_Z days <= inject_Z (2 ^ 53)) by (rewrite <- Zle_Qle; lia).
      assert (H3 : inject_Z (- 2 ^ 53) == - inject_Z (2 ^ 53)) by reflexivity.
      assert (H4 : 0 <= inject_Z (2 ^ 53)) by discriminate.
      rewrite H3 in H1. clear H3.
      set (M := inject_Z (2 ^ 53)) in *. set (D := inject_Z days) in *.
      clearbody M D.
      assert (E : D / 7 == D * (1 # 7)) by reflexivity.
      apply Qabs_Qle_condition. rewrite E. split; lra. }
    destruct (fl_bounded _ _ Hw) as (w & Ew & _); [vm_compute; discriminate|].
    rewrite Ew. cbn [B64.and_then].
    destruct (sub_bounded t dd _ _ Ht Hdd) as (s & Es & _); [vm_compute; discriminate|].
    rewrite Es.
    destruct (B64.ltb (B64.Fin s) (B64.Fin 1200)); cbv iota beta;
      rewrite !Hint; eexists; reflexivity.
Qed.

Section PlanOnDoubles.

Variables (current_weight target_weight tdee : B64.float) (days : Z) (sex : string).
Variable plan : dict B64.value.

Let kg_to_lose : B64.float := B64.sub current_weight target_weight.
Let total_kcal_needed : B64.float := B64.mul kg_to_lose (B64.Fin 7700).
(** The deficit the requested duration asks for, before any clamp. *)
Let requested_deficit : B64.float :=
  B64.div total_kcal_needed (B64.of_Z (Z.max days 1)).
Let clamped : bool := B64.ltb (B64.Fin 1000) requested_deficit.
(** The deficit the plan uses. *)
Let deficit_used : B64.float := if clamped then B64.Fin 1000 else requested_deficit.
Let floored : bool := B64.ltb (B64.sub tdee deficit_used) (B64.Fin 1200).

Hypothesis Hplan :
  B64.recommend_calories_for_weight_loss current_weight target_weight tdee days sex
  = B64.Done plan.
Hypothesis Hloss : B64.leb (B64.sub current_weight target_weight) (B64.Fin 0) = false.

(** The plan of a weight loss, field by field. *)
Lemma plan_fields_on_doubles :
  exists total deficit suggested : Z,
    B64.int total_kcal_needed = B64.Done total
    /\ B64.int deficit_used = B64.Done deficit
    /\ B64.int (if floored then B64.Fin 1200 else B64.sub tdee deficit_used)
       = B64.Done suggested
    /\ plan =
       [ ("kg_to_lose", B64.VFloat (B64.round_nd kg_to_lose 2));
         ("total_kcal_needed", B64.VInt total);
         ("daily_deficit", B64.VInt deficit);
         ("suggested_daily_calories", B64.VInt suggested);
         ("warnings",
            B64.VList ((if clamped then [clamp_warning] else [])
                       ++ (if floored then [floor_warning] else [])));
         ("weekly_loss_kg",
            B64.VFloat (B64.round_nd
              (B64.div (B64.mul requested_deficit (B64.Fin 7)) (B64.Fin 7700)) 3));
         ("estimated_weeks_needed",
            B64.VFloat (B64.round_nd
              (if clamped then B64.div total_kcal_needed (B64.Fin 7000)
               else B64.fl (inject_Z days / 7)) 1)) ].
Proof.
  pose proof Hplan as H.
  unfold B64.recommend_calories_for_weight_loss in H. cbv zeta in H.
  rewrite Hloss in H.
  unfold B64.of_int, B64.truediv, Py.max in H.
  fold kg_to_lose in H. fold total_kcal_needed in H.
  assert (Hdiv : forall d, B64.of_Z (Z.max days 1) = d ->
                 B64.div total_kcal_needed d = requested_deficit)
    by (intros d <-; reflexivity).
  destruct (B64.of_Z (Z.max days 1)) as [d|s|] eqn:Ed; cbn [B64.and_then] in H;
    [| discriminate H |];
    (destruct (B64.is_zero _); [discriminate H|]);
    cbn [B64.and_then] in H;
    rewrite (Hdiv _ eq_refl) in H; clear Hdiv;
    fold clamped in H.
  all: unfold floored, deficit_used.
  all: destruct clamped; cbn [B64.and_then] in H.
  all: try (unfold B64.int_truediv in H; change (7 =? 0)%Z with false in H;
            cbv iota in H; change (inject_Z 7) with (7 : Q) in H;
            destruct (B64.fl (inject_Z days / 7)) as [w|sw|] eqn:Ew;
            cbn [B64.and_then] in H; [| discriminate H |]).
  all: destruct (B64.ltb (B64.sub tdee _) (B64.Fin 1200)); cbv iota beta in H.
  all: destruct (B64.int total_kcal_needed) as [total|e1];
         cbn [B64.and_then] in H; [|discriminate H].
  all: match type of H with
       | context [B64.and_then (B64.int ?x)] =>
           destruct (B64.int x) as [deficit|e2] eqn:E2;
           cbn [B64.and_then] in H; [|discriminate H]
       end.
  all: match type of H with
       | context [B64.and_then (B64.int ?x)] =>
           destruct (B64.int x) as [suggested|e3] eqn:E3;
           cbn [B64.and_then] in H; [|discriminate H]
       end.
  all: injection H as <-; exists total, deficit, suggested;
       repeat split; assumption || reflexivity.
Qed.

(** C6.  When tdee minus the deficit used, as the program computes it, is
    below 1200 kcal/day, the suggested intake is exactly 1200 and the floor
    warning is attached.  The clamp warning and the floor warning are
    decided independently of each other, each by its own comparison, so
    there are zero, one or two warnings; with a requested deficit above 1000
    and a tdee below 2200 both are present. *)
Theorem floor_of_daily_intake :
  (floored = true ->
     dict_lookup "suggested_daily_calories" plan = Some (B64.VInt 1200)
     /\ In floor_warning (B64.dict_warnings plan))
  /\ (In floor_warning (B64.dict_warnings plan) <-> floored = true)
  /\ (In clamp_warning (B64.dict_warnings plan) <-> clamped = true)
  /\ (List.length (B64.dict_warnings plan) = 0
      \/ List.length (B64.dict_warnings plan) = 1
      \/ List.length (B64.dict_warnings plan) = 2)%nat
  /\ (clamped = true -> B64.valid tdee -> B64.ltb tdee (B64.Fin 2200) = true ->
      B64.dict_warnings plan = [clamp_warning; floor_warning]).
Proof.
  destruct plan_fields_on_doubles as (total & deficit & suggested & _ & _ & Hs & ->).
  unfold B64.dict_warnings.
  cbn [dict_lookup String.eqb Ascii.eqb Bool.eqb].
  assert (Hne : clamp_warning <> floor_warning) by discriminate.
  repeat split.
  - rewrite H in Hs. injection Hs as <-. reflexivity.
  - rewrite H. apply in_or_app. right. left. reflexivity.
  - intro Hin. destruct floored; [reflexivity|].
    destruct clamped; cbn in Hin; [destruct Hin as [E | []]; congruence | destruct Hin].
  - intro H. rewrite H. apply in_or_app. right. left. reflexivity.
  - intro Hin. destruct clamped; [reflexivity|].
    destruct floored; cbn in Hin; [destruct Hin as [E | []]; congruence | destruct Hin].
  - intro H. rewrite H. left. reflexivity.
  - destruct clamped, floored; cbn; auto.
  - intros Hc Hv Ht.
    assert (Hf : floored = true).
    { unfold floored, deficit_used. rewrite Hc.
      exact (below_2200_less_1000 tdee Hv Ht). }
    rewrite Hc, Hf. reflexivity.
Qed.

(** The two cases of the safety clamp. *)
Lemma clamp_cases_on_doubles :
  (clamped = true ->
     dict_lookup "daily_deficit" plan = Some (B64.VInt 1000)
     /\ (exists suggested : Z,
           B64.int (if B64.ltb (B64.sub tdee (B64.Fin 1000)) (B64.Fin 1200)
                    then B64.Fin 1200 else B64.sub tdee (B64.Fin 1000))
           = B64.Done suggested
           /\ dict_lookup "suggested_daily_calories" plan = Some (B64.VInt suggested))
     /\ dict_lookup "estimated_weeks_needed" plan
        = Some (B64.VFloat (B64.round_nd (B64.div total_kcal_needed (B64.Fin 7000)) 1))
     /\ In clamp_warning (B64.dict_warnings plan))
  /\ (clamped = false ->
     (exists deficit : Z,
        B64.int requested_deficit = B64.Done deficit
        /\ dict_lookup "daily_deficit" plan = Some (B64.VInt deficit))
     /\ dict_lookup "estimated_weeks_needed" plan
        = Some (B64.VFloat (B64.round_nd (B64.fl (inject_Z days / 7)) 1))
     /\ ~ In clamp_warning (B64.dict_warnings plan)).
Proof.
  destruct plan_fields_on_doubles as (total & deficit & suggested & _ & Hd & Hs & ->).
  unfold B64.dict_warnings.
  cbn [dict_lookup String.eqb Ascii.eqb Bool.eqb].
  unfold floored, deficit_used in *.
  split; intro Hc; rewrite Hc in *.
  - injection Hd as <-.
    repeat split; try reflexivity.
    + exists suggested. split; [exact Hs | reflexivity].
    + left. reflexivity.
  - repeat split; try reflexivity.
    + exists deficit. split; [exact Hd | reflexivity].
    + destruct (B64.ltb (B64.sub tdee requested_deficit) (B64.Fin 1200)); cbn.
      * intros [H | []]. discriminate H.
      * intros [].
Qed.

End PlanOnDoubles.

(** C5, as the code has it.  When the daily deficit the program computes
    exceeds 1000 kcal/day the plan uses a deficit of exactly 1000, reports
    the weeks needed as total_kcal_needed / (1000 * 7) rounded to one
    decimal place and carries the clamp warning; otherwise the weeks are
    duration_days / 7 rounded to one decimal place and there is no clamp
    warning.  For 90 kg, 80 kg, a tdee of 2500 and 70 days: 77000 kcal in
    total, a requested deficit of 1100 that triggers the clamp, 1500
    kcal/day suggested, 11.0 weeks, and the clamp warning.  For weights and
    a tdee up to 10^9 in size and a duration up to 2^53 days a plan is
    returned. *)
Theorem clamp_of_daily_deficit :
  (forall (current_weight target_weight tdee : B64.float) (days : Z) (sex : string)
          (plan : dict B64.value),
     B64.recommend_calories_for_weight_loss current_weight target_weight tdee days sex
     = B64.Done plan ->
     B64.leb (B64.sub current_weight target_weight) (B64.Fin 0) = false ->
     let total_kcal_needed :=
       B64.mul (B64.sub current_weight target_weight) (B64.Fin 7700) in
     let requested_deficit := B64.div total_kcal_needed (B64.of_Z (Z.max days 1)) in
     (B64.ltb (B64.Fin 1000) requested_deficit = true ->
        dict_lookup "daily_deficit" plan = Some (B64.VInt 1000)
        /\ (exists suggested : Z,
              B64.int (if B64.ltb (B64.sub tdee (B64.Fin 1000)) (B64.Fin 1200)
                       then B64.Fin 1200 else B64.sub tdee (B64.Fin 1000))
              = B64.Done suggested
              /\ dict_lookup "suggested_daily_calories" plan = Some (B64.VInt suggested))
        /\ dict_lookup "estimated_weeks_needed" plan
           = Some (B64.VFloat (B64.round_nd (B64.div total_kcal_needed (B64.Fin 7000)) 1))
        /\ In clamp_warning (B64.dict_warnings plan))
     /\ (B64.ltb (B64.Fin 1000) requested_deficit = false ->
        (exists deficit : Z,
           B64.int requested_deficit = B64.Done deficit
           /\ dict_lookup "daily_deficit" plan = Some (B64.VInt deficit))
        /\ dict_lookup "estimated_weeks_needed" plan
           = Some (B64.VFloat (B64.round_nd (B64.fl (inject_Z days / 7)) 1))
        /\ ~ In clamp_warning (B64.dict_warnings plan)))
  /\ (forall sex : string,
        B64.div (B64.mul (B64.sub (B64.Fin 90) (B64.Fin 80)) (B64.Fin 7700))
                (B64.of_Z (Z.max 70 1)) = B64.Fin 1100
        /\ B64.recommend_calories_for_weight_loss
             (B64.Fin 90) (B64.Fin 80) (B64.Fin 2500) 70 sex
           = B64.Done
               [ ("kg_to_lose", B64.VFloat (B64.Fin 10));
                 ("total_kcal_needed", B64.VInt 77000);
                 ("daily_deficit", B64.VInt 1000);
                 ("suggested_daily_calories", B64.VInt 1500);
                 ("warnings", B64.VList [clamp_warning]);
                 ("weekly_loss_kg", B64.VFloat (B64.Fin 1));
                 ("estimated_weeks_needed", B64.VFloat (B64.Fin 11)) ])
  /\ (forall (current_weight target_weight tdee : Q) (days : Z) (sex : string),
        Qabs current_weight <= 1000000000 -> Qabs target_weight <= 1000000000 ->
        Qabs tdee <= 1000000000 -> (Z.abs days <= 2 ^ 53)%Z ->
        exists plan : dict B64.value,
          B64.recommend_calories_for_weight_loss
            (B64.Fin current_weight) (B64.Fin target_weight) (B64.Fin tdee) days sex
          = B64.Done plan).
Proof.
  split; [|split].
  - intros cw tw tdee days sex plan Hplan Hloss.
    exact (clamp_cases_on_doubles cw tw tdee days sex plan Hplan Hloss).
  - intro sex. split; vm_compute; reflexivity.
  - exact plan_is_returned.
Qed.

Lemma clamp_of_daily_deficit_at_90_80 :
  exists plan : dict B64.value,
    B64.recommend_calories_for_weight_loss (B64.Fin 90) (B64.Fin 80) (B64.Fin 2500) 70 "male"
    = B64.Done plan
    /\ B64.leb (B64.sub (B64.Fin 90) (B64.Fin 80)) (B64.Fin 0) = false
    /\ B64.ltb (B64.Fin 1000)
         (B64.div (B64.mul (B64.sub (B64.Fin 90) (B64.Fin 80)) (B64.Fin 7700))
                  (B64.of_Z (Z.max 70 1))) = true
    /\ dict_lookup "daily_deficit" plan = Some (B64.VInt 1000)
    /\ In clamp_warning (B64.dict_warnings plan).
Proof.
  destruct (B64.recommend_calories_for_weight_loss
              (B64.Fin 90) (B64.Fin 80) (B64.Fin 2500) 70 "male") as [plan|e] eqn:Hplan;
    [|vm_compute in Hplan; discriminate Hplan].
  assert (Hloss : B64.leb (B64.sub (B64.Fin 90) (B64.Fin 80)) (B64.Fin 0) = false)
    by (vm_compute; reflexivity).
  assert (Hc : B64.ltb (B64.Fin 1000)
         (B64.div (B64.mul (B64.sub (B64.Fin 90) (B64.Fin 80)) (B64.Fin 7700))
                  (B64.of_Z (Z.max 70 1))) = true) by (vm_compute; reflexivity).
  exists plan. repeat (split; [assumption || reflexivity|]).
  destruct (proj1 clamp_of_daily_deficit _ _ _ _ _ plan Hplan Hloss) as [Hclamp _].
  destruct (Hclamp Hc) as (H1 & _ & _ & H4).
  split; [exact H1 | exact H4].
Defined.

Lemma floor_of_daily_intake_at_tdee_2000 :
  exists plan : dict B64.value,
    B64.recommend_calories_for_weight_loss (B64.Fin 90) (B64.Fin 80) (B64.Fin 2000) 70 "male"
    = B64.Done plan
    /\ B64.leb (B64.sub (B64.Fin 90) (B64.Fin 80)) (B64.Fin 0) = false
    /\ B64.ltb (B64.Fin 1000)
         (B64.div (B64.mul (B64.sub (B64.Fin 90) (B64.Fin 80)) (B64.Fin 7700))
                  (B64.of_Z (Z.max 70 1))) = true
    /\ B64.valid (B64.Fin 2000)
    /\ B64.ltb (B64.Fin 2000) (B64.Fin 2200) = true
    /\ B64.dict_warnings plan = [clamp_warning; floor_warning].
Proof.
  destruct (B64.recommend_calories_for_weight_loss
              (B64.Fin 90) (B64.Fin 80) (B64.Fin 2000) 70 "male") as [plan|e] eqn:Hplan;
    [|vm_compute in Hplan; discriminate Hplan].
  assert (Hloss : B64.leb (B64.sub (B64.Fin 90) (B64.Fin 80)) (B64.Fin 0) = false)
    by (vm_compute; reflexivity).
  assert (Hc : B64.ltb (B64.Fin 1000)
         (B64.div (B64.mul (B64.sub (B64.Fin 90) (B64.Fin 80)) (B64.Fin 7700))
                  (B64.of_Z (Z.max 70 1))) = true) by (vm_compute; reflexivity).
  assert (Hv : B64.valid (B64.Fin 2000)) by (vm_compute; reflexivity).
  assert (Ht : B64.ltb (B64.Fin 2000) (B64.Fin 2200) = true) by reflexivity.
  exists plan. repeat (split; [assumption || reflexivity|]).
  destruct (floor_of_daily_intake _ _ _ _ _ plan Hplan Hloss) as (_ & _ & _ & _ & Hboth).
  exact (Hboth Hc Hv Ht).
Defined.

(** Against C5 as stated: for 70 kg, 69 kg and 10 days, without clamp, the
    plan reports 1.4 weeks, which is not 10 / 7; for 70 kg, 69.5 kg and one
    day the clamp fires and the plan reports 0.6 weeks, which is not
    3850 / 7000. *)
Lemma weeks_are_reported_to_one_decimal :
  B64.reported "estimated_weeks_needed"
    (B64.recommend_calories_for_weight_loss (B64.Fin 70) (B64.Fin 69) (B64.Fin 2000) 10 "male")
  = Some (B64.VFloat (B64.fl (14 # 10)))
  /\ B64.reported "warnings"
       (B64.recommend_calories_for_weight_loss (B64.Fin 70) (B64.Fin 69) (B64.Fin 2000) 10 "male")
     = Some (B64.VList [])
  /\ B64.fl (14 # 10) <> B64.fl (inject_Z 10 / 7)
  /\ B64.reported "estimated_weeks_needed"
       (B64.recommend_calories_for_weight_loss
          (B64.Fin 70) (B64.Fin (139 # 2)) (B64.Fin 2500) 1 "male")
     = Some (B64.VFloat (B64.fl (6 # 10)))
  /\ B64.reported "warnings"
       (B64.recommend_calories_for_weight_loss
          (B64.Fin 70) (B64.Fin (139 # 2)) (B64.Fin 2500) 1 "male")
     = Some (B64.VList [clamp_warning])
  /\ B64.div (B64.mul (B64.sub (B64.Fin 70) (B64.Fin (139 # 2))) (B64.Fin 7700)) (B64.Fin 7000)
     = B64.fl (55 # 100)
  /\ B64.fl (6 # 10) <> B64.fl (55 # 100).
Proof.
  repeat split; try (vm_compute; reflexivity);
    intro H; vm_compute in H; discriminate H.
Qed.

(** * Properties of the shell on doubles *)

(** ** Doubles: every value of [fl] is a double *)

(** [round] stays between the ints around its argument. *)
Lemma round_le_int (t : Q) (N : Z) : t <= inject_Z N -> (Py.round t <= N)%Z.
Proof.
  intro H. destruct (round_close t) as [_ Hhi].
  assert (H1 : inject_Z (Py.round t) < inject_Z (N + 1)).
  { rewrite inject_Z_plus. change (inject_Z 1) with 1. lra. }
  rewrite <- Zlt_Qlt in H1. lia.
Qed.

Lemma round_ge_int (t : Q) (N : Z) : inject_Z N <= t -> (N <= Py.round t)%Z.
Proof.
  intro H. destruct (round_close t) as [Hlo _].
  assert (H1 : inject_Z (N - 1) < inject_Z (Py.round t)).
  { unfold Zminus. rewrite inject_Z_plus. change (inject_Z (- (1))) with (- (1)). lra. }
  rewrite <- Zlt_Qlt in H1. lia.
Qed.

(** A number [m * 2^k] with [m] below 2^53 and [k] from -1074 on, below
    2^1024, is a double. *)
Lemma fl_exact (s : bool) (m k : Z) :
  (0 < m < 2 ^ 53)%Z -> (-1074 <= k)%Z ->
  inject_Z m * B64.two_to k < B64.two_to 1024 ->
  B64.fl (if s then - (inject_Z m * B64.two_to k) else inject_Z m * B64.two_to k)
  = B64.Fin (Qred (if s then - (inject_Z m * B64.two_to k)
                   else inject_Z m * B64.two_to k)).
Proof.
  intros [Hm0 Hm] Hk Hbig.
  set (y := inject_Z m * B64.two_to k) in *.
  set (x := if s then - y else y).
  pose proof (two_to_pos k) as Hpk.
  assert (Hmq : 0 < inject_Z m) by (change 0 with (inject_Z 0); rewrite <- Zlt_Qlt; exact Hm0).
  assert (Hy : 0 < y) by (apply Qmult_lt_0_compat; assumption).
  assert (Habs : Qabs x == y).
  { unfold x. destruct s; [rewrite Qabs_opp|]; apply Qabs_pos; lra. }
  assert (H0 : Qeq_bool x 0 = false).
  { apply Qeq_bool_false. intro E. unfold x in E. destruct s; lra. }
  assert (Hs : negb (Qle_bool 0 x) = s).
  { unfold x. destruct s; cbn [negb].
    - destruct (Qle_bool 0 (- y)) eqn:E; [|reflexivity].
      apply Qle_bool_iff in E. lra.
    - rewrite (proj2 (Qle_bool_iff 0 y)) by lra. reflexivity. }
  set (l := Z.log2 m).
  destruct (Z.log2_spec m Hm0) as [Hl1 Hl2]. fold l in Hl1, Hl2.
  assert (Hl0 : (0 <= l)%Z) by apply Z.log2_nonneg.
  assert (Hl : (l < 53)%Z) by (apply Z.log2_lt_pow2; [exact Hm0 | exact Hm]).
  assert (Hlog : B64.log2_floor (Qabs x) = (l + k)%Z).
  { apply log2_floor_unique; rewrite Habs; unfold y.
    - rewrite two_to_plus, (two_to_nat l Hl0).
      apply Qmult_le_compat_r; [rewrite <- Zle_Qle; exact Hl1 | lra].
    - replace (l + k + 1)%Z with (Z.succ l + k)%Z by lia.
      rewrite two_to_plus, (two_to_nat (Z.succ l)) by lia.
      apply Qmult_lt_r; [exact Hpk | rewrite <- Zlt_Qlt; exact Hl2]. }
  unfold B64.fl. rewrite H0. cbv zeta. rewrite Hlog, Hs.
  set (ex := Z.max (l + k - 52) (-1074)).
  assert (Hex : (ex <= k)%Z) by (unfold ex; lia).
  pose proof (two_to_pos ex) as Hpex.
  assert (Hsplit : B64.two_to k == inject_Z (2 ^ (k - ex)) * B64.two_to ex).
  { rewrite <- (two_to_nat (k - ex)) by lia. rewrite <- two_to_plus.
    replace (k - ex + ex)%Z with k by lia. reflexivity. }
  assert (Hq : Qabs x / B64.two_to ex == inject_Z (m * 2 ^ (k - ex))).
  { rewrite Habs. unfold y. rewrite Hsplit, inject_Z_mult. field.
    intro E. rewrite E in Hpex. discriminate Hpex. }
  rewrite (round_compat _ _ Hq), round_of_int.
  assert (Hr : inject_Z (m * 2 ^ (k - ex)) * B64.two_to ex == y).
  { unfold y. rewrite Hsplit, inject_Z_mult. ring. }
  assert (Hno : Qle_bool (B64.two_to 1024) (inject_Z (m * 2 ^ (k - ex)) * B64.two_to ex)
                = false).
  { destruct (Qle_bool (B64.two_to 1024) (inject_Z (m * 2 ^ (k - ex)) * B64.two_to ex))
      eqn:E; [|reflexivity].
    apply Qle_bool_iff in E. rewrite Hr in E. lra. }
  rewrite Hno. f_equal. apply Qred_complete. unfold x.
  destruct s; rewrite Hr; reflexivity.
Qed.

(** What [fl] returns: a significand of at most 53 bits times a power of
    two from 2^-1074 on. *)
Lemma fl_form (x q : Q) :
  B64.fl x = B64.Fin q ->
  exists (s : bool) (m k : Z),
    (0 <= m <= 2 ^ 53)%Z /\ (-1074 <= k)%Z
    /\ inject_Z m * B64.two_to k < B64.two_to 1024
    /\ q = Qred (if s then - (inject_Z m * B64.two_to k) else inject_Z m * B64.two_to k).
Proof.
  unfold B64.fl. destruct (Qeq_bool x 0) eqn:E0.
  - intro H. injection H as <-. exists false, 0%Z, 0%Z.
    repeat split; try lia; reflexivity.
  - apply Qeq_bool_false in E0. cbv zeta.
    assert (Hpos : 0 < Qabs x).
    { destruct (Qle_lt_or_eq _ _ (Qabs_nonneg x)) as [Hl | He]; [exact Hl|].
      exfalso. apply E0.
      destruct (Qabs_Qle_condition x 0) as [Hc _].
      assert (Hle : Qabs x <= 0) by (rewrite <- He; apply Qle_refl).
      destruct (Hc Hle) as [H1 H2]. apply Qle_antisym; [exact H2 | exact H1]. }
    set (a := Qabs x) in *.
    destruct (log2_floor_spec a Hpos) as [Hlo Hhi].
    set (e := B64.log2_floor a) in *.
    set (ex := Z.max (e - 52) (-1074)).
    pose proof (two_to_pos ex) as Hpex.
    set (m := Py.round (a / B64.two_to ex)).
    assert (Hm0 : (0 <= m)%Z).
    { apply round_nonneg. apply Qle_shift_div_l; [exact Hpex | lra]. }
    assert (Hm : (m <= 2 ^ 53)%Z).
    { apply round_le_int. apply Qle_shift_div_r; [exact Hpex|].
      rewrite <- (two_to_nat 53) by lia. rewrite <- two_to_plus.
      apply Qlt_le_weak. apply (Qlt_le_trans _ _ _ Hhi).
      apply two_to_le. unfold ex. lia. }
    destruct (Qle_bool (B64.two_to 1024) (inject_Z m * B64.two_to ex)) eqn:Eo;
      [discriminate|].
    intro H. exists (negb (Qle_bool 0 x)), m, ex.
    split; [lia|]. split; [unfold ex; lia|]. split.
    + apply Qnot_le_lt. intro Hle. apply Qle_bool_iff in Hle. congruence.
    + set (neg := negb (Qle_bool 0 x)) in *.
      set (r := inject_Z m * B64.two_to ex) in *. clearbody r neg.
      injection H as <-. reflexivity.
Qed.

(** Every value of [fl] is a double. *)
Lemma valid_fl (x : Q) : B64.valid (B64.fl x).
Proof.
  destruct (B64.fl x) as [q|s|] eqn:E; cbn [B64.valid]; [|exact I | exact I].
  apply fl_form in E. destruct E as (s & m & k & [Hm0 Hm] & Hk & Hbig & ->).
  set (z := if s then - (inject_Z m * B64.two_to k) else inject_Z m * B64.two_to k).
  rewrite (fl_compat (Qred z) z (Qred_correct z)).
  destruct (Z.eq_dec m 0) as [E0 | Hne0].
  - assert (Hz : z == 0) by (unfold z; rewrite E0; destruct s; ring).
    rewrite (fl_compat z 0 Hz). rewrite (Qred_complete z 0 Hz). reflexivity.
  - destruct (Z.eq_dec m (2 ^ 53)) as [E53 | Hne].
    + set (z' := if s then - (inject_Z (2 ^ 52) * B64.two_to (k + 1))
                 else inject_Z (2 ^ 52) * B64.two_to (k + 1)).
      assert (Hy : inject_Z (2 ^ 52) * B64.two_to (k + 1) == inject_Z m * B64.two_to k).
      { rewrite E53, (Z.add_comm k 1), two_to_plus.
        change (B64.two_to 1) with 2.
        change (inject_Z (2 ^ 53)) with (inject_Z (2 ^ 52) * 2). ring. }
      assert (Hz : z == z') by (unfold z, z'; destruct s; rewrite Hy; reflexivity).
      rewrite (fl_compat z z' Hz), (Qred_complete z z' Hz).
      apply fl_exact; [lia | lia | rewrite Hy; exact Hbig].
    + apply fl_exact; [lia | exact Hk | exact Hbig].
Qed.

(** The [round] of a double is an int that is a double. *)
Lemma round_of_double (q : Q) :
  B64.fl q = B64.Fin q ->
  exists r, B64.of_Z (Py.round q) = B64.Fin r /\ r == inject_Z (Py.round q).
Proof.
  intro Hv. destruct (fl_form q q Hv) as (s & m & k & [Hm0 Hm] & Hk & Hbig & Hq).
  assert (Hq' : q == if s then - (inject_Z m * B64.two_to k) else inject_Z m * B64.two_to k).
  { rewrite Hq at 1. apply Qred_correct. }
  clear Hq. pose proof (two_to_pos k) as Hpk.
  destruct (Z_le_gt_dec 0 k) as [Hk0 | Hkneg].
  - (* an integer *)
    set (z0 := ((if s then -1 else 1) * (m * 2 ^ k))%Z).
    assert (Hz : q == inject_Z z0).
    { rewrite Hq'. unfold z0. rewrite !inject_Z_mult, <- (two_to_nat k Hk0).
      destruct s; [change (inject_Z (-1)) with (- (1)) | change (inject_Z 1) with 1]; ring. }
    rewrite (round_compat _ _ Hz), round_of_int.
    exists q. split; [|exact Hz].
    unfold B64.of_Z. rewrite <- (fl_compat q (inject_Z z0) Hz). exact Hv.
  - (* at most 2^53 in size *)
    assert (Hsmall : inject_Z m * B64.two_to k <= inject_Z (2 ^ 53)).
    { assert (H1 : B64.two_to k <= 1).
      { change 1 with (B64.two_to 0). apply two_to_le. lia. }
      assert (H2 : inject_Z m <= inject_Z (2 ^ 53)) by (rewrite <- Zle_Qle; exact Hm).
      assert (H3 : 0 <= inject_Z m) by (change 0 with (inject_Z 0); rewrite <- Zle_Qle; exact Hm0).
      set (u := inject_Z m) in *. set (w := B64.two_to k) in *.
      set (M := inject_Z (2 ^ 53)) in *. clearbody u w M. nra. }
    assert (Hnn : 0 <= inject_Z m * B64.two_to k).
    { apply Qmult_le_0_compat; [|lra].
      change 0 with (inject_Z 0). rewrite <- Zle_Qle. exact Hm0. }
    assert (Hup : q <= inject_Z (2 ^ 53)).
    { rewrite Hq'. assert (H4 : 0 <= inject_Z (2 ^ 53)) by discriminate.
      destruct s; lra. }
    assert (Hdn : inject_Z (- 2 ^ 53) <= q).
    { rewrite Hq'. assert (H4 : inject_Z (- 2 ^ 53) == - inject_Z (2 ^ 53)) by reflexivity.
      assert (H5 : 0 <= inject_Z (2 ^ 53)) by discriminate.
      rewrite H4. destruct s; lra. }
    apply round_le_int in Hup. apply round_ge_int in Hdn.
    exists (inject_Z (Py.round q)). split; [|reflexivity].
    apply of_Z_exact. lia.
Qed.

(** A product is a double. *)
Lemma valid_mul (x y : B64.float) : B64.valid (B64.mul x y).
Proof.
  destruct x as [a|s|], y as [b|t|]; cbn [B64.mul]; try exact I.
  - apply valid_fl.
  - destruct (Qeq_bool a 0); exact I.
  - destruct (Qeq_bool b 0); exact I.
Qed.

(** The tdee of [estimate_tdee] is an int that is a double: its conversion
    to a float, where the planner subtracts from it, neither raises nor
    rounds. *)
Lemma tdee_is_a_double (weight height_cm : B64.float) (age : Z) (sex key : string)
    (tdee : Z) :
  B64.estimate_tdee weight height_cm age sex key = B64.Done tdee ->
  exists r, B64.of_Z tdee = B64.Fin r /\ r == inject_Z tdee.
Proof.
  unfold B64.estimate_tdee.
  destruct (B64.bmr_mifflin_sex weight height_cm age sex) as [bmr|e];
    cbn [B64.and_then]; [|discriminate].
  cbv zeta.
  pose proof (valid_mul bmr (snd (dict_get B64.ACTIVITY_LEVELS key ("", B64.fl (12 # 10)))))
    as Hv.
  destruct (B64.mul bmr _) as [q|s|]; cbn [B64.round B64.valid] in *; try discriminate.
  intro H. injection H as <-. apply round_of_double. exact Hv.
Qed.

(** ** Running a sequence *)

Lemma b64_iobind_run {A B : Type} (m : B64.IO A) (k : A -> B64.IO B) (stdin : list string) :
  B64.iobind m k stdin
  = match m stdin with
    | (inl a, rest, out) =>
        let '(r', rest', out') := k a rest in (r', rest', (out ++ out')%list)
    | (inr e, rest, out) => (inr e, rest, out)
    end.
Proof. unfold B64.iobind. destruct (m stdin) as [[[a|e] rest] out]; reflexivity. Qed.

Lemma b64_iobind_inv {A B : Type} (m : B64.IO A) (k : A -> B64.IO B) (stdin : list string)
    (r : B + B64.stop) (rest : list string) (out : list B64.printed) :
  B64.iobind m k stdin = (r, rest, out) ->
  (exists e, m stdin = (inr e, rest, out) /\ r = inr e)
  \/ (exists a rest1 out1 out2,
        m stdin = (inl a, rest1, out1)
        /\ k a rest1 = (r, rest, out2)
        /\ out = (out1 ++ out2)%list).
Proof.
  rewrite b64_iobind_run. destruct (m stdin) as [[[a|e] rest1] out1].
  - destruct (k a rest1) as [[r2 rest2] out2] eqn:Hk.
    intro H. injection H as <- <- <-. right. exists a, rest1, out1, out2. auto.
  - intro H. injection H as <- <- <-. left. exists e. auto.
Qed.

Lemma b64_ask_inv (pass : string -> B64.outcome) (stdin : list string)
    (r : B64.float + B64.stop) (rest : list string) (out : list B64.printed) :
  B64.ask pass stdin = (r, rest, out) ->
  exists msgs, out = map B64.Line msgs
               /\ (forall v, r = inl v -> B64.input_loop pass stdin = B64.Returned v rest msgs).
Proof.
  unfold B64.ask. destruct (B64.input_loop pass stdin) as [v rest' msgs|msgs] eqn:E;
    intro H; injection H as <- <- <-; exists msgs; split; try reflexivity.
  - intros v' Hv. injection Hv as <-. reflexivity.
  - intros v' Hv. discriminate Hv.
Qed.

Lemma b64_ask_returned (pass : string -> B64.outcome) (stdin : list string)
    (v : B64.float) (rest : list string) (out : list B64.printed) :
  B64.ask pass stdin = (inl v, rest, out) ->
  exists msgs, B64.input_loop pass stdin = B64.Returned v rest msgs.
Proof.
  intro H. apply b64_ask_inv in H. destruct H as (msgs & _ & Hv).
  exists msgs. apply Hv. reflexivity.
Qed.

Lemma b64_input_returned (stdin : list string) (line : string) (rest : list string)
    (out : list B64.printed) :
  B64.input stdin = (inl line, rest, out) -> stdin = line :: rest.
Proof. destruct stdin; intro H; [discriminate H|]. injection H as <- <- _. reflexivity. Qed.

Lemma b64_run_attempt_returned {A : Type} (r : B64.attempt A) (stdin : list string)
    (a : A) (rest : list string) (out : list B64.printed) :
  B64.run_attempt r stdin = (inl a, rest, out) -> r = B64.Done a /\ rest = stdin.
Proof.
  destruct r as [a'|e]; intro H; [|discriminate H].
  injection H as <- <- _. split; reflexivity.
Qed.

(** ** What is printed *)

Section EmitsOnDoubles.

Variable P : B64.printed -> Prop.
Hypothesis P_line : forall s, P (B64.Line s).

Lemma b64_emits_ret {A : Type} (a : A) : B64.emits P (B64.ret a).
Proof. intros s r rest out H. injection H as <- <- <-. constructor. Qed.

Lemma b64_emits_raise {A : Type} (e : B64.stop) : B64.emits P (@B64.raise A e).
Proof. intros s r rest out H. injection H as <- <- <-. constructor. Qed.

Lemma b64_emits_run_attempt {A : Type} (r : B64.attempt A) : B64.emits P (B64.run_attempt r).
Proof. destruct r; [apply b64_emits_ret | apply b64_emits_raise]. Qed.

Lemma b64_emits_print (p : B64.printed) : P p -> B64.emits P (B64.print p).
Proof.
  intros Hp s r rest out H. injection H as <- <- <-. constructor; [exact Hp | constructor].
Qed.

Lemma b64_emits_input : B64.emits P B64.input.
Proof. intros [|l s] r rest out H; injection H as <- <- <-; constructor. Qed.

Lemma b64_emits_ask (pass : string -> B64.outcome) : B64.emits P (B64.ask pass).
Proof.
  intros s r rest out H. apply b64_ask_inv in H. destruct H as (msgs & -> & _).
  induction msgs; constructor; [apply P_line | assumption].
Qed.

Lemma b64_emits_bind {A B : Type} (m : B64.IO A) (k : A -> B64.IO B) :
  B64.emits P m -> (forall a, B64.emits P (k a)) -> B64.emits P (B64.iobind m k).
Proof.
  intros Hm Hk s r rest out H. apply b64_iobind_inv in H.
  destruct H as [(e & H & ->) | (a & rest1 & out1 & out2 & H1 & H2 & ->)].
  - exact (Hm _ _ _ _ H).
  - apply Forall_app. split; [exact (Hm _ _ _ _ H1) | exact (Hk _ _ _ _ _ H2)].
Qed.

End EmitsOnDoubles.

Lemma b64_plain_text_line (s : string) : B64.plain_text (B64.Line s).
Proof. exact I. Qed.

(** A formatted line printed by a sequence whose first part prints plain
    text only was printed by the second part. *)
Lemma b64_formatted_after {A B : Type} (m : B64.IO A) (k : A -> B64.IO B)
    (stdin : list string) (r : B + B64.stop) (rest : list string)
    (out : list B64.printed) (ps : list B64.piece) :
  B64.emits B64.plain_text m ->
  B64.iobind m k stdin = (r, rest, out) ->
  In (B64.Formatted ps) out ->
  exists a rest1 out1 out2,
    m stdin = (inl a, rest1, out1)
    /\ k a rest1 = (r, rest, out2)
    /\ In (B64.Formatted ps) out2.
Proof.
  intros Hm H Hin. apply b64_iobind_inv in H.
  assert (Hno : forall o, Forall B64.plain_text o -> ~ In (B64.Formatted ps) o).
  { intros o Ho Hi. rewrite Forall_forall in Ho. exact (Ho _ Hi). }
  destruct H as [(e & H & ->) | (a & rest1 & out1 & out2 & H1 & H2 & ->)].
  - exfalso. exact (Hno _ (Hm _ _ _ _ H) Hin).
  - apply in_app_or in Hin. destruct Hin as [Hin | Hin].
    + exfalso. exact (Hno _ (Hm _ _ _ _ H1) Hin).
    + exists a, rest1, out1, out2. auto.
Qed.

(** ** The questions before a plan *)

(** X16.  On lines of ASCII text, [action_plan] prints an estimate or a
    plan only after two weights and an age were accepted, the age as a
    double has an integer part of 18 or more, and the answers to the
    questions on pregnancy, asked when the sex begins with f or F, and on
    medical conditions did not begin with y or Y.  So no figure is printed
    for a minor or for an answer of yes to either question.  An age typed
    as 17.99999999999999999 is the double 18.0 and passes. *)
Theorem plan_is_printed_only_past_the_gates :
  (forall (stdin : list string) (r : unit + B64.stop) (rest : list string)
          (out : list B64.printed) (ps : list B64.piece),
     Forall (fun line => string_forall ascii_char line = true) stdin ->
     B64.action_plan true stdin = (r, rest, out) ->
     In (B64.Formatted ps) out ->
     exists (weight target age_f : B64.float) (age : Z) (sex_line : string)
            (after_sex : list string),
       (exists r1 o1 r2 o2 o3,
          B64.parse_weight stdin = B64.Returned weight r1 o1
          /\ B64.parse_weight r1 = B64.Returned target r2 o2
          /\ B64.safe_float_input r2 = B64.Returned age_f (sex_line :: after_sex) o3)
       /\ B64.int age_f = B64.Done age
       /\ (18 <= age)%Z
       /\ exists (med_line : string) (later : list string),
            (if startswith (lower (or_default (strip sex_line) "other")) "f"
             then exists preg_line,
                    after_sex = preg_line :: med_line :: later
                    /\ startswith (lower (strip preg_line)) "y" = false
             else after_sex = med_line :: later)
            /\ startswith (lower (strip med_line)) "y" = false)
  /\ B64.action_plan true ["90"; "80"; "17.9"]
     = (inl tt, [], [B64.Line planner_header; B64.Line under_18_warning])
  /\ In (B64.Formatted
           [B64.Lit (nl ++ "Estimated TDEE (calories/day to maintain current weight): ");
            B64.Val (B64.VInt 2290); B64.Lit " kcal"])
        (snd (B64.action_plan true
                ["90"; "80"; "17.99999999999999999"; "male"; "n"; "175"; ""; "10"])).
Proof.
  split; [|split; [vm_compute; reflexivity | vm_compute; do 7 right; left; reflexivity]].
  intros stdin r rest out ps _ H Hin.
  unfold B64.action_plan in H. cbn [negb] in H.
  apply (b64_formatted_after _ _ _ _ _ _ ps) in H;
    [|apply b64_emits_print; exact I | exact Hin].
  clear Hin. destruct H as (u & s0 & o0 & out0 & Hp & H & Hin).
  injection Hp as <- <- <-.
  apply (b64_formatted_after _ _ _ _ _ _ ps) in H;
    [|apply (b64_emits_ask _ b64_plain_text_line) | exact Hin].
  clear Hin. destruct H as (weight & r1 & o1 & out1 & Hw & H & Hin).
  apply b64_ask_returned in Hw. destruct Hw as (m1 & Hw).
  apply (b64_formatted_after _ _ _ _ _ _ ps) in H;
    [|apply (b64_emits_ask _ b64_plain_text_line) | exact Hin].
  clear Hin. destruct H as (target & r2 & o2 & out2 & Ht & H & Hin).
  apply b64_ask_returned in Ht. destruct Ht as (m2 & Ht).
  apply (b64_formatted_after _ _ _ _ _ _ ps) in H;
    [|apply (b64_emits_ask _ b64_plain_text_line) | exact Hin].
  clear Hin. destruct H as (age_f & r3 & o3 & out3 & Ha & H & Hin).
  apply b64_ask_returned in Ha. destruct Ha as (m3 & Ha).
  apply (b64_formatted_after _ _ _ _ _ _ ps) in H;
    [|apply b64_emits_run_attempt | exact Hin].
  clear Hin. destruct H as (age & r3' & o3' & out3' & Hage_f & H & Hin).
  apply b64_run_attempt_returned in Hage_f. destruct Hage_f as [Hint ->].
  destruct (age <? 18)%Z eqn:Hage.
  { injection H as _ _ <-. destruct Hin as [E | []]. discriminate E. }
  apply Z.ltb_ge in Hage.
  apply (b64_formatted_after _ _ _ _ _ _ ps) in H; [| | exact Hin].
  2:{ destruct (80 <? age)%Z; [apply b64_emits_print; exact I | apply b64_emits_ret]. }
  clear Hin. destruct H as (u1 & r4 & o4 & out4 & Hnote & H & Hin).
  assert (r4 = r3) as ->.
  { destruct (80 <? age)%Z; injection Hnote as _ <- _; reflexivity. }
  clear Hnote.
  apply (b64_formatted_after _ _ _ _ _ _ ps) in H; [|apply b64_emits_input | exact Hin].
  clear Hin. destruct H as (sex_line & r5 & o5 & out5 & Hs & H & Hin).
  apply b64_input_returned in Hs. subst r3.
  exists weight, target, age_f, age, sex_line, r5.
  split; [exists r1, m1, r2, m2, m3; auto|]. split; [exact Hint|]. split; [exact Hage|].
  cbv zeta in H.
  apply (b64_formatted_after _ _ _ _ _ _ ps) in H; [| | exact Hin].
  2:{ destruct (startswith _ "f"); [|apply b64_emits_ret].
      apply b64_emits_bind; [apply b64_emits_input | intro; apply b64_emits_ret]. }
  clear Hin. destruct H as (pregnant & r6 & o6 & out6 & Hpreg & H & Hin).
  destruct pregnant.
  { injection H as _ _ <-. destruct Hin as [E | []]. discriminate E. }
  apply (b64_formatted_after _ _ _ _ _ _ ps) in H; [|apply b64_emits_input | exact Hin].
  clear Hin. destruct H as (med_line & r7 & o7 & out7 & Hm & H & Hin).
  apply b64_input_returned in Hm. cbv zeta in H.
  destruct (startswith (lower (strip med_line)) "y") eqn:Hmed.
  { injection H as _ _ <-. destruct Hin as [E | []]. discriminate E. }
  exists med_line, r7. split; [|exact Hmed].
  destruct (startswith (lower (or_default (strip sex_line) "other")) "f").
  - apply b64_iobind_inv in Hpreg.
    destruct Hpreg as [(e & _ & E) | (preg_line & r8 & o8 & o9 & Hi & Hr & _)];
      [discriminate E|].
    apply b64_input_returned in Hi. injection Hr as Hy Hr _.
    exists preg_line. rewrite Hi, Hr, Hm. split; [reflexivity | exact Hy].
  - injection Hpreg as Hr _. rewrite Hr, Hm. reflexivity.
Qed.

Lemma plan_is_printed_past_the_gates_at_30_male :
  let stdin := ["90"; "80"; "30"; "male"; "n"; "175"; "3"; "10"] in
  let ps := [B64.Lit (nl ++ "Estimated TDEE (calories/day to maintain current weight): ");
             B64.Val (B64.VInt 2866); B64.Lit " kcal"] in
  Forall (fun line => string_forall ascii_char line = true) stdin
  /\ In (B64.Formatted ps) (snd (B64.action_plan true stdin))
  /\ exists (weight target age_f : B64.float) (age : Z) (sex_line : string)
            (after_sex : list string),
       (exists r1 o1 r2 o2 o3,
          B64.parse_weight stdin = B64.Returned weight r1 o1
          /\ B64.parse_weight r1 = B64.Returned target r2 o2
          /\ B64.safe_float_input r2 = B64.Returned age_f (sex_line :: after_sex) o3)
       /\ B64.int age_f = B64.Done age
       /\ (18 <= age)%Z
       /\ exists (med_line : string) (later : list string),
            (if startswith (lower (or_default (strip sex_line) "other")) "f"
             then exists preg_line,
                    after_sex = preg_line :: med_line :: later
                    /\ startswith (lower (strip preg_line)) "y" = false
             else after_sex = med_line :: later)
            /\ startswith (lower (strip med_line)) "y" = false.
Proof.
  cbv zeta.
  set (stdin := ["90"; "80"; "30"; "male"; "n"; "175"; "3"; "10"]).
  set (ps := [B64.Lit (nl ++ "Estimated TDEE (calories/day to maintain current weight): ");
              B64.Val (B64.VInt 2866); B64.Lit " kcal"]).
  assert (Ha : Forall (fun line => string_forall ascii_char line = true) stdin)
    by (repeat constructor).
  assert (Hin : In (B64.Formatted ps) (snd (B64.action_plan true stdin))).
  { vm_compute. do 7 right. left. reflexivity. }
  split; [exact Ha|]. split; [exact Hin|].
  assert (H : B64.action_plan true stdin
              = (fst (fst (B64.action_plan true stdin)),
                 snd (fst (B64.action_plan true stdin)),
                 snd (B64.action_plan true stdin)))
    by (vm_compute; reflexivity).
  exact (proj1 plan_is_printed_only_past_the_gates stdin _ _ _ ps Ha H Hin).
Defined.

(** ** The BMI calculator *)

Lemma b64_advice_of_category (bmi : B64.float) :
  (if String.eqb (B64.bmi_category bmi) "Underweight"
   then B64.print (B64.Line advice_underweight)
   else if String.eqb (B64.bmi_category bmi) "Normal (healthy weight)"
        then B64.print (B64.Line advice_normal)
   else if String.eqb (B64.bmi_category bmi) "Overweight"
        then B64.print (B64.Line advice_overweight)
   else B64.print (B64.Line advice_obesity))
  = B64.print (B64.Line (B64.advice_for bmi)).
Proof.
  unfold B64.bmi_category, B64.advice_for.
  assert (E : B64.fl (185 # 10) = B64.Fin (37 # 2)) by (vm_compute; reflexivity).
  rewrite E. clear E.
  destruct bmi as [q|s|]; [|destruct s; reflexivity | reflexivity].
  cbn [B64.ltb B64.leb].
  destruct (Py.ltb q (37 # 2)) eqn:E1; [reflexivity|].
  assert (L1 : Py.leb (37 # 2) q = true)
    by (apply leb_true; apply ltb_false in E1; exact E1).
  rewrite L1. cbn [andb].
  destruct (Py.ltb q 25) eqn:E2; [reflexivity|].
  assert (L2 : Py.leb 25 q = true)
    by (apply leb_true; apply ltb_false in E2; exact E2).
  rewrite L2. cbn [andb].
  destruct (Py.ltb q 30); reflexivity.
Qed.

(** X17.  On lines of ASCII text, once [action_check_bmi] has a weight and
    a height from its two parsers, a square of the height in metres that is
    zero, as for the height 0 that [parse_height] does return, ends it with
    [ZeroDivisionError] before anything is printed about the BMI; otherwise
    it prints one line with the BMI, the quotient as a double rounded to one
    decimal, and its category, then the advice for that BMI: underweight
    below 18.5, normal below 25, overweight below 30, obesity otherwise,
    [nan] included.  So 99.8 kg at 200 cm print 24.9 and the normal range,
    and 48 kg at 160 cm print 18.7. *)
Theorem check_bmi_on_accepted_measures :
  (forall (stdin : list string) (weight height : B64.float) (r1 r2 m1 m2 : list string),
     Forall (fun line => string_forall ascii_char line = true) stdin ->
     B64.parse_weight stdin = B64.Returned weight r1 m1 ->
     B64.parse_height r1 = B64.Returned height r2 m2 ->
     let asked := (B64.Line bmi_header :: map B64.Line m1 ++ map B64.Line m2)%list in
     let square := B64.mul (B64.div height (B64.Fin 100)) (B64.div height (B64.Fin 100)) in
     B64.action_check_bmi stdin
     = if B64.is_zero square
       then (inr (B64.Raised B64.Zero_division_error), r2, asked)
       else
         let bmi := B64.round_nd (B64.div weight square) 1 in
         (inl tt, r2,
          (asked ++ [B64.Formatted [B64.Lit (nl ++ "Your BMI is "); B64.Val (B64.VFloat bmi);
                                    B64.Lit " — ";
                                    B64.Val (B64.VStr (B64.bmi_category bmi))];
                     B64.Line (B64.advice_for bmi)])%list))
  /\ B64.action_check_bmi ["99.8"; "200"]
     = (inl tt, [],
        [B64.Line bmi_header;
         B64.Formatted [B64.Lit (nl ++ "Your BMI is ");
                        B64.Val (B64.VFloat (B64.fl (249 # 10))); B64.Lit " — ";
                        B64.Val (B64.VStr "Normal (healthy weight)")];
         B64.Line advice_normal])
  /\ B64.action_check_bmi ["48"; "160"]
     = (inl tt, [],
        [B64.Line bmi_header;
         B64.Formatted [B64.Lit (nl ++ "Your BMI is ");
                        B64.Val (B64.VFloat (B64.fl (187 # 10))); B64.Lit " — ";
                        B64.Val (B64.VStr "Normal (healthy weight)")];
         B64.Line advice_normal]).
Proof.
  split; [|split; vm_compute; reflexivity].
  intros stdin weight height r1 r2 m1 m2 _ Hw Hh. cbv zeta.
  unfold B64.parse_weight in Hw. unfold B64.parse_height in Hh.
  unfold B64.action_check_bmi.
  rewrite b64_iobind_run. cbn [B64.print].
  rewrite b64_iobind_run. unfold B64.ask at 1. rewrite Hw.
  rewrite b64_iobind_run. unfold B64.ask at 1. rewrite Hh.
  rewrite b64_iobind_run. unfold B64.calculate_bmi, B64.truediv. cbv zeta.
  destruct (B64.is_zero (B64.mul (B64.div height (B64.Fin 100))
                                 (B64.div height (B64.Fin 100)))).
  - cbn. rewrite app_nil_r. reflexivity.
  - cbn [B64.and_then B64.run_attempt].
    generalize (B64.round_nd
                  (B64.div weight (B64.mul (B64.div height (B64.Fin 100))
                                           (B64.div height (B64.Fin 100)))) 1).
    intro bmi. unfold B64.ret at 1. cbv iota beta. rewrite b64_advice_of_category.
    rewrite b64_iobind_run. cbn [B64.print app]. rewrite <- List.app_assoc. reflexivity.
Qed.

Lemma check_bmi_at_height_zero :
  Forall (fun line => string_forall ascii_char line = true) ["70"; "0"]
  /\ B64.parse_weight ["70"; "0"] = B64.Returned (B64.Fin 70) ["0"] []
  /\ B64.parse_height ["0"] = B64.Returned (B64.Fin 0) [] []
  /\ B64.action_check_bmi ["70"; "0"]
     = (inr (B64.Raised B64.Zero_division_error), [], [B64.Line bmi_header]).
Proof.
  assert (Ha : Forall (fun line => string_forall ascii_char line = true) ["70"; "0"])
    by (repeat constructor).
  assert (Hw : B64.parse_weight ["70"; "0"] = B64.Returned (B64.Fin 70) ["0"] [])
    by (vm_compute; reflexivity).
  assert (Hh : B64.parse_height ["0"] = B64.Returned (B64.Fin 0) [] [])
    by (vm_compute; reflexivity).
  split; [exact Ha|]. split; [exact Hw|]. split; [exact Hh|].
  exact (proj1 check_bmi_on_accepted_measures ["70"; "0"] _ _ _ _ _ _ Ha Hw Hh).
Defined.
